(** * A shallow embedding of the Tea Brewing fixture API

    The development follows the Express application: the zod schemas of
    [src/schemas], the four in-memory [Map] stores, the route handlers of
    [src/routes/teapots.ts], [teas.ts], [brews.ts] and [health.ts], the
    router of [src/routes/index.ts] and the middleware chain of
    [src/app.ts].

    - A JavaScript [Map] is an association list in insertion order with
      pairwise distinct keys (the order is observable through
      [Array.from(map.values())]).
    - A handler is a function from the stores, the two values it draws from
      its environment ([uuidv4()] and [new Date().toISOString()]) and the
      request to the new stores and an outcome: a response or a thrown
      [ZodError].
    - The three predicates the schemas take from outside the repository
      (zod's UUID and datetime formats, JavaScript's [Number] coercion) are
      section variables. *)

From Stdlib Require Import List String Ascii ZArith QArith Bool Lia.
From Stdlib Require Import Permutation Sorted.
Import ListNotations.

Close Scope Q_scope.
Open Scope string_scope.
Open Scope Z_scope.
Open Scope list_scope.

Set Implicit Arguments.

(** ** JavaScript [Map] *)

Module JsMap.

Section Ops.

Variable V : Type.

Definition t := list (string * V).

Definition empty : t := [].

Fixpoint get (k : string) (m : t) : option V :=
  match m with
  | [] => None
  | (k', v) :: m' => if String.eqb k' k then Some v else get k m'
  end.

Definition has (k : string) (m : t) : bool :=
  match get k m with Some _ => true | None => false end.

(** [map.set(k, v)]: an existing key keeps its position, a new key goes
    last. *)
Fixpoint set (k : string) (v : V) (m : t) : t :=
  match m with
  | [] => [(k, v)]
  | (k', v') :: m' =>
      if String.eqb k' k then (k, v) :: m' else (k', v') :: set k v m'
  end.

Definition delete (k : string) (m : t) : t :=
  filter (fun e => negb (String.eqb (fst e) k)) m.

Definition keys (m : t) : list string := map fst m.

Definition values (m : t) : list V := map snd m.

Definition entries (m : t) : list (string * V) := m.

(** The representation invariant of a [Map]: one entry per key. *)
Definition wf (m : t) : Prop := NoDup (keys m).

End Ops.

Arguments empty {V}.

End JsMap.

(** ** JSON values, as [express.json()] hands them to a handler *)

#[local] Unset Elimination Schemes.

Inductive json : Type :=
| JNull
| JBool (b : bool)
| JNum (q : Q)
| JStr (s : string)
| JArr (items : list json)
| JObj (fields : list (string * json)).

#[local] Set Elimination Schemes.

Fixpoint assoc {A : Type} (k : string) (l : list (string * A)) : option A :=
  match l with
  | [] => None
  | (k', v) :: l' => if String.eqb k' k then Some v else assoc k l'
  end.

(** [data[key]] on a parsed body; [None] is [undefined]. *)
Definition prop (k : string) (fields : list (string * json)) : option json :=
  assoc k fields.

(** [Number.isInteger] on a finite number. *)
Definition as_integer (q : Q) : option Z :=
  let r := Qred q in
  if Pos.eqb (Qden r) 1 then Some (Qnum r) else None.

(** [Array.prototype.slice(start, end)] on integer arguments. *)
Definition js_slice {A : Type} (start stop : Z) (l : list A) : list A :=
  let len := Z.of_nat (List.length l) in
  let k := if start <? 0 then Z.max (len + start) 0 else Z.min start len in
  let final := if stop <? 0 then Z.max (len + stop) 0 else Z.min stop len in
  firstn (Z.to_nat (Z.max (final - k) 0)) (skipn (Z.to_nat k) l).

(** [Math.ceil(a / b)] for an array length [a] and a positive integer [b]:
    the division is exact on these magnitudes, so the result is the
    integer ceiling of the quotient. *)
Definition math_ceil_div (a b : Z) : Z := - ((- a) / b).

(** JavaScript truthiness of a string. *)
Definition truthy (s : string) : bool := negb (String.eqb s "").

(** ** Enumerations of the schemas *)

Inductive TeapotMaterial :=
| ceramic | cast_iron | glass | porcelain | clay | stainless_steel.

Inductive TeapotStyle :=
| kyusu | gaiwan | english | moroccan | turkish | yixing.

Inductive TeaType :=
| green | black | oolong | white | puerh | herbal | rooibos.

Inductive CaffeineLevel := caf_none | caf_low | caf_medium | caf_high.

Inductive BrewStatus := preparing | steeping | ready | served | cold.

Definition TeapotMaterial_of_string (s : string) : option TeapotMaterial :=
  if String.eqb s "ceramic" then Some ceramic
  else if String.eqb s "cast-iron" then Some cast_iron
  else if String.eqb s "glass" then Some glass
  else if String.eqb s "porcelain" then Some porcelain
  else if String.eqb s "clay" then Some clay
  else if String.eqb s "stainless-steel" then Some stainless_steel
  else None.

Definition TeapotStyle_of_string (s : string) : option TeapotStyle :=
  if String.eqb s "kyusu" then Some kyusu
  else if String.eqb s "gaiwan" then Some gaiwan
  else if String.eqb s "english" then Some english
  else if String.eqb s "moroccan" then Some moroccan
  else if String.eqb s "turkish" then Some turkish
  else if String.eqb s "yixing" then Some yixing
  else None.

Definition TeaType_of_string (s : string) : option TeaType :=
  if String.eqb s "green" then Some green
  else if String.eqb s "black" then Some black
  else if String.eqb s "oolong" then Some oolong
  else if String.eqb s "white" then Some white
  else if String.eqb s "puerh" then Some puerh
  else if String.eqb s "herbal" then Some herbal
  else if String.eqb s "rooibos" then Some rooibos
  else None.

Definition CaffeineLevel_of_string (s : string) : option CaffeineLevel :=
  if String.eqb s "none" then Some caf_none
  else if String.eqb s "low" then Some caf_low
  else if String.eqb s "medium" then Some caf_medium
  else if String.eqb s "high" then Some caf_high
  else None.

Definition BrewStatus_of_string (s : string) : option BrewStatus :=
  if String.eqb s "preparing" then Some preparing
  else if String.eqb s "steeping" then Some steeping
  else if String.eqb s "ready" then Some ready
  else if String.eqb s "served" then Some served
  else if String.eqb s "cold" then Some cold
  else None.

Definition TeapotMaterial_eqb (a b : TeapotMaterial) : bool :=
  match a, b with
  | ceramic, ceramic | cast_iron, cast_iron | glass, glass
  | porcelain, porcelain | clay, clay
  | stainless_steel, stainless_steel => true
  | _, _ => false
  end.

Definition TeapotStyle_eqb (a b : TeapotStyle) : bool :=
  match a, b with
  | kyusu, kyusu | gaiwan, gaiwan | english, english
  | moroccan, moroccan | turkish, turkish | yixing, yixing => true
  | _, _ => false
  end.

Definition TeaType_eqb (a b : TeaType) : bool :=
  match a, b with
  | green, green | black, black | oolong, oolong | white, white
  | puerh, puerh | herbal, herbal | rooibos, rooibos => true
  | _, _ => false
  end.

Definition CaffeineLevel_eqb (a b : CaffeineLevel) : bool :=
  match a, b with
  | caf_none, caf_none | caf_low, caf_low
  | caf_medium, caf_medium | caf_high, caf_high => true
  | _, _ => false
  end.

Definition BrewStatus_eqb (a b : BrewStatus) : bool :=
  match a, b with
  | preparing, preparing | steeping, steeping | ready, ready
  | served, served | cold, cold => true
  | _, _ => false
  end.

(** ** Entities ([z.infer] of the main schemas) *)

Record Teapot := mkTeapot {
  teapot_id : string;
  teapot_name : string;
  teapot_material : TeapotMaterial;
  teapot_capacityMl : Z;
  teapot_style : TeapotStyle;
  teapot_description : option string;
  teapot_createdAt : string;
  teapot_updatedAt : string }.

Record Tea := mkTea {
  tea_id : string;
  tea_name : string;
  tea_type : TeaType;
  tea_origin : option string;
  tea_caffeineLevel : CaffeineLevel;
  tea_steepTempCelsius : Z;
  tea_steepTimeSeconds : Z;
  tea_description : option string;
  tea_createdAt : string;
  tea_updatedAt : string }.

Record Brew := mkBrew {
  brew_id : string;
  brew_teapotId : string;
  brew_teaId : string;
  brew_status : BrewStatus;
  brew_waterTempCelsius : Z;
  brew_notes : option string;
  brew_startedAt : string;
  brew_completedAt : option string;
  brew_createdAt : string;
  brew_updatedAt : string }.

Record Steep := mkSteep {
  steep_id : string;
  steep_brewId : string;
  steep_steepNumber : Z;
  steep_durationSeconds : Z;
  steep_rating : option Z;
  steep_notes : option string;
  steep_createdAt : string }.

(** ** Parsed request shapes ([z.infer] of the request schemas) *)

Record CreateTeapot := mkCreateTeapot {
  ct_name : string;
  ct_material : TeapotMaterial;
  ct_capacityMl : Z;
  ct_style : TeapotStyle;
  ct_description : option string }.

(** [UpdateTeapotSchema] has the fields of [CreateTeapotSchema], all
    required. *)
Definition UpdateTeapot := CreateTeapot.

(** An outer [None] is a key absent from the parsed object. *)
Record PatchTeapot := mkPatchTeapot {
  pt_name : option string;
  pt_material : option TeapotMaterial;
  pt_capacityMl : option Z;
  pt_style : option TeapotStyle;
  pt_description : option (option string) }.

Record TeapotQuery := mkTeapotQuery {
  tq_page : Z;
  tq_limit : Z;
  tq_material : option TeapotMaterial;
  tq_style : option TeapotStyle }.

Record CreateTea := mkCreateTea {
  cta_name : string;
  cta_type : TeaType;
  cta_origin : option string;
  cta_caffeineLevel : CaffeineLevel;
  cta_steepTempCelsius : Z;
  cta_steepTimeSeconds : Z;
  cta_description : option string }.

Definition UpdateTea := CreateTea.

Record PatchTea := mkPatchTea {
  pta_name : option string;
  pta_type : option TeaType;
  pta_origin : option string;
  pta_caffeineLevel : option CaffeineLevel;
  pta_steepTempCelsius : option Z;
  pta_steepTimeSeconds : option Z;
  pta_description : option (option string) }.

Record TeaQuery := mkTeaQuery {
  taq_page : Z;
  taq_limit : Z;
  taq_type : option TeaType;
  taq_caffeineLevel : option CaffeineLevel }.

Record CreateBrew := mkCreateBrew {
  cb_teapotId : string;
  cb_teaId : string;
  cb_waterTempCelsius : option Z;
  cb_notes : option string }.

Record PatchBrew := mkPatchBrew {
  pb_status : option BrewStatus;
  pb_notes : option (option string);
  pb_completedAt : option (option string) }.

Record BrewQuery := mkBrewQuery {
  bq_page : Z;
  bq_limit : Z;
  bq_status : option BrewStatus;
  bq_teapotId : option string;
  bq_teaId : option string }.

Record CreateSteep := mkCreateSteep {
  cs_durationSeconds : Z;
  cs_rating : option Z;
  cs_notes : option string }.

Record PaginationQuery := mkPaginationQuery {
  pq_page : Z;
  pq_limit : Z }.

(** ** Responses *)

(** The error body [{code, message, details?}]; [details] keeps the keys of
    [error.flatten().fieldErrors], the fields that failed. *)
Record ApiError := mkApiError {
  err_code : string;
  err_message : string;
  err_details : option (list string) }.

Record Pagination := mkPagination {
  pg_page : Z;
  pg_limit : Z;
  pg_total : Z;
  pg_totalPages : Z }.

Record Page (A : Type) := mkPage {
  data : list A;
  pagination : Pagination }.

(** The bodies of the health routes: the keys of [HealthResponseSchema]
    that a route sends, an absent key being [None]. *)
Record HealthCheck := mkHealthCheck {
  hc_name : string;
  hc_status : string }.

Record HealthResponse := mkHealthResponse {
  hr_status : string;
  hr_timestamp : option string;
  hr_version : option string;
  hr_checks : option (list HealthCheck) }.

(** The body of GET /brew, [TeapotResponseSchema]. *)
Record TeapotResponse := mkTeapotResponse {
  tr_error : string;
  tr_message : string;
  tr_spec : string }.

Inductive Body :=
| BTeapot (t : Teapot)
| BTea (t : Tea)
| BBrew (b : Brew)
| BBrewWithDetails (b : Brew) (teapot : Teapot) (tea : Tea)
| BSteep (s : Steep)
| BTeapotPage (p : Page Teapot)
| BTeaPage (p : Page Tea)
| BBrewPage (p : Page Brew)
| BSteepPage (p : Page Steep)
| BError (e : ApiError)
| BHealth (h : HealthResponse)
| BTeapotResponse (t : TeapotResponse)
| BEmpty.

Record Response := mkResponse {
  status : Z;
  body : Body }.

(** What running a handler gives: it answers, or [Schema.parse] throws a
    [ZodError] (kept as the list of failing fields). *)
Inductive Outcome :=
| Responded (r : Response)
| Thrown (fieldErrors : list string).

(** What the error middleware is handed: the [ZodError] a route handler
    threw, the error of [express.json()] on a request body that it cannot
    parse, or the error of the Express router on a path parameter that does
    not decode. *)
Inductive Error :=
| ZodError (fieldErrors : list string)
| BodyParserError
| URIError.

Definition json_error (st : Z) (code message : string) : Outcome :=
  Responded (mkResponse st (BError (mkApiError code message None))).

Definition json_error_details (st : Z) (code message : string)
  (details : list string) : Outcome :=
  Responded (mkResponse st (BError (mkApiError code message (Some details)))).

Definition json_ok (st : Z) (b : Body) : Outcome :=
  Responded (mkResponse st b).

(** ** The stores and the environment of a request *)

Record State := mkState {
  teapots : JsMap.t Teapot;
  teas : JsMap.t Tea;
  brews : JsMap.t Brew;
  steeps : JsMap.t Steep }.

Definition initial : State :=
  mkState JsMap.empty JsMap.empty JsMap.empty JsMap.empty.

(** The two values a handler reads from outside: the result of [uuidv4()]
    and of [new Date().toISOString()]. *)
Record Env := mkEnv {
  uuid : string;
  now : string }.

(** ** The validation layer *)

Inductive SafeParse (A : Type) :=
| Success (data : A)
| Failure (fieldErrors : list string).

Arguments Success {A} data.
Arguments Failure {A} fieldErrors.

Definition issue {A : Type} (name : string) (r : option A) : list string :=
  match r with Some _ => [] | None => [name] end.

Definition finish {A : Type} (r : option A) (issues : list string)
  : SafeParse A :=
  match r with Some d => Success d | None => Failure issues end.

Notation "x <- e ;; k" := (match e with Some x => k | None => None end)
  (at level 61, e at next level, right associativity).

(** A field schema maps [data[key]] ([None] when the key is absent) to the
    parsed value, or to [None] when the field is in error. *)
Definition field (A : Type) := option json -> option A.

Definition positive (n : Z) : bool := 0 <? n.
Definition min (m n : Z) : bool := m <=? n.
Definition max (m n : Z) : bool := n <=? m.

(** The length checks of [z.string()]; a string is its sequence of code
    units. *)
Definition smin (m : Z) (s : string) : bool := m <=? Z.of_nat (String.length s).
Definition smax (m : Z) (s : string) : bool := Z.of_nat (String.length s) <=? m.

Definition checks {A : Type} (cs : list (A -> bool)) (a : A) : bool :=
  forallb (fun c => c a) cs.

(** [z.string()] with length checks. *)
Definition z_string (cs : list (string -> bool)) : field string :=
  fun x => match x with
           | Some (JStr s) => if checks cs s then Some s else None
           | _ => None
           end.

(** [z.number().int()] with range checks. *)
Definition z_int (cs : list (Z -> bool)) : field Z :=
  fun x => match x with
           | Some (JNum q) =>
               n <- as_integer q ;; if checks cs n then Some n else None
           | _ => None
           end.

(** [z.enum([...])]. *)
Definition z_enum {E : Type} (of_string : string -> option E) : field E :=
  fun x => match x with
           | Some (JStr s) => of_string s
           | _ => None
           end.

Definition nullable {A : Type} (f : field A) : field (option A) :=
  fun x => match x with
           | Some JNull => Some None
           | _ => a <- f x ;; Some (Some a)
           end.

Definition optional {A : Type} (f : field A) : field (option A) :=
  fun x => match x with
           | None => Some None
           | _ => a <- f x ;; Some (Some a)
           end.

Definition default {A : Type} (d : A) (f : field A) : field A :=
  fun x => match x with
           | None => Some d
           | _ => f x
           end.

(** Object spread of an optional key over an existing value. *)
Definition over {A : Type} (new : option A) (old : A) : A :=
  match new with Some v => v | None => old end.

(** [req.query] holds strings; zod sees them as JavaScript strings. *)
Definition query_object (q : list (string * string)) : list (string * json) :=
  map (fun e => (fst e, JStr (snd e))) q.

(** ** Concrete instances, for running the handlers

    A hexadecimal 8-4-4-4-12 identifier format, a fixed-width ISO 8601
    timestamp format and a decimal reading of [Number]; the properties
    below hold for any choice of the three. *)

Module Sample.

Definition is_hex (c : ascii) : bool :=
  let n := nat_of_ascii c in
  (Nat.leb 48 n && Nat.leb n 57)
  || (Nat.leb 97 n && Nat.leb n 102)
  || (Nat.leb 65 n && Nat.leb n 70).

Definition is_digit (c : ascii) : bool :=
  let n := nat_of_ascii c in Nat.leb 48 n && Nat.leb n 57.

(** A pattern: [true] stands for a hexadecimal digit, [false] for a
    dash. *)
Fixpoint follows (pattern : list bool) (s : string) : bool :=
  match pattern, s with
  | [], EmptyString => true
  | true :: p, String c s' => is_hex c && follows p s'
  | false :: p, String c s' => Ascii.eqb c "-" && follows p s'
  | _, _ => false
  end.

Definition uuid_format (s : string) : bool :=
  follows (repeat true 8 ++ [false] ++ repeat true 4 ++ [false]
           ++ repeat true 4 ++ [false] ++ repeat true 4 ++ [false]
           ++ repeat true 12) s.

(** [YYYY-MM-DDTHH:mm:ss.sssZ], the shape [toISOString] prints. *)
Definition datetime_format (s : string) : bool :=
  Nat.eqb (String.length s) 24
  && match String.get 10 s, String.get 23 s with
     | Some t, Some z => Ascii.eqb t "T" && Ascii.eqb z "Z"
     | _, _ => false
     end.

Fixpoint digits (acc : Z) (s : string) : option Z :=
  match s with
  | EmptyString => Some acc
  | String c s' =>
      if is_digit c
      then digits (10 * acc + Z.of_nat (nat_of_ascii c - 48)) s'
      else None
  end.

(** [Number(s)] on an unsigned decimal literal; the empty string is 0. *)
Definition decimal_Number (s : string) : option Q :=
  match digits 0 s with
  | Some n => Some (inject_Z n)
  | None => None
  end.

Definition id_teapot : string := "11111111-1111-4111-8111-111111111111".
Definition id_tea : string := "22222222-2222-4222-8222-222222222222".
Definition id_brew : string := "33333333-3333-4333-8333-333333333333".
Definition id_steep1 : string := "44444444-4444-4444-8444-444444444444".
Definition id_steep2 : string := "55555555-5555-4555-8555-555555555555".
Definition id_other : string := "66666666-6666-4666-8666-666666666666".

Definition t0 : string := "2024-01-01T00:00:00.000Z".
Definition t1 : string := "2024-01-01T00:00:01.000Z".
Definition t2 : string := "2024-01-01T00:00:02.000Z".
Definition t3 : string := "2024-01-01T00:00:03.000Z".
Definition t4 : string := "2024-01-01T00:00:04.000Z".
Definition t5 : string := "2024-01-01T00:00:05.000Z".

Definition teapot_body : json :=
  JObj [("name", JStr "My Kyusu"); ("material", JStr "clay");
        ("capacityMl", JNum (inject_Z 350)); ("style", JStr "kyusu")].

Definition tea_body : json :=
  JObj [("name", JStr "Sencha"); ("type", JStr "green");
        ("steepTempCelsius", JNum (inject_Z 75));
        ("steepTimeSeconds", JNum (inject_Z 120))].

Definition brew_body : json :=
  JObj [("teapotId", JStr id_teapot); ("teaId", JStr id_tea)].

Definition brew_body_85 : json :=
  JObj [("teapotId", JStr id_teapot); ("teaId", JStr id_tea);
        ("waterTempCelsius", JNum (inject_Z 85))].

Definition steep_body : json :=
  JObj [("durationSeconds", JNum (inject_Z 30))].

Definition the_teapot : Teapot :=
  mkTeapot id_teapot "My Kyusu" clay 350 kyusu None t0 t0.

Definition the_tea : Tea :=
  mkTea id_tea "Sencha" green None caf_medium 75 120 None t1 t1.

Definition the_brew : Brew :=
  mkBrew id_brew id_teapot id_tea preparing 75 None t2 None t2 t2.

Definition steep1 : Steep := mkSteep id_steep1 id_brew 1 30 None None t3.
Definition steep2 : Steep := mkSteep id_steep2 id_brew 2 30 None None t4.

(** The stores after POST /teapots, POST /teas, POST /brews and two
    POST /brews/:brewId/steeps. *)
Definition served : State :=
  mkState [(id_teapot, the_teapot)] [(id_tea, the_tea)]
          [(id_brew, the_brew)]
          [(id_steep1, steep1); (id_steep2, steep2)].

(** The same stores after DELETE /teas/:id: the brew outlives its tea. *)
Definition orphaned : State :=
  mkState [(id_teapot, the_teapot)] [] [(id_brew, the_brew)]
          [(id_steep1, steep1); (id_steep2, steep2)].

End Sample.

Section Fixture.

(** zod's [z.string().uuid()] and [z.string().datetime()] formats, and
    JavaScript's [Number(s)] on a string ([None] for [NaN] and the
    infinities, which no integer schema accepts). *)
Variable is_uuid : string -> bool.
Variable is_datetime : string -> bool.
Variable js_Number : string -> option Q.

Definition z_uuid : field string := z_string [is_uuid].

Definition z_datetime : field string := z_string [is_datetime].

(** [z.coerce.number().int()] with range checks, on a query-string value. *)
Definition z_coerce_int (cs : list (Z -> bool)) : field Z :=
  fun x => match x with
           | Some (JStr s) =>
               q <- js_Number s ;;
               n <- as_integer q ;;
               if checks cs n then Some n else None
           | Some (JNum q) =>
               n <- as_integer q ;; if checks cs n then Some n else None
           | _ => None
           end.

(** *** schemas/common.ts *)

Definition UuidParamSchema (id : string) : SafeParse string :=
  if is_uuid id then Success id else Failure ["id"].

Definition PaginationQuerySchema (query : list (string * string))
  : SafeParse PaginationQuery :=
  let o := query_object query in
  let page := default 1 (z_coerce_int [positive]) (prop "page" o) in
  let limit := default 20 (z_coerce_int [positive; max 100]) (prop "limit" o) in
  finish (p <- page ;; l <- limit ;; Some (mkPaginationQuery p l))
         (issue "page" page ++ issue "limit" limit).

(** *** schemas/teapot.ts *)

Definition CreateTeapotSchema (input : json) : SafeParse CreateTeapot :=
  match input with
  | JObj o =>
      let name := z_string [smin 1; smax 100] (prop "name" o) in
      let material := z_enum TeapotMaterial_of_string (prop "material" o) in
      let capacityMl := z_int [positive; max 5000] (prop "capacityMl" o) in
      let style :=
        default english (z_enum TeapotStyle_of_string) (prop "style" o) in
      let description :=
        default None (nullable (z_string [smax 500])) (prop "description" o) in
      finish (n <- name ;; m <- material ;; c <- capacityMl ;; s <- style ;;
              d <- description ;; Some (mkCreateTeapot n m c s d))
             (issue "name" name ++ issue "material" material
              ++ issue "capacityMl" capacityMl ++ issue "style" style
              ++ issue "description" description)
  | _ => Failure []
  end.

Definition UpdateTeapotSchema (input : json) : SafeParse UpdateTeapot :=
  match input with
  | JObj o =>
      let name := z_string [smin 1; smax 100] (prop "name" o) in
      let material := z_enum TeapotMaterial_of_string (prop "material" o) in
      let capacityMl := z_int [positive; max 5000] (prop "capacityMl" o) in
      let style := z_enum TeapotStyle_of_string (prop "style" o) in
      let description := nullable (z_string [smax 500]) (prop "description" o) in
      finish (n <- name ;; m <- material ;; c <- capacityMl ;; s <- style ;;
              d <- description ;; Some (mkCreateTeapot n m c s d))
             (issue "name" name ++ issue "material" material
              ++ issue "capacityMl" capacityMl ++ issue "style" style
              ++ issue "description" description)
  | _ => Failure []
  end.

Definition PatchTeapotSchema (input : json) : SafeParse PatchTeapot :=
  match input with
  | JObj o =>
      let name := optional (z_string [smin 1; smax 100]) (prop "name" o) in
      let material :=
        optional (z_enum TeapotMaterial_of_string) (prop "material" o) in
      let capacityMl :=
        optional (z_int [positive; max 5000]) (prop "capacityMl" o) in
      let style := optional (z_enum TeapotStyle_of_string) (prop "style" o) in
      let description :=
        optional (nullable (z_string [smax 500])) (prop "description" o) in
      finish (n <- name ;; m <- material ;; c <- capacityMl ;; s <- style ;;
              d <- description ;; Some (mkPatchTeapot n m c s d))
             (issue "name" name ++ issue "material" material
              ++ issue "capacityMl" capacityMl ++ issue "style" style
              ++ issue "description" description)
  | _ => Failure []
  end.

Definition TeapotQuerySchema (query : list (string * string))
  : SafeParse TeapotQuery :=
  let o := query_object query in
  let page := default 1 (z_coerce_int [positive]) (prop "page" o) in
  let limit := default 20 (z_coerce_int [positive; max 100]) (prop "limit" o) in
  let material :=
    optional (z_enum TeapotMaterial_of_string) (prop "material" o) in
  let style := optional (z_enum TeapotStyle_of_string) (prop "style" o) in
  finish (p <- page ;; l <- limit ;; m <- material ;; s <- style ;;
          Some (mkTeapotQuery p l m s))
         (issue "page" page ++ issue "limit" limit
          ++ issue "material" material ++ issue "style" style).

(** *** schemas/tea.ts *)

Definition CreateTeaSchema (input : json) : SafeParse CreateTea :=
  match input with
  | JObj o =>
      let name := z_string [smin 1; smax 100] (prop "name" o) in
      let type := z_enum TeaType_of_string (prop "type" o) in
      let origin := optional (z_string [smax 100]) (prop "origin" o) in
      let caffeineLevel :=
        default caf_medium (z_enum CaffeineLevel_of_string)
                (prop "caffeineLevel" o) in
      let steepTempCelsius :=
        z_int [min 60; max 100] (prop "steepTempCelsius" o) in
      let steepTimeSeconds :=
        z_int [positive; max 600] (prop "steepTimeSeconds" o) in
      let description :=
        default None (nullable (z_string [smax 1000])) (prop "description" o) in
      finish (n <- name ;; t <- type ;; g <- origin ;; c <- caffeineLevel ;;
              a <- steepTempCelsius ;; b <- steepTimeSeconds ;;
              d <- description ;; Some (mkCreateTea n t g c a b d))
             (issue "name" name ++ issue "type" type ++ issue "origin" origin
              ++ issue "caffeineLevel" caffeineLevel
              ++ issue "steepTempCelsius" steepTempCelsius
              ++ issue "steepTimeSeconds" steepTimeSeconds
              ++ issue "description" description)
  | _ => Failure []
  end.

Definition UpdateTeaSchema (input : json) : SafeParse UpdateTea :=
  match input with
  | JObj o =>
      let name := z_string [smin 1; smax 100] (prop "name" o) in
      let type := z_enum TeaType_of_string (prop "type" o) in
      let origin := optional (z_string [smax 100]) (prop "origin" o) in
      let caffeineLevel :=
        z_enum CaffeineLevel_of_string (prop "caffeineLevel" o) in
      let steepTempCelsius :=
        z_int [min 60; max 100] (prop "steepTempCelsius" o) in
      let steepTimeSeconds :=
        z_int [positive; max 600] (prop "steepTimeSeconds" o) in
      let description :=
        nullable (z_string [smax 1000]) (prop "description" o) in
      finish (n <- name ;; t <- type ;; g <- origin ;; c <- caffeineLevel ;;
              a <- steepTempCelsius ;; b <- steepTimeSeconds ;;
              d <- description ;; Some (mkCreateTea n t g c a b d))
             (issue "name" name ++ issue "type" type ++ issue "origin" origin
              ++ issue "caffeineLevel" caffeineLevel
              ++ issue "steepTempCelsius" steepTempCelsius
              ++ issue "steepTimeSeconds" steepTimeSeconds
              ++ issue "description" description)
  | _ => Failure []
  end.

Definition PatchTeaSchema (input : json) : SafeParse PatchTea :=
  match input with
  | JObj o =>
      let name := optional (z_string [smin 1; smax 100]) (prop "name" o) in
      let type := optional (z_enum TeaType_of_string) (prop "type" o) in
      let origin := optional (z_string [smax 100]) (prop "origin" o) in
      let caffeineLevel :=
        optional (z_enum CaffeineLevel_of_string) (prop "caffeineLevel" o) in
      let steepTempCelsius :=
        optional (z_int [min 60; max 100]) (prop "steepTempCelsius" o) in
      let steepTimeSeconds :=
        optional (z_int [positive; max 600]) (prop "steepTimeSeconds" o) in
      let description :=
        optional (nullable (z_string [smax 1000])) (prop "description" o) in
      finish (n <- name ;; t <- type ;; g <- origin ;; c <- caffeineLevel ;;
              a <- steepTempCelsius ;; b <- steepTimeSeconds ;;
              d <- description ;; Some (mkPatchTea n t g c a b d))
             (issue "name" name ++ issue "type" type ++ issue "origin" origin
              ++ issue "caffeineLevel" caffeineLevel
              ++ issue "steepTempCelsius" steepTempCelsius
              ++ issue "steepTimeSeconds" steepTimeSeconds
              ++ issue "description" description)
  | _ => Failure []
  end.

Definition TeaQuerySchema (query : list (string * string))
  : SafeParse TeaQuery :=
  let o := query_object query in
  let page := default 1 (z_coerce_int [positive]) (prop "page" o) in
  let limit := default 20 (z_coerce_int [positive; max 100]) (prop "limit" o) in
  let type := optional (z_enum TeaType_of_string) (prop "type" o) in
  let caffeineLevel :=
    optional (z_enum CaffeineLevel_of_string) (prop "caffeineLevel" o) in
  finish (p <- page ;; l <- limit ;; t <- type ;; c <- caffeineLevel ;;
          Some (mkTeaQuery p l t c))
         (issue "page" page ++ issue "limit" limit
          ++ issue "type" type ++ issue "caffeineLevel" caffeineLevel).

(** *** schemas/brew.ts *)

Definition CreateBrewSchema (input : json) : SafeParse CreateBrew :=
  match input with
  | JObj o =>
      let teapotId := z_uuid (prop "teapotId" o) in
      let teaId := z_uuid (prop "teaId" o) in
      let waterTempCelsius :=
        optional (z_int [min 60; max 100]) (prop "waterTempCelsius" o) in
      let notes :=
        default None (nullable (z_string [smax 500])) (prop "notes" o) in
      finish (p <- teapotId ;; t <- teaId ;; w <- waterTempCelsius ;;
              n <- notes ;; Some (mkCreateBrew p t w n))
             (issue "teapotId" teapotId ++ issue "teaId" teaId
              ++ issue "waterTempCelsius" waterTempCelsius
              ++ issue "notes" notes)
  | _ => Failure []
  end.

Definition PatchBrewSchema (input : json) : SafeParse PatchBrew :=
  match input with
  | JObj o =>
      let status := optional (z_enum BrewStatus_of_string) (prop "status" o) in
      let notes := optional (nullable (z_string [smax 500])) (prop "notes" o) in
      let completedAt := optional (nullable z_datetime) (prop "completedAt" o) in
      finish (s <- status ;; n <- notes ;; c <- completedAt ;;
              Some (mkPatchBrew s n c))
             (issue "status" status ++ issue "notes" notes
              ++ issue "completedAt" completedAt)
  | _ => Failure []
  end.

Definition BrewQuerySchema (query : list (string * string))
  : SafeParse BrewQuery :=
  let o := query_object query in
  let page := default 1 (z_coerce_int [positive]) (prop "page" o) in
  let limit := default 20 (z_coerce_int [positive; max 100]) (prop "limit" o) in
  let status := optional (z_enum BrewStatus_of_string) (prop "status" o) in
  let teapotId := optional z_uuid (prop "teapotId" o) in
  let teaId := optional z_uuid (prop "teaId" o) in
  finish (p <- page ;; l <- limit ;; s <- status ;; a <- teapotId ;;
          b <- teaId ;; Some (mkBrewQuery p l s a b))
         (issue "page" page ++ issue "limit" limit ++ issue "status" status
          ++ issue "teapotId" teapotId ++ issue "teaId" teaId).

(** *** schemas/steep.ts *)

Definition CreateSteepSchema (input : json) : SafeParse CreateSteep :=
  match input with
  | JObj o =>
      let durationSeconds := z_int [positive] (prop "durationSeconds" o) in
      let rating :=
        default None (nullable (z_int [min 1; max 5])) (prop "rating" o) in
      let notes :=
        default None (nullable (z_string [smax 200])) (prop "notes" o) in
      finish (d <- durationSeconds ;; r <- rating ;; n <- notes ;;
              Some (mkCreateSteep d r n))
             (issue "durationSeconds" durationSeconds ++ issue "rating" rating
              ++ issue "notes" notes)
  | _ => Failure []
  end.

(** *** routes/brews.ts: the param schemas *)

Definition BrewIdParamSchema (brewId : string) : SafeParse string :=
  if is_uuid brewId then Success brewId else Failure ["brewId"].

Definition TeapotIdParamSchema (teapotId : string) : SafeParse string :=
  if is_uuid teapotId then Success teapotId else Failure ["teapotId"].

(** ** Route handlers *)

Definition with_teapots (s : State) (m : JsMap.t Teapot) : State :=
  mkState m (teas s) (brews s) (steeps s).

Definition with_teas (s : State) (m : JsMap.t Tea) : State :=
  mkState (teapots s) m (brews s) (steeps s).

Definition with_brews (s : State) (m : JsMap.t Brew) : State :=
  mkState (teapots s) (teas s) m (steeps s).

Definition with_steeps (s : State) (m : JsMap.t Steep) : State :=
  mkState (teapots s) (teas s) (brews s) m.

(** The pagination lines, the same in the five list handlers. *)
Definition paginate {A : Type} (wrap : Page A -> Body) (items : list A)
  (page limit : Z) : Outcome :=
  let total := Z.of_nat (List.length items) in
  let totalPages := math_ceil_div total limit in
  let start := (page - 1) * limit in
  let data := js_slice start (start + limit) items in
  json_ok 200 (wrap (mkPage data (mkPagination page limit total totalPages))).

(** An [if (query.f) items = items.filter(...)] step. *)
Definition filter_if {A F : Type} (f : option F) (keep : F -> A -> bool)
  (items : list A) : list A :=
  match f with
  | Some v => filter (keep v) items
  | None => items
  end.

(** *** routes/teapots.ts *)

(** The items of GET /teapots after its filters. *)
Definition teapots_items (s : State) (q : TeapotQuery) : list Teapot :=
  let items := JsMap.values (teapots s) in
  let items :=
    filter_if (tq_material q)
      (fun m t => TeapotMaterial_eqb (teapot_material t) m) items in
  let items :=
    filter_if (tq_style q)
      (fun y t => TeapotStyle_eqb (teapot_style t) y) items in
  items.

(** GET /teapots *)
Definition teapots_list (s : State) (query : list (string * string))
  : State * Outcome :=
  match TeapotQuerySchema query with
  | Failure e => (s, Thrown e)
  | Success q =>
      (s, paginate BTeapotPage (teapots_items s q) (tq_page q) (tq_limit q))
  end.

(** POST /teapots *)
Definition teapots_create (s : State) (env : Env) (body : json)
  : State * Outcome :=
  match CreateTeapotSchema body with
  | Failure e =>
      (s, json_error_details 400 "VALIDATION_ERROR" "Invalid request body" e)
  | Success d =>
      let teapot :=
        mkTeapot (uuid env) (ct_name d) (ct_material d) (ct_capacityMl d)
                 (ct_style d) (ct_description d) (now env) (now env) in
      (with_teapots s (JsMap.set (teapot_id teapot) teapot (teapots s)),
       json_ok 201 (BTeapot teapot))
  end.

(** GET /teapots/:id *)
Definition teapots_get (s : State) (id : string) : State * Outcome :=
  match UuidParamSchema id with
  | Failure _ =>
      (s, json_error 400 "VALIDATION_ERROR" "Invalid teapot ID format")
  | Success id =>
      match JsMap.get id (teapots s) with
      | None => (s, json_error 404 "NOT_FOUND" "Teapot not found")
      | Some teapot => (s, json_ok 200 (BTeapot teapot))
      end
  end.

(** PUT /teapots/:id *)
Definition teapots_put (s : State) (env : Env) (id : string) (body : json)
  : State * Outcome :=
  match UuidParamSchema id with
  | Failure _ =>
      (s, json_error 400 "VALIDATION_ERROR" "Invalid teapot ID format")
  | Success id =>
      match JsMap.get id (teapots s) with
      | None => (s, json_error 404 "NOT_FOUND" "Teapot not found")
      | Some existing =>
          match UpdateTeapotSchema body with
          | Failure e =>
              (s, json_error_details 400 "VALIDATION_ERROR"
                    "Invalid request body" e)
          | Success d =>
              let teapot :=
                mkTeapot (teapot_id existing) (ct_name d) (ct_material d)
                         (ct_capacityMl d) (ct_style d) (ct_description d)
                         (teapot_createdAt existing) (now env) in
              (with_teapots s (JsMap.set (teapot_id teapot) teapot (teapots s)),
               json_ok 200 (BTeapot teapot))
          end
      end
  end.

(** [{...existing, ...result.data, updatedAt}] for [PatchTeapot]. *)
Definition patch_teapot (existing : Teapot) (d : PatchTeapot)
  (updatedAt : string) : Teapot :=
  mkTeapot (teapot_id existing)
           (over (pt_name d) (teapot_name existing))
           (over (pt_material d) (teapot_material existing))
           (over (pt_capacityMl d) (teapot_capacityMl existing))
           (over (pt_style d) (teapot_style existing))
           (over (pt_description d) (teapot_description existing))
           (teapot_createdAt existing)
           updatedAt.

(** PATCH /teapots/:id *)
Definition teapots_patch (s : State) (env : Env) (id : string) (body : json)
  : State * Outcome :=
  match UuidParamSchema id with
  | Failure _ =>
      (s, json_error 400 "VALIDATION_ERROR" "Invalid teapot ID format")
  | Success id =>
      match JsMap.get id (teapots s) with
      | None => (s, json_error 404 "NOT_FOUND" "Teapot not found")
      | Some existing =>
          match PatchTeapotSchema body with
          | Failure e =>
              (s, json_error_details 400 "VALIDATION_ERROR"
                    "Invalid request body" e)
          | Success d =>
              let teapot := patch_teapot existing d (now env) in
              (with_teapots s (JsMap.set (teapot_id teapot) teapot (teapots s)),
               json_ok 200 (BTeapot teapot))
          end
      end
  end.

(** DELETE /teapots/:id *)
Definition teapots_delete (s : State) (id : string) : State * Outcome :=
  match UuidParamSchema id with
  | Failure _ =>
      (s, json_error 400 "VALIDATION_ERROR" "Invalid teapot ID format")
  | Success id =>
      if negb (JsMap.has id (teapots s))
      then (s, json_error 404 "NOT_FOUND" "Teapot not found")
      else (with_teapots s (JsMap.delete id (teapots s)), json_ok 204 BEmpty)
  end.

(** *** routes/teas.ts *)

(** The items of GET /teas after its filters. *)
Definition teas_items (s : State) (q : TeaQuery) : list Tea :=
  let items := JsMap.values (teas s) in
  let items :=
    filter_if (taq_type q) (fun y t => TeaType_eqb (tea_type t) y) items in
  let items :=
    filter_if (taq_caffeineLevel q)
      (fun c t => CaffeineLevel_eqb (tea_caffeineLevel t) c) items in
  items.

(** GET /teas *)
Definition teas_list (s : State) (query : list (string * string))
  : State * Outcome :=
  match TeaQuerySchema query with
  | Failure e => (s, Thrown e)
  | Success q =>
      (s, paginate BTeaPage (teas_items s q) (taq_page q) (taq_limit q))
  end.

(** POST /teas *)
Definition teas_create (s : State) (env : Env) (body : json)
  : State * Outcome :=
  match CreateTeaSchema body with
  | Failure e =>
      (s, json_error_details 400 "VALIDATION_ERROR" "Invalid request body" e)
  | Success d =>
      let tea :=
        mkTea (uuid env) (cta_name d) (cta_type d) (cta_origin d)
              (cta_caffeineLevel d) (cta_steepTempCelsius d)
              (cta_steepTimeSeconds d) (cta_description d)
              (now env) (now env) in
      (with_teas s (JsMap.set (tea_id tea) tea (teas s)),
       json_ok 201 (BTea tea))
  end.

(** GET /teas/:id *)
Definition teas_get (s : State) (id : string) : State * Outcome :=
  match UuidParamSchema id with
  | Failure _ => (s, json_error 400 "VALIDATION_ERROR" "Invalid tea ID format")
  | Success id =>
      match JsMap.get id (teas s) with
      | None => (s, json_error 404 "NOT_FOUND" "Tea not found")
      | Some tea => (s, json_ok 200 (BTea tea))
      end
  end.

(** PUT /teas/:id; [origin] is optional in [UpdateTeaSchema], so a body
    without it leaves the existing origin under the spread. *)
Definition teas_put (s : State) (env : Env) (id : string) (body : json)
  : State * Outcome :=
  match UuidParamSchema id with
  | Failure _ => (s, json_error 400 "VALIDATION_ERROR" "Invalid tea ID format")
  | Success id =>
      match JsMap.get id (teas s) with
      | None => (s, json_error 404 "NOT_FOUND" "Tea not found")
      | Some existing =>
          match UpdateTeaSchema body with
          | Failure e =>
              (s, json_error_details 400 "VALIDATION_ERROR"
                    "Invalid request body" e)
          | Success d =>
              let tea :=
                mkTea (tea_id existing) (cta_name d) (cta_type d)
                      (match cta_origin d with
                       | Some o => Some o
                       | None => tea_origin existing
                       end)
                      (cta_caffeineLevel d) (cta_steepTempCelsius d)
                      (cta_steepTimeSeconds d) (cta_description d)
                      (tea_createdAt existing) (now env) in
              (with_teas s (JsMap.set (tea_id tea) tea (teas s)),
               json_ok 200 (BTea tea))
          end
      end
  end.

(** [{...existing, ...result.data, updatedAt}] for [PatchTea]. *)
Definition patch_tea (existing : Tea) (d : PatchTea) (updatedAt : string)
  : Tea :=
  mkTea (tea_id existing)
        (over (pta_name d) (tea_name existing))
        (over (pta_type d) (tea_type existing))
        (match pta_origin d with
         | Some o => Some o
         | None => tea_origin existing
         end)
        (over (pta_caffeineLevel d) (tea_caffeineLevel existing))
        (over (pta_steepTempCelsius d) (tea_steepTempCelsius existing))
        (over (pta_steepTimeSeconds d) (tea_steepTimeSeconds existing))
        (over (pta_description d) (tea_description existing))
        (tea_createdAt existing)
        updatedAt.

(** PATCH /teas/:id *)
Definition teas_patch (s : State) (env : Env) (id : string) (body : json)
  : State * Outcome :=
  match UuidParamSchema id with
  | Failure _ => (s, json_error 400 "VALIDATION_ERROR" "Invalid tea ID format")
  | Success id =>
      match JsMap.get id (teas s) with
      | None => (s, json_error 404 "NOT_FOUND" "Tea not found")
      | Some existing =>
          match PatchTeaSchema body with
          | Failure e =>
              (s, json_error_details 400 "VALIDATION_ERROR"
                    "Invalid request body" e)
          | Success d =>
              let tea := patch_tea existing d (now env) in
              (with_teas s (JsMap.set (tea_id tea) tea (teas s)),
               json_ok 200 (BTea tea))
          end
      end
  end.

(** DELETE /teas/:id *)
Definition teas_delete (s : State) (id : string) : State * Outcome :=
  match UuidParamSchema id with
  | Failure _ => (s, json_error 400 "VALIDATION_ERROR" "Invalid tea ID format")
  | Success id =>
      if negb (JsMap.has id (teas s))
      then (s, json_error 404 "NOT_FOUND" "Tea not found")
      else (with_teas s (JsMap.delete id (teas s)), json_ok 204 BEmpty)
  end.
(** *** routes/brews.ts *)

(** [if (query.teapotId)]: the filter runs for a present, non-empty
    string. *)
Definition if_truthy (f : option string) : option string :=
  match f with
  | Some v => if truthy v then Some v else None
  | None => None
  end.

(** The items of GET /brews after its filters. *)
Definition brews_items (s : State) (q : BrewQuery) : list Brew :=
  let items := JsMap.values (brews s) in
  let items :=
    filter_if (bq_status q)
      (fun st b => BrewStatus_eqb (brew_status b) st) items in
  let items :=
    filter_if (if_truthy (bq_teapotId q))
      (fun i b => String.eqb (brew_teapotId b) i) items in
  let items :=
    filter_if (if_truthy (bq_teaId q))
      (fun i b => String.eqb (brew_teaId b) i) items in
  items.

(** GET /brews *)
Definition brews_list (s : State) (query : list (string * string))
  : State * Outcome :=
  match BrewQuerySchema query with
  | Failure e => (s, Thrown e)
  | Success q =>
      (s, paginate BBrewPage (brews_items s q) (bq_page q) (bq_limit q))
  end.

(** POST /brews *)
Definition brews_create (s : State) (env : Env) (body : json)
  : State * Outcome :=
  match CreateBrewSchema body with
  | Failure e =>
      (s, json_error_details 400 "VALIDATION_ERROR" "Invalid request body" e)
  | Success d =>
      match JsMap.get (cb_teapotId d) (teapots s) with
      | None => (s, json_error 400 "VALIDATION_ERROR" "Teapot not found")
      | Some teapot =>
          match JsMap.get (cb_teaId d) (teas s) with
          | None => (s, json_error 400 "VALIDATION_ERROR" "Tea not found")
          | Some tea =>
              let brew :=
                mkBrew (uuid env) (cb_teapotId d) (cb_teaId d) preparing
                       (over (cb_waterTempCelsius d) (tea_steepTempCelsius tea))
                       (cb_notes d) (now env) None (now env) (now env) in
              (with_brews s (JsMap.set (brew_id brew) brew (brews s)),
               json_ok 201 (BBrew brew))
          end
      end
  end.

(** GET /brews/:id *)
Definition brews_get (s : State) (id : string) : State * Outcome :=
  match UuidParamSchema id with
  | Failure _ => (s, json_error 400 "VALIDATION_ERROR" "Invalid brew ID format")
  | Success id =>
      match JsMap.get id (brews s) with
      | None => (s, json_error 404 "NOT_FOUND" "Brew not found")
      | Some brew =>
          match JsMap.get (brew_teapotId brew) (teapots s),
                JsMap.get (brew_teaId brew) (teas s) with
          | Some teapot, Some tea =>
              (s, json_ok 200 (BBrewWithDetails brew teapot tea))
          | _, _ => (s, json_ok 200 (BBrew brew))
          end
      end
  end.

(** [{...existing, ...result.data, updatedAt}] for [PatchBrew]. *)
Definition patch_brew (existing : Brew) (d : PatchBrew) (updatedAt : string)
  : Brew :=
  mkBrew (brew_id existing)
         (brew_teapotId existing)
         (brew_teaId existing)
         (over (pb_status d) (brew_status existing))
         (brew_waterTempCelsius existing)
         (over (pb_notes d) (brew_notes existing))
         (brew_startedAt existing)
         (over (pb_completedAt d) (brew_completedAt existing))
         (brew_createdAt existing)
         updatedAt.

(** PATCH /brews/:id *)
Definition brews_patch (s : State) (env : Env) (id : string) (body : json)
  : State * Outcome :=
  match UuidParamSchema id with
  | Failure _ => (s, json_error 400 "VALIDATION_ERROR" "Invalid brew ID format")
  | Success id =>
      match JsMap.get id (brews s) with
      | None => (s, json_error 404 "NOT_FOUND" "Brew not found")
      | Some existing =>
          match PatchBrewSchema body with
          | Failure e =>
              (s, json_error_details 400 "VALIDATION_ERROR"
                    "Invalid request body" e)
          | Success d =>
              let brew := patch_brew existing d (now env) in
              (with_brews s (JsMap.set (brew_id brew) brew (brews s)),
               json_ok 200 (BBrew brew))
          end
      end
  end.

(** The loop [for (const [steepId, steep] of steeps.entries())] of the
    DELETE handler. Deleting the entry being visited leaves the entries
    still to visit in place, so the loop visits the entries the map had
    when it started. *)
Definition delete_associated_steeps (id : string) (m : JsMap.t Steep)
  : JsMap.t Steep :=
  fold_left
    (fun acc e =>
       if String.eqb (steep_brewId (snd e)) id
       then JsMap.delete (fst e) acc
       else acc)
    (JsMap.entries m) m.

(** DELETE /brews/:id *)
Definition brews_delete (s : State) (id : string) : State * Outcome :=
  match UuidParamSchema id with
  | Failure _ => (s, json_error 400 "VALIDATION_ERROR" "Invalid brew ID format")
  | Success id =>
      if negb (JsMap.has id (brews s))
      then (s, json_error 404 "NOT_FOUND" "Brew not found")
      else
        let s1 := with_steeps s (delete_associated_steeps id (steeps s)) in
        (with_brews s1 (JsMap.delete id (brews s1)), json_ok 204 BEmpty)
  end.

(** [items.sort((a, b) => a.steepNumber - b.steepNumber)]: a stable sort,
    ascending. *)
Fixpoint insert_by_steepNumber (x : Steep) (l : list Steep) : list Steep :=
  match l with
  | [] => [x]
  | y :: l' =>
      if steep_steepNumber x <=? steep_steepNumber y
      then x :: y :: l'
      else y :: insert_by_steepNumber x l'
  end.

Definition sort_by_steepNumber (l : list Steep) : list Steep :=
  fold_right insert_by_steepNumber [] l.

(** The steeps of a brew, in the order of the store. *)
Definition steeps_of (brewId : string) (s : State) : list Steep :=
  filter (fun st => String.eqb (steep_brewId st) brewId)
         (JsMap.values (steeps s)).

(** The items of GET /brews/:brewId/steeps: filtered, then sorted. *)
Definition steeps_items (s : State) (brewId : string) : list Steep :=
  let items := steeps_of brewId s in
  sort_by_steepNumber items.

(** GET /brews/:brewId/steeps *)
Definition brew_steeps_list (s : State) (brewId : string)
  (query : list (string * string)) : State * Outcome :=
  match BrewIdParamSchema brewId with
  | Failure _ => (s, json_error 400 "VALIDATION_ERROR" "Invalid brew ID format")
  | Success brewId =>
      if negb (JsMap.has brewId (brews s))
      then (s, json_error 404 "NOT_FOUND" "Brew not found")
      else
        match PaginationQuerySchema query with
        | Failure e => (s, Thrown e)
        | Success q =>
            (s, paginate BSteepPage (steeps_items s brewId)
                  (pq_page q) (pq_limit q))
        end
  end.

(** POST /brews/:brewId/steeps *)
Definition brew_steeps_create (s : State) (env : Env) (brewId : string)
  (body : json) : State * Outcome :=
  match BrewIdParamSchema brewId with
  | Failure _ => (s, json_error 400 "VALIDATION_ERROR" "Invalid brew ID format")
  | Success brewId =>
      if negb (JsMap.has brewId (brews s))
      then (s, json_error 404 "NOT_FOUND" "Brew not found")
      else
        match CreateSteepSchema body with
        | Failure e =>
            (s, json_error_details 400 "VALIDATION_ERROR"
                  "Invalid request body" e)
        | Success d =>
            let existingSteeps := steeps_of brewId s in
            let steepNumber := Z.of_nat (List.length existingSteeps) + 1 in
            let steep :=
              mkSteep (uuid env) brewId steepNumber (cs_durationSeconds d)
                      (cs_rating d) (cs_notes d) (now env) in
            (with_steeps s (JsMap.set (steep_id steep) steep (steeps s)),
             json_ok 201 (BSteep steep))
        end
  end.

(** The items of GET /teapots/:teapotId/brews. *)
Definition teapot_brews_items (s : State) (teapotId : string) : list Brew :=
  filter (fun b => String.eqb (brew_teapotId b) teapotId)
         (JsMap.values (brews s)).

(** GET /teapots/:teapotId/brews *)
Definition getTeapotBrews (s : State) (teapotId : string)
  (query : list (string * string)) : State * Outcome :=
  match TeapotIdParamSchema teapotId with
  | Failure _ =>
      (s, json_error 400 "VALIDATION_ERROR" "Invalid teapot ID format")
  | Success teapotId =>
      if negb (JsMap.has teapotId (teapots s))
      then (s, json_error 404 "NOT_FOUND" "Teapot not found")
      else
        match PaginationQuerySchema query with
        | Failure e => (s, Thrown e)
        | Success q =>
            (s, paginate BBrewPage (teapot_brews_items s teapotId)
                  (pq_page q) (pq_limit q))
        end
  end.

(** ** The router (routes/index.ts) and the application (app.ts) *)

Inductive Request :=
| GET_teapots (query : list (string * string))
| POST_teapots (body : json)
| GET_teapots_id (id : string)
| PUT_teapots_id (id : string) (body : json)
| PATCH_teapots_id (id : string) (body : json)
| DELETE_teapots_id (id : string)
| GET_teapots_brews (teapotId : string) (query : list (string * string))
| GET_teas (query : list (string * string))
| POST_teas (body : json)
| GET_teas_id (id : string)
| PUT_teas_id (id : string) (body : json)
| PATCH_teas_id (id : string) (body : json)
| DELETE_teas_id (id : string)
| GET_brews (query : list (string * string))
| POST_brews (body : json)
| GET_brews_id (id : string)
| PATCH_brews_id (id : string) (body : json)
| DELETE_brews_id (id : string)
| GET_brews_steeps (brewId : string) (query : list (string * string))
| POST_brews_steeps (brewId : string) (body : json).

Definition route (s : State) (env : Env) (r : Request) : State * Outcome :=
  match r with
  | GET_teapots q => teapots_list s q
  | POST_teapots b => teapots_create s env b
  | GET_teapots_id id => teapots_get s id
  | PUT_teapots_id id b => teapots_put s env id b
  | PATCH_teapots_id id b => teapots_patch s env id b
  | DELETE_teapots_id id => teapots_delete s id
  | GET_teapots_brews id q => getTeapotBrews s id q
  | GET_teas q => teas_list s q
  | POST_teas b => teas_create s env b
  | GET_teas_id id => teas_get s id
  | PUT_teas_id id b => teas_put s env id b
  | PATCH_teas_id id b => teas_patch s env id b
  | DELETE_teas_id id => teas_delete s id
  | GET_brews q => brews_list s q
  | POST_brews b => brews_create s env b
  | GET_brews_id id => brews_get s id
  | PATCH_brews_id id b => brews_patch s env id b
  | DELETE_brews_id id => brews_delete s id
  | GET_brews_steeps id q => brew_steeps_list s id q
  | POST_brews_steeps id b => brew_steeps_create s env id b
  end.

(** The error middleware that [createApp] mounts last (app.ts): it logs
    the error and answers HTTP 500 with a fixed body, whatever the error
    is. *)
Definition errorHandler (err : Error) : Response :=
  mkResponse 500
    (BError (mkApiError "INTERNAL_ERROR" "An unexpected error occurred" None)).

(** Express catches what a route handler throws and passes it to the error
    middleware; a handler that threw has answered nothing yet. *)
Definition settle (o : Outcome) : Response :=
  match o with
  | Responded r => r
  | Thrown e => errorHandler (ZodError e)
  end.

(** One request of the twenty resource routes, from the stores before it to
    the stores after it and the response the caller receives. *)
Definition serve (s : State) (env : Env) (r : Request) : State * Response :=
  let (s', o) := route s env r in (s', settle o).

(** *** routes/health.ts *)

(** GET /health *)
Definition health (env : Env) : Response :=
  mkResponse 200
    (BHealth (mkHealthResponse "ok" (Some (now env)) (Some "1.0.0") None)).

(** GET /health/live *)
Definition health_live : Response :=
  mkResponse 200 (BHealth (mkHealthResponse "ok" None None None)).

(** GET /health/ready *)
Definition health_ready (env : Env) : Response :=
  let checks := [mkHealthCheck "memory" "ok"; mkHealthCheck "database" "ok"] in
  let allOk := forallb (fun c => String.eqb (hc_status c) "ok") checks in
  mkResponse (if allOk then 200 else 503)
    (BHealth
       (mkHealthResponse (if allOk then "ok" else "degraded")
          (Some (now env)) None (Some checks))).

(** GET /brew of routes/index.ts. *)
Definition tif_signature : Response :=
  mkResponse 418
    (BTeapotResponse
       (mkTeapotResponse "I'm a teapot"
          "This server is TIF-compliant and cannot brew coffee"
          "https://teapotframework.dev")).

(** *** app.ts *)

(** A request as the middleware chain of [createApp] meets it.
    [express.json()] comes first and hands the request on with the parsed
    body; the router then runs the route that method and path match, and a
    request that no route matches falls through to the 404 handler. A
    request that [express.json()] or the router refuses goes to the error
    middleware with the error, and no route runs. Which route matches is
    Express's matter and is taken from it; so are the answers Express gives
    by itself (to OPTIONS on a routed path), which are no code of the
    application. *)
Inductive Incoming :=
| Refused (err : Error)
| Resource (r : Request)
| GET_health
| GET_health_live
| GET_health_ready
| GET_brew
| Unmatched (method path : string).

(** The 404 handler, mounted after the routes. *)
Definition notFound (method path : string) : Response :=
  mkResponse 404
    (BError
       (mkApiError "NOT_FOUND" ("Cannot " ++ method ++ " " ++ path)%string
          None)).

(** [createApp]: the JSON body parser, the routes, the 404 handler and the
    error middleware, in this order. *)
Definition createApp (s : State) (env : Env) (i : Incoming)
  : State * Response :=
  match i with
  | Refused err => (s, errorHandler err)
  | Resource r => serve s env r
  | GET_health => (s, health env)
  | GET_health_live => (s, health_live)
  | GET_health_ready => (s, health_ready env)
  | GET_brew => (s, tif_signature)
  | Unmatched method path => (s, notFound method path)
  end.

(** [uuidv4()] returns a well-formed identifier that no store holds. *)
Definition env_ok (s : State) (env : Env) : Prop :=
  is_uuid (uuid env) = true
  /\ JsMap.has (uuid env) (teapots s) = false
  /\ JsMap.has (uuid env) (teas s) = false
  /\ JsMap.has (uuid env) (brews s) = false
  /\ JsMap.has (uuid env) (steeps s) = false.

(** The states the server can be in: it starts with empty stores and
    serves requests one after the other. *)
Inductive reachable : State -> Prop :=
| reachable_initial : reachable initial
| reachable_serve s env r :
    reachable s -> env_ok s env -> reachable (fst (serve s env r)).
(** ** Properties of states and responses *)

(** A store is a well-formed [Map] whose keys are the identifiers of its
    entities, all of them UUIDs. *)
Definition store_ok {V : Type} (id_of : V -> string) (m : JsMap.t V) : Prop :=
  JsMap.wf m
  /\ forall k v, In (k, v) m -> id_of v = k /\ is_uuid k = true.

(** The steep numbers of [l] are 1, 2, ..., [length l], in this order. *)
Definition numbered (l : list Steep) : Prop :=
  map steep_steepNumber l = map Z.of_nat (seq 1 (List.length l)).

Definition Invariant (s : State) : Prop :=
  store_ok teapot_id (teapots s)
  /\ store_ok tea_id (teas s)
  /\ store_ok brew_id (brews s)
  /\ store_ok steep_id (steeps s)
  /\ (forall brewId, numbered (steeps_of brewId s))
  /\ (forall k st, In (k, st) (steeps s) ->
                   JsMap.has (steep_brewId st) (brews s) = true).

(** Serving a sequence of requests, each with the values its handler
    draws from the environment; the log pairs each request with its
    response. *)
Fixpoint serve_all (s : State) (trace : list (Env * Request))
  : State * list (Request * Response) :=
  match trace with
  | [] => (s, [])
  | (env, r) :: rest =>
      let (s1, resp) := serve s env r in
      let (s2, log) := serve_all s1 rest in
      (s2, (r, resp) :: log)
  end.

(** [uuidv4()] stays fresh along the sequence. *)
Fixpoint envs_ok (s : State) (trace : list (Env * Request)) : Prop :=
  match trace with
  | [] => True
  | (env, r) :: rest => env_ok s env /\ envs_ok (fst (serve s env r)) rest
  end.

(** The steep a logged request created under [brewId], if it did. *)
Definition created_steep (brewId : string) (e : Request * Response)
  : list Steep :=
  match fst e, body (snd e) with
  | POST_brews_steeps b _, BSteep st =>
      if String.eqb b brewId then [st] else []
  | _, _ => []
  end.

(** The steeps created under [brewId] along a log, in creation order. *)
Definition created_under (brewId : string) (log : list (Request * Response))
  : list Steep :=
  flat_map (created_steep brewId) log.

(** The request is a DELETE of the brew [brewId]. *)
Definition deletes (brewId : string) (r : Request) : bool :=
  match r with
  | DELETE_brews_id id => String.eqb id brewId
  | _ => false
  end.

(** [p] is page [page] of [items] at [limit] items a page:
    [totalPages] is the ceiling of [total / limit], and [data] is
    [items[(page-1)*limit : (page-1)*limit + limit]]. *)
Definition is_page_of {A : Type} (items : list A) (page limit : Z)
  (p : Page A) : Prop :=
  let total := Z.of_nat (List.length items) in
  let start := Z.to_nat ((page - 1) * limit) in
  let pg := pagination p in
  pg_page pg = page
  /\ pg_limit pg = limit
  /\ pg_total pg = total
  /\ limit * (pg_totalPages pg - 1) < total <= limit * pg_totalPages pg
  /\ data p = firstn (Z.to_nat limit) (skipn start items)
  /\ (forall i : nat,
        nth_error (data p) i =
        if Z.of_nat i <? limit then nth_error items (start + i)%nat else None)
  /\ (pg_totalPages pg < page -> data p = []).

(** A query-string value read as an integer, as [z.coerce.number().int()]
    does. *)
Definition coerces_to (v : string) (n : Z) : Prop :=
  exists q, js_Number v = Some q /\ as_integer q = Some n.

(** The paging parameters of a query string that fail validation after
    coercion: a [page] that is no integer from 1 up, or a [limit] that is
    no integer from 1 to 100. *)
Definition paging_invalid (query : list (string * string)) : Prop :=
  (exists v, assoc "page" query = Some v
             /\ forall n, coerces_to v n -> n < 1)
  \/ (exists v, assoc "limit" query = Some v
                /\ forall n, coerces_to v n -> n < 1 \/ 100 < n).

(** The query string of a list request. *)
Definition list_query (r : Request) : option (list (string * string)) :=
  match r with
  | GET_teapots q | GET_teas q | GET_brews q
  | GET_brews_steeps _ q | GET_teapots_brews _ q => Some q
  | _ => None
  end.

(** The failure of the query schema of a list request, if it fails. *)
Definition query_failure (r : Request) : option (list string) :=
  match r with
  | GET_teapots q =>
      match TeapotQuerySchema q with Failure e => Some e | Success _ => None end
  | GET_teas q =>
      match TeaQuerySchema q with Failure e => Some e | Success _ => None end
  | GET_brews q =>
      match BrewQuerySchema q with Failure e => Some e | Success _ => None end
  | GET_brews_steeps _ q | GET_teapots_brews _ q =>
      match PaginationQuerySchema q with
      | Failure e => Some e
      | Success _ => None
      end
  | _ => None
  end.

(** ** The entity schemas, on stored entities *)

(** A [.nullable()] or [.optional()] field: the check bears on the value
    when there is one. *)
Definition when_present {A : Type} (p : A -> bool) (o : option A) : bool :=
  match o with
  | Some a => p a
  | None => true
  end.

(** [TeapotSchema] of schemas/teapot.ts; the two enumerations are types. *)
Definition TeapotSchema (t : Teapot) : bool :=
  is_uuid (teapot_id t)
  && checks [smin 1; smax 100] (teapot_name t)
  && checks [positive; max 5000] (teapot_capacityMl t)
  && when_present (checks [smax 500]) (teapot_description t)
  && is_datetime (teapot_createdAt t)
  && is_datetime (teapot_updatedAt t).

(** [TeaSchema] of schemas/tea.ts. *)
Definition TeaSchema (t : Tea) : bool :=
  is_uuid (tea_id t)
  && checks [smin 1; smax 100] (tea_name t)
  && when_present (checks [smax 100]) (tea_origin t)
  && checks [min 60; max 100] (tea_steepTempCelsius t)
  && checks [positive; max 600] (tea_steepTimeSeconds t)
  && when_present (checks [smax 1000]) (tea_description t)
  && is_datetime (tea_createdAt t)
  && is_datetime (tea_updatedAt t).

(** [BrewSchema] of schemas/brew.ts. *)
Definition BrewSchema (b : Brew) : bool :=
  is_uuid (brew_id b)
  && is_uuid (brew_teapotId b)
  && is_uuid (brew_teaId b)
  && checks [min 60; max 100] (brew_waterTempCelsius b)
  && when_present (checks [smax 500]) (brew_notes b)
  && is_datetime (brew_startedAt b)
  && when_present is_datetime (brew_completedAt b)
  && is_datetime (brew_createdAt b)
  && is_datetime (brew_updatedAt b).

(** [SteepSchema] of schemas/steep.ts. *)
Definition SteepSchema (st : Steep) : bool :=
  is_uuid (steep_id st)
  && is_uuid (steep_brewId st)
  && checks [positive] (steep_steepNumber st)
  && checks [positive] (steep_durationSeconds st)
  && when_present (checks [min 1; max 5]) (steep_rating st)
  && when_present (checks [smax 200]) (steep_notes st)
  && is_datetime (steep_createdAt st).

(** Every stored entity passes its entity schema. *)
Definition Conforms (s : State) : Prop :=
  (forall t, In t (JsMap.values (teapots s)) -> TeapotSchema t = true)
  /\ (forall t, In t (JsMap.values (teas s)) -> TeaSchema t = true)
  /\ (forall b, In b (JsMap.values (brews s)) -> BrewSchema b = true)
  /\ (forall st, In st (JsMap.values (steeps s)) -> SteepSchema st = true).

(** [new Date().toISOString()] prints a timestamp that
    [z.string().datetime()] accepts, at every request of the sequence. *)
Definition clocks_ok (trace : list (Env * Request)) : Prop :=
  Forall (fun e => is_datetime (now (fst e)) = true) trace.

(** ** Kinds of requests *)

Definition is_get (r : Request) : bool :=
  match r with
  | GET_teapots _ | GET_teapots_id _ | GET_teapots_brews _ _
  | GET_teas _ | GET_teas_id _
  | GET_brews _ | GET_brews_id _ | GET_brews_steeps _ _ => true
  | _ => false
  end.

Definition is_post (r : Request) : bool :=
  match r with
  | POST_teapots _ | POST_teas _ | POST_brews _ | POST_brews_steeps _ _ => true
  | _ => false
  end.

Definition is_delete (r : Request) : bool :=
  match r with
  | DELETE_teapots_id _ | DELETE_teas_id _ | DELETE_brews_id _ => true
  | _ => false
  end.

Definition is_put_or_patch (r : Request) : bool :=
  match r with
  | PUT_teapots_id _ _ | PATCH_teapots_id _ _
  | PUT_teas_id _ _ | PATCH_teas_id _ _
  | PATCH_brews_id _ _ => true
  | _ => false
  end.

(** The path parameter of a request that has one. *)
Definition path_id (r : Request) : option string :=
  match r with
  | GET_teapots_id id | PUT_teapots_id id _ | PATCH_teapots_id id _
  | DELETE_teapots_id id | GET_teapots_brews id _
  | GET_teas_id id | PUT_teas_id id _ | PATCH_teas_id id _
  | DELETE_teas_id id
  | GET_brews_id id | PATCH_brews_id id _ | DELETE_brews_id id
  | GET_brews_steeps id _ | POST_brews_steeps id _ => Some id
  | _ => None
  end.

(** The JSON rendering of a brew status. *)
Definition BrewStatus_to_string (st : BrewStatus) : string :=
  match st with
  | preparing => "preparing"
  | steeping => "steeping"
  | ready => "ready"
  | served => "served"
  | cold => "cold"
  end.

(** The page numbers 1, ..., [n]. *)
Definition pages (n : Z) : list Z := map Z.of_nat (seq 1 (Z.to_nat n)).

(** The [data] of page [page]: the slice the list handlers take. *)
Definition page_data {A : Type} (items : list A) (page limit : Z) : list A :=
  let start := (page - 1) * limit in
  js_slice start (start + limit) items.

(** Ascending steep numbers. *)
Definition steepNumber_le (a b : Steep) : Prop :=
  steep_steepNumber a <= steep_steepNumber b.

(** Whether the store a request addresses by its path parameter holds the
    id: the teapot store for the teapot routes, the tea store for the tea
    routes, the brew store for the brew and steep routes. *)
Definition addressed_has (s : State) (r : Request) : bool :=
  match r with
  | GET_teapots_id id | PUT_teapots_id id _ | PATCH_teapots_id id _
  | DELETE_teapots_id id | GET_teapots_brews id _ =>
      JsMap.has id (teapots s)
  | GET_teas_id id | PUT_teas_id id _ | PATCH_teas_id id _
  | DELETE_teas_id id =>
      JsMap.has id (teas s)
  | GET_brews_id id | PATCH_brews_id id _ | DELETE_brews_id id
  | GET_brews_steeps id _ | POST_brews_steeps id _ =>
      JsMap.has id (brews s)
  | _ => false
  end.

(** The name of the resource a request addresses, as the messages spell
    it. *)
Definition addressed_resource (r : Request) : string :=
  match r with
  | GET_teapots_id _ | PUT_teapots_id _ _ | PATCH_teapots_id _ _
  | DELETE_teapots_id _ | GET_teapots_brews _ _ => "teapot"
  | GET_teas_id _ | PUT_teas_id _ _ | PATCH_teas_id _ _
  | DELETE_teas_id _ => "tea"
  | _ => "brew"
  end.

(** The same name with a capital, for the "not found" messages. *)
Definition addressed_Resource (r : Request) : string :=
  match r with
  | GET_teapots_id _ | PUT_teapots_id _ _ | PATCH_teapots_id _ _
  | DELETE_teapots_id _ | GET_teapots_brews _ _ => "Teapot"
  | GET_teas_id _ | PUT_teas_id _ _ | PATCH_teas_id _ _
  | DELETE_teas_id _ => "Tea"
  | _ => "Brew"
  end.

(** ** Tactics *)

(** Case analysis on the scrutinee of a [match] of the goal. *)
Ltac break_match :=
  match goal with
  | |- context [match ?scrutinee with _ => _ end] =>
      destruct scrutinee eqn:?
  end.

(** The same in a hypothesis, innermost [match] first. *)
Ltac break_in H :=
  repeat match type of H with
         | context [match ?scrutinee with _ => _ end] =>
             lazymatch scrutinee with
             | context [match _ with _ => _ end] => fail
             | _ => destruct scrutinee eqn:?
             end
         end.

(** ** Facts on lists and maps *)

Lemma map_snd_filter (V : Type) (p : V -> bool) (m : list (string * V)) :
  map snd (filter (fun e => p (snd e)) m) = filter p (map snd m).
Proof.
  induction m as [|[k v] m IH]; simpl; [reflexivity|].
  destruct (p v); simpl; now rewrite IH.
Qed.

Lemma filter_twice (A : Type) (p q : A -> bool) (l : list A) :
  filter p (filter q l) = filter (fun x => q x && p x) l.
Proof.
  induction l as [|x l IH]; simpl; [reflexivity|].
  destruct (q x); simpl; [destruct (p x)|]; now rewrite IH.
Qed.

Lemma filter_none (A : Type) (p : A -> bool) (l : list A) :
  (forall x, In x l -> p x = false) -> filter p l = [].
Proof.
  induction l as [|x l IH]; simpl; intros H; [reflexivity|].
  rewrite (H x (or_introl eq_refl)). apply IH. intros y Hy. apply H. now right.
Qed.

Lemma NoDup_map_filter (E K : Type) (key : E -> K) (keep : E -> bool) :
  forall entries : list E,
    NoDup (map key entries) -> NoDup (map key (filter keep entries)).
Proof.
  intros entries. induction entries as [|x l IH]; simpl; intros H;
    [constructor|].
  inversion H as [|? ? Hnot Hnd]; subst.
  destruct (keep x); simpl; [constructor|]; auto.
  intros Hin. apply Hnot. apply in_map_iff in Hin as (y & Hy & Hin).
  apply in_map_iff. exists y. split; [assumption|].
  now apply filter_In in Hin.
Qed.

Lemma get_In (V : Type) (k : string) (m : JsMap.t V) (v : V) :
  JsMap.get k m = Some v -> In (k, v) m.
Proof.
  induction m as [|[k' v'] m IH]; simpl; [discriminate|].
  destruct (String.eqb_spec k' k) as [->|Hne]; intros H.
  - injection H as ->. now left.
  - right. now apply IH.
Qed.

Lemma get_None_notin (V : Type) (k : string) (m : JsMap.t V) :
  JsMap.get k m = None -> ~ In k (JsMap.keys m).
Proof.
  induction m as [|[k' v'] m IH]; simpl; [tauto|].
  destruct (String.eqb_spec k' k) as [->|Hne]; [discriminate|].
  intros H [Heq|Hin]; [congruence|]. now apply IH.
Qed.

Lemma In_get (V : Type) (k : string) (m : JsMap.t V) (v : V) :
  JsMap.wf m -> In (k, v) m -> JsMap.get k m = Some v.
Proof.
  unfold JsMap.wf, JsMap.keys.
  induction m as [|[k' v'] m IH]; simpl; intros Hwf Hin; [contradiction|].
  inversion Hwf as [|? ? Hnot Hnd]; subst.
  destruct Hin as [Heq|Hin].
  - injection Heq as -> ->. now rewrite String.eqb_refl.
  - destruct (String.eqb_spec k' k) as [->|Hne]; [|now apply IH].
    exfalso. apply Hnot. apply in_map_iff. now exists (k, v).
Qed.

Lemma has_true_get (V : Type) (k : string) (m : JsMap.t V) :
  JsMap.has k m = true -> exists v, JsMap.get k m = Some v.
Proof.
  unfold JsMap.has. destruct (JsMap.get k m) as [v|]; [|discriminate].
  intros _. now exists v.
Qed.

Lemma has_false_get (V : Type) (k : string) (m : JsMap.t V) :
  JsMap.has k m = false -> JsMap.get k m = None.
Proof.
  unfold JsMap.has. destruct (JsMap.get k m); [discriminate|reflexivity].
Qed.

Lemma set_fresh (V : Type) (k : string) (v : V) (m : JsMap.t V) :
  JsMap.has k m = false -> JsMap.set k v m = (m ++ [(k, v)])%list.
Proof.
  intros H. apply has_false_get in H.
  induction m as [|[k' v'] m IH]; simpl in *; [reflexivity|].
  destruct (String.eqb k' k); [discriminate|]. now rewrite IH.
Qed.

Lemma keys_set_present (V : Type) (k : string) (v : V) (m : JsMap.t V) :
  In k (JsMap.keys m) -> JsMap.keys (JsMap.set k v m) = JsMap.keys m.
Proof.
  induction m as [|[k' v'] m IH]; simpl; [contradiction|].
  destruct (String.eqb_spec k' k) as [->|Hne]; simpl; [reflexivity|].
  intros [Heq|Hin]; [congruence|]. f_equal. now apply IH.
Qed.

Lemma In_set (V : Type) (k : string) (v : V) (m : JsMap.t V) k' v' :
  In (k', v') (JsMap.set k v m) -> (k' = k /\ v' = v) \/ In (k', v') m.
Proof.
  induction m as [|[k0 v0] m IH]; simpl.
  - intros [H|[]]. injection H as <- <-. now left.
  - destruct (String.eqb_spec k0 k) as [->|Hne]; simpl.
    + intros [H|H]; [injection H as <- <-; now left|right; now right].
    + intros [H|H]; [right; now left|].
      destruct (IH H) as [?|?]; [now left|right; now right].
Qed.

Lemma get_set_same (V : Type) (k : string) (v : V) (m : JsMap.t V) :
  JsMap.get k (JsMap.set k v m) = Some v.
Proof.
  induction m as [|[k0 v0] m IH]; simpl.
  - now rewrite String.eqb_refl.
  - destruct (String.eqb_spec k0 k) as [->|Hne]; simpl.
    + now rewrite String.eqb_refl.
    + destruct (String.eqb_spec k0 k); [contradiction|assumption].
Qed.

Lemma get_set_other (V : Type) (k k' : string) (v : V) (m : JsMap.t V) :
  k <> k' -> JsMap.get k' (JsMap.set k v m) = JsMap.get k' m.
Proof.
  intros Hne. induction m as [|[k0 v0] m IH]; simpl.
  - destruct (String.eqb_spec k k'); [contradiction|reflexivity].
  - destruct (String.eqb_spec k0 k) as [->|Hk]; simpl.
    + destruct (String.eqb_spec k k'); [contradiction|reflexivity].
    + now rewrite IH.
Qed.

Lemma has_set_mono (V : Type) (k k' : string) (v : V) (m : JsMap.t V) :
  JsMap.has k' m = true -> JsMap.has k' (JsMap.set k v m) = true.
Proof.
  unfold JsMap.has. destruct (String.eqb_spec k k') as [->|Hne].
  - now rewrite get_set_same.
  - now rewrite get_set_other.
Qed.

Lemma get_delete_other (V : Type) (k k' : string) (m : JsMap.t V) :
  k <> k' -> JsMap.get k' (JsMap.delete k m) = JsMap.get k' m.
Proof.
  intros Hne. unfold JsMap.delete.
  induction m as [|[k0 v0] m IH]; simpl; [reflexivity|].
  destruct (String.eqb_spec k0 k) as [->|Hk]; simpl.
  - destruct (String.eqb_spec k k'); [contradiction|assumption].
  - now rewrite IH.
Qed.

Lemma wf_set (V : Type) (k : string) (v : V) (m : JsMap.t V) :
  JsMap.wf m -> JsMap.wf (JsMap.set k v m).
Proof.
  unfold JsMap.wf. intros Hwf.
  destruct (JsMap.get k m) as [v0|] eqn:Hget.
  - rewrite keys_set_present; [assumption|].
    apply get_In in Hget. unfold JsMap.keys. apply in_map_iff.
    now exists (k, v0).
  - rewrite set_fresh by (unfold JsMap.has; now rewrite Hget).
    unfold JsMap.keys. rewrite map_app. simpl.
    apply NoDup_app; [assumption|repeat constructor; simpl; tauto|].
    intros x Hx [<-|[]]. now apply (get_None_notin _ _ Hget).
Qed.

Lemma In_delete (V : Type) (k : string) (m : JsMap.t V) e :
  In e (JsMap.delete k m) <-> In e m /\ fst e <> k.
Proof.
  unfold JsMap.delete. rewrite filter_In.
  destruct (String.eqb_spec (fst e) k); simpl; intuition congruence.
Qed.

Lemma has_delete (V : Type) (k : string) (m : JsMap.t V) :
  JsMap.has k (JsMap.delete k m) = false.
Proof.
  unfold JsMap.has. destruct (JsMap.get k (JsMap.delete k m)) eqn:H;
    [|reflexivity].
  apply get_In, In_delete in H. simpl in H. tauto.
Qed.

Lemma store_ok_set (V : Type) (id_of : V -> string) k v (m : JsMap.t V) :
  store_ok id_of m -> id_of v = k -> is_uuid k = true ->
  store_ok id_of (JsMap.set k v m).
Proof.
  intros [Hwf Hk] Hid Hu. split; [now apply wf_set|].
  intros k' v' Hin. apply In_set in Hin as [[-> ->]|Hin]; auto.
Qed.

Lemma store_ok_filter (V : Type) (id_of : V -> string) p (m : JsMap.t V) :
  store_ok id_of m -> store_ok id_of (filter p m).
Proof.
  intros [Hwf Hk]. split.
  - now apply NoDup_map_filter.
  - intros k v Hin. apply filter_In in Hin. now apply Hk.
Qed.

Lemma store_ok_get (V : Type) (id_of : V -> string) k v (m : JsMap.t V) :
  store_ok id_of m -> JsMap.get k m = Some v ->
  id_of v = k /\ is_uuid k = true.
Proof. intros [_ Hk] H. now apply Hk, get_In. Qed.
(** ** The cascade loop *)

Lemma filter_all (A : Type) (l : list A) : filter (fun _ => true) l = l.
Proof. induction l as [|x l IH]; simpl; [reflexivity|now rewrite IH]. Qed.

Lemma cascade_fold (id : string) (l : list (string * Steep))
  (acc : JsMap.t Steep) :
  fold_left
    (fun acc e =>
       if String.eqb (steep_brewId (snd e)) id
       then JsMap.delete (fst e) acc
       else acc) l acc
  = filter
      (fun x =>
         negb (existsb
                 (fun e => String.eqb (steep_brewId (snd e)) id
                           && String.eqb (fst e) (fst x)) l))
      acc.
Proof.
  revert acc. induction l as [|e l IH]; intros acc; simpl.
  - now rewrite filter_all.
  - rewrite IH. destruct (String.eqb (steep_brewId (snd e)) id); simpl.
    + unfold JsMap.delete. rewrite filter_twice. apply filter_ext.
      intros x. rewrite (String.eqb_sym (fst e) (fst x)).
      now rewrite negb_orb.
    + reflexivity.
Qed.

Lemma delete_associated_steeps_spec (id : string) (m : JsMap.t Steep) :
  JsMap.wf m ->
  delete_associated_steeps id m
  = filter (fun e => negb (String.eqb (steep_brewId (snd e)) id)) m.
Proof.
  intros Hwf. unfold delete_associated_steeps, JsMap.entries.
  rewrite cascade_fold. apply filter_ext_in. intros [k v] Hin. simpl.
  f_equal. destruct (String.eqb (steep_brewId v) id) eqn:Hv.
  - apply existsb_exists. exists (k, v). simpl.
    now rewrite Hv, String.eqb_refl.
  - destruct (existsb _ m) eqn:Hex; [|reflexivity].
    apply existsb_exists in Hex as ([k' v'] & Hin' & Hb). simpl in Hb.
    apply andb_prop in Hb as [Hb Hk]. apply String.eqb_eq in Hk. subst k'.
    pose proof (In_get k v Hwf Hin) as H1.
    pose proof (In_get k v' Hwf Hin') as H2.
    congruence.
Qed.

(** ** Steep numbering *)

Lemma numbered_nil : numbered [].
Proof. reflexivity. Qed.

Lemma numbered_snoc (l : list Steep) (x : Steep) :
  numbered l ->
  steep_steepNumber x = Z.of_nat (List.length l) + 1 ->
  numbered (l ++ [x]).
Proof.
  unfold numbered. intros Hl Hx.
  rewrite map_app, length_app, Nat.add_1_r, seq_S, map_app, Hl. simpl.
  rewrite Hx. do 2 f_equal. lia.
Qed.

Lemma steeps_of_append (s : State) (k : string) (st : Steep) (b : string) :
  steeps_of b (with_steeps s (steeps s ++ [(k, st)]))
  = (steeps_of b s
     ++ if String.eqb (steep_brewId st) b then [st] else [])%list.
Proof.
  unfold steeps_of, JsMap.values. simpl.
  rewrite map_app, filter_app. simpl.
  now destruct (String.eqb (steep_brewId st) b).
Qed.

Lemma steeps_of_cascade (s : State) (id b : string) (m : JsMap.t Brew) :
  steeps_of b
    (with_brews
       (with_steeps s
          (filter (fun e => negb (String.eqb (steep_brewId (snd e)) id))
                  (steeps s))) m)
  = if String.eqb id b then [] else steeps_of b s.
Proof.
  unfold steeps_of, JsMap.values. simpl.
  rewrite (map_snd_filter (fun v => negb (String.eqb (steep_brewId v) id))).
  rewrite filter_twice.
  destruct (String.eqb_spec id b) as [->|Hne].
  - apply filter_none. intros x _.
    now destruct (String.eqb (steep_brewId x) b).
  - apply filter_ext. intros x.
    destruct (String.eqb_spec (steep_brewId x) b) as [->|];
      [|now rewrite andb_false_r].
    destruct (String.eqb_spec b id); [congruence|reflexivity].
Qed.

(** ** The invariant of the reachable states *)

Lemma fst_serve (s : State) (env : Env) (r : Request) :
  fst (serve s env r) = fst (route s env r).
Proof. unfold serve. now destruct (route s env r). Qed.

Lemma snd_serve (s : State) (env : Env) (r : Request) :
  snd (serve s env r) = settle (snd (route s env r)).
Proof. unfold serve. now destruct (route s env r). Qed.

Lemma Invariant_initial : Invariant initial.
Proof.
  unfold Invariant, store_ok, JsMap.wf. simpl.
  repeat split; try constructor; try contradiction.
Qed.

Lemma Invariant_with_teapots (s : State) (m : JsMap.t Teapot) :
  Invariant s -> store_ok teapot_id m -> Invariant (with_teapots s m).
Proof. unfold Invariant. simpl. tauto. Qed.

Lemma Invariant_with_teas (s : State) (m : JsMap.t Tea) :
  Invariant s -> store_ok tea_id m -> Invariant (with_teas s m).
Proof. unfold Invariant. simpl. tauto. Qed.

Lemma Invariant_with_brews (s : State) (m : JsMap.t Brew) :
  Invariant s -> store_ok brew_id m ->
  (forall k, JsMap.has k (brews s) = true -> JsMap.has k m = true) ->
  Invariant (with_brews s m).
Proof.
  unfold Invariant. simpl. intros (Hp & Ht & Hb & Hs & Hn & Href) Hm Hmono.
  repeat (split; [assumption|]). intros k st Hin. eapply Hmono, Href, Hin.
Qed.

Lemma Invariant_create_steep (s : State) (env : Env) (brewId : string)
  (d : CreateSteep) :
  Invariant s -> env_ok s env -> JsMap.has brewId (brews s) = true ->
  Invariant
    (with_steeps s
       (JsMap.set (uuid env)
          (mkSteep (uuid env) brewId
             (Z.of_nat (List.length (steeps_of brewId s)) + 1)
             (cs_durationSeconds d) (cs_rating d) (cs_notes d) (now env))
          (steeps s))).
Proof.
  intros (Hp & Ht & Hb & Hs & Hn & Href) (Hu & _ & _ & _ & Hfresh) Hhas.
  assert (Hs' : store_ok steep_id
                  (JsMap.set (uuid env)
                     (mkSteep (uuid env) brewId
                        (Z.of_nat (List.length (steeps_of brewId s)) + 1)
                        (cs_durationSeconds d) (cs_rating d) (cs_notes d)
                        (now env))
                     (steeps s)))
    by (apply store_ok_set; [assumption|reflexivity|assumption]).
  unfold Invariant. simpl. repeat (split; [assumption|]).
  split; [|intros k st Hin; apply In_set in Hin as [[_ ->]|Hin];
           [exact Hhas|eapply Href, Hin]].
  intros b.
  change (numbered (steeps_of b (with_steeps s
            (JsMap.set (uuid env)
               (mkSteep (uuid env) brewId
                  (Z.of_nat (List.length (steeps_of brewId s)) + 1)
                  (cs_durationSeconds d) (cs_rating d) (cs_notes d) (now env))
               (steeps s))))).
  rewrite set_fresh by assumption. rewrite steeps_of_append.
  simpl. destruct (String.eqb_spec brewId b) as [->|Hne].
  - now apply numbered_snoc.
  - rewrite app_nil_r. apply Hn.
Qed.

Lemma Invariant_delete_brew (s : State) (id : string) :
  Invariant s ->
  Invariant
    (with_brews
       (with_steeps s (delete_associated_steeps id (steeps s)))
       (JsMap.delete id (brews s))).
Proof.
  intros (Hp & Ht & Hb & Hs & Hn & Href).
  rewrite delete_associated_steeps_spec by apply Hs.
  unfold Invariant. split; [|split; [|split; [|split; [|split]]]];
    try assumption.
  - apply (store_ok_filter _ Hb).
  - apply (store_ok_filter _ Hs).
  - intros b. rewrite steeps_of_cascade.
    destruct (String.eqb id b); [apply numbered_nil|apply Hn].
  - cbn [steeps brews with_steeps with_brews]. intros k st Hin.
    apply filter_In in Hin as [Hin Hne]. simpl in Hne.
    destruct (String.eqb_spec (steep_brewId st) id) as [|Hne'];
      [discriminate|].
    unfold JsMap.has. rewrite get_delete_other by congruence.
    exact (Href k st Hin).
Qed.

Lemma store_ok_update (V : Type) (id_of : V -> string) (id : string)
  (existing v : V) (m : JsMap.t V) :
  store_ok id_of m -> JsMap.get id m = Some existing ->
  id_of v = id_of existing ->
  store_ok id_of (JsMap.set (id_of v) v m).
Proof.
  intros Hm Hget Hid. destruct (store_ok_get id Hm Hget) as [E U].
  apply store_ok_set; [assumption|reflexivity|]. now rewrite Hid, E.
Qed.

Lemma store_ok_create (V : Type) (id_of : V -> string) (s : State)
  (env : Env) (v : V) (m : JsMap.t V) :
  store_ok id_of m -> env_ok s env -> id_of v = uuid env ->
  store_ok id_of (JsMap.set (id_of v) v m).
Proof.
  intros Hm (Hu & _) Hid.
  apply store_ok_set; [assumption|reflexivity|]. now rewrite Hid.
Qed.

Lemma store_ok_delete (V : Type) (id_of : V -> string) (id : string)
  (m : JsMap.t V) :
  store_ok id_of m -> store_ok id_of (JsMap.delete id m).
Proof. intros Hm. unfold JsMap.delete. now apply store_ok_filter. Qed.

Ltac store_step :=
  first
    [ eapply store_ok_create; [|eassumption|reflexivity]
    | eapply store_ok_update; [|eassumption|reflexivity]
    | apply store_ok_delete ].

Lemma route_invariant (s : State) (env : Env) (r : Request) :
  Invariant s -> env_ok s env -> Invariant (fst (route s env r)).
Proof.
  intros Hinv Hok. pose proof Hinv as (Hp & Ht & Hb & Hs & Hn & Href).
  destruct r; simpl;
    unfold teapots_list, teapots_create, teapots_get, teapots_put,
      teapots_patch, teapots_delete, getTeapotBrews, teas_list, teas_create,
      teas_get, teas_put, teas_patch, teas_delete, brews_list, brews_create,
      brews_get, brews_patch, brews_delete, brew_steeps_list,
      brew_steeps_create;
    repeat break_match; cbn [fst]; try assumption;
    try (apply Invariant_with_teapots; [assumption|store_step; assumption]);
    try (apply Invariant_with_teas; [assumption|store_step; assumption]);
    try (apply Invariant_with_brews;
         [assumption|store_step; assumption|intros k; apply has_set_mono]).
  - exact (Invariant_delete_brew _ Hinv).
  - apply Invariant_create_steep; try assumption.
    now apply negb_false_iff.
Qed.

Lemma reachable_Invariant (s : State) : reachable s -> Invariant s.
Proof.
  induction 1 as [|s env r Hr IH Hok].
  - apply Invariant_initial.
  - rewrite fst_serve. now apply route_invariant.
Qed.

(** ** Path parameters *)

Lemma UuidParamSchema_ok (id : string) :
  is_uuid id = true -> UuidParamSchema id = Success id.
Proof. intros H. unfold UuidParamSchema. now rewrite H. Qed.

Lemma BrewIdParamSchema_ok (id : string) :
  is_uuid id = true -> BrewIdParamSchema id = Success id.
Proof. intros H. unfold BrewIdParamSchema. now rewrite H. Qed.

Lemma TeapotIdParamSchema_ok (id : string) :
  is_uuid id = true -> TeapotIdParamSchema id = Success id.
Proof. intros H. unfold TeapotIdParamSchema. now rewrite H. Qed.

Lemma get_has (V : Type) (k : string) (m : JsMap.t V) (v : V) :
  JsMap.get k m = Some v -> JsMap.has k m = true.
Proof. intros H. unfold JsMap.has. now rewrite H. Qed.

Lemma In_values (V : Type) (v : V) (m : JsMap.t V) :
  In v (JsMap.values m) -> exists k, In (k, v) m.
Proof.
  unfold JsMap.values. intros H. apply in_map_iff in H as ([k v'] & E & H).
  simpl in E. subst v'. now exists k.
Qed.

(** ** Cascade on DELETE /brews/:id *)

(** C1. Deleting a brew that is in the brew store answers 204, removes
    every steep whose [brewId] is the brew's id and nothing else from the
    steep store, then removes the brew; no steep of that [brewId] remains,
    and the steep-list endpoint for it answers 404 from then on. *)
Theorem delete_brew_cascades (s : State) (b : Brew) :
  reachable s ->
  In b (JsMap.values (brews s)) ->
  exists s',
    brews_delete s (brew_id b)
    = (s', Responded (mkResponse 204 BEmpty))
    /\ steeps s'
       = filter (fun e => negb (String.eqb (steep_brewId (snd e)) (brew_id b)))
                (steeps s)
    /\ brews s' = JsMap.delete (brew_id b) (brews s)
    /\ JsMap.has (brew_id b) (brews s') = false
    /\ teapots s' = teapots s
    /\ teas s' = teas s
    /\ (forall st, In st (JsMap.values (steeps s')) ->
                   steep_brewId st <> brew_id b)
    /\ steeps_of (brew_id b) s' = []
    /\ forall query,
         brew_steeps_list s' (brew_id b) query
         = (s', Responded
                  (mkResponse 404
                     (BError (mkApiError "NOT_FOUND" "Brew not found" None)))).
Proof.
  intros Hr Hin. pose proof (reachable_Invariant Hr) as Hinv.
  pose proof Hinv as (_ & _ & Hb & Hs & _).
  apply In_values in Hin as (k & Hin).
  destruct (proj2 Hb _ _ Hin) as [Hid Hu]. rewrite <- Hid in Hu, Hin.
  pose proof (In_get _ _ (proj1 Hb) Hin) as Hget.
  unfold brews_delete. rewrite UuidParamSchema_ok by assumption.
  erewrite get_has by eassumption.
  cbn [negb]. eexists. split; [reflexivity|].
  rewrite delete_associated_steeps_spec by apply Hs.
  cbn [steeps brews teapots teas with_steeps with_brews].
  split; [reflexivity|]. split; [reflexivity|].
  split; [apply has_delete|]. split; [reflexivity|]. split; [reflexivity|].
  split; [|split].
  - intros st Hst. apply In_values in Hst as (k' & Hst).
    apply filter_In in Hst as [_ Hst]. simpl in Hst.
    intros E. rewrite E, String.eqb_refl in Hst. discriminate.
  - rewrite steeps_of_cascade. now rewrite String.eqb_refl.
  - intros query. unfold brew_steeps_list.
    rewrite BrewIdParamSchema_ok by assumption. cbn [brews with_brews].
    now rewrite has_delete.
Qed.

(** ** Steep numbering *)

Lemma numbered_nth (l : list Steep) :
  forall (start k : nat) (st : Steep),
    map steep_steepNumber l = map Z.of_nat (seq start (List.length l)) ->
    nth_error l k = Some st ->
    steep_steepNumber st = Z.of_nat (start + k).
Proof.
  induction l as [|x l IH]; intros start k st Hl Hk.
  - now destruct k.
  - simpl in Hl. injection Hl as Hx Hl. destruct k as [|k]; simpl in Hk.
    + injection Hk as <-. now rewrite Nat.add_0_r.
    + rewrite (IH (S start) k st Hl Hk). f_equal. lia.
Qed.

Lemma serve_steeps_of (s : State) (env : Env) (r : Request)
  (brewId : string) :
  Invariant s -> env_ok s env -> deletes brewId r = false ->
  steeps_of brewId (fst (serve s env r))
  = steeps_of brewId s ++ created_steep brewId (r, snd (serve s env r)).
Proof.
  intros Hinv (_ & _ & _ & _ & Hfresh) Hdel.
  pose proof Hinv as (_ & _ & _ & Hs & _).
  rewrite fst_serve, snd_serve. unfold created_steep. cbn [fst snd].
  destruct r; simpl in Hdel |- *;
    unfold teapots_list, teapots_create, teapots_get, teapots_put,
      teapots_patch, teapots_delete, getTeapotBrews, teas_list, teas_create,
      teas_get, teas_put, teas_patch, teas_delete, brews_list, brews_create,
      brews_get, brews_patch, brew_steeps_list;
    try (rewrite app_nil_r; repeat break_match; reflexivity).
  - rewrite app_nil_r. unfold brews_delete, UuidParamSchema.
    destruct (is_uuid id); [|reflexivity].
    destruct (negb (JsMap.has id (brews s))); [reflexivity|].
    cbn [fst]. rewrite delete_associated_steeps_spec by apply Hs.
    cbn [brews with_steeps]. rewrite steeps_of_cascade. now rewrite Hdel.
  - unfold brew_steeps_create, BrewIdParamSchema.
    destruct (is_uuid brewId0); [|cbn; now rewrite app_nil_r].
    destruct (negb (JsMap.has brewId0 (brews s)));
      [cbn; now rewrite app_nil_r|].
    destruct (CreateSteepSchema _); [|cbn; now rewrite app_nil_r].
    cbn [fst snd steep_id settle json_ok body].
    rewrite set_fresh by assumption. rewrite steeps_of_append.
    reflexivity.
Qed.

Lemma serve_all_steeps_of (brewId : string) (trace : list (Env * Request)) :
  forall s,
    reachable s -> envs_ok s trace ->
    forallb (fun e => negb (deletes brewId (snd e))) trace = true ->
    reachable (fst (serve_all s trace))
    /\ steeps_of brewId (fst (serve_all s trace))
       = steeps_of brewId s
         ++ created_under brewId (snd (serve_all s trace)).
Proof.
  induction trace as [|[env r] rest IH]; intros s Hr Hok Hdel; simpl.
  - split; [assumption|]. now rewrite app_nil_r.
  - simpl in Hok, Hdel. destruct Hok as [Hok Hrest].
    apply andb_prop in Hdel as [Hdel Hdels].
    apply negb_true_iff in Hdel.
    pose proof (serve_steeps_of r brewId (reachable_Invariant Hr) Hok Hdel)
      as Hstep.
    destruct (IH (fst (serve s env r)) (reachable_serve r Hr Hok) Hrest Hdels)
      as [Hr' Hall].
    destruct (serve s env r) as [s1 resp]. cbn [fst snd] in *.
    destruct (serve_all s1 rest) as [s2 log]. cbn [fst snd] in *.
    split; [assumption|]. unfold created_under in *. simpl.
    now rewrite Hall, Hstep, app_assoc.
Qed.

(** C2. In a reachable state the steeps of a brew, in creation order, carry
    the numbers 1, 2, ..., N: the k-th has steepNumber k, and a brew that is
    not in the store has none. A successful POST /brews/:brewId/steeps
    numbers its steep N + 1 and puts it last; no other request changes the
    steeps of the brew, except the DELETE of the brew, which removes them
    all. Hence, along any sequence of requests without a DELETE of the
    brew, the k-th steep created under it gets the number N + k, which is k
    when the sequence starts with the brew just created. *)
Theorem steep_numbers_dense (s : State) (brewId : string) :
  reachable s ->
  map steep_steepNumber (steeps_of brewId s)
  = map Z.of_nat (seq 1 (List.length (steeps_of brewId s)))
  /\ (forall (k : nat) (st : Steep),
        nth_error (steeps_of brewId s) k = Some st ->
        steep_steepNumber st = Z.of_nat k + 1)
  /\ (JsMap.has brewId (brews s) = false -> steeps_of brewId s = [])
  /\ (forall env input s' st,
        env_ok s env ->
        brew_steeps_create s env brewId input
        = (s', Responded (mkResponse 201 (BSteep st))) ->
        steep_steepNumber st = Z.of_nat (List.length (steeps_of brewId s)) + 1
        /\ steeps_of brewId s' = steeps_of brewId s ++ [st])
  /\ (forall env r,
        env_ok s env ->
        steeps_of brewId (fst (serve s env r)) = steeps_of brewId s
        \/ (exists input st,
              r = POST_brews_steeps brewId input
              /\ snd (serve s env r) = mkResponse 201 (BSteep st)
              /\ steeps_of brewId (fst (serve s env r))
                 = steeps_of brewId s ++ [st])
        \/ (r = DELETE_brews_id brewId
            /\ snd (serve s env r) = mkResponse 204 BEmpty
            /\ steeps_of brewId (fst (serve s env r)) = []))
  /\ (forall trace,
        envs_ok s trace ->
        forallb (fun e => negb (deletes brewId (snd e))) trace = true ->
        forall (k : nat) (st : Steep),
          nth_error (created_under brewId (snd (serve_all s trace))) k
          = Some st ->
          steep_steepNumber st
          = Z.of_nat (List.length (steeps_of brewId s)) + Z.of_nat k + 1).
Proof.
  intros Hr. pose proof (reachable_Invariant Hr) as Hinv.
  pose proof Hinv as (_ & _ & _ & Hs & Hn & Href).
  split; [apply Hn|]. split; [|split; [|split; [|split]]].
  - intros k st Hk.
    apply numbered_nth with (start := 1%nat) in Hk; [lia|apply Hn].
  - intros Hb. apply filter_none. intros st Hin.
    apply In_values in Hin as (k & Hin). apply Href in Hin.
    destruct (String.eqb_spec (steep_brewId st) brewId) as [E|];
      [congruence|reflexivity].
  - intros env input s' st (_ & _ & _ & _ & Hfresh) H.
    unfold brew_steeps_create, BrewIdParamSchema in H.
    destruct (is_uuid brewId); [|discriminate].
    destruct (negb (JsMap.has brewId (brews s))); [discriminate|].
    destruct (CreateSteepSchema input); [|discriminate].
    injection H as <- <-.
    split; [reflexivity|]. cbn [steep_id].
    rewrite set_fresh by assumption. rewrite steeps_of_append.
    cbn [steep_brewId]. now rewrite String.eqb_refl.
  - intros env r (_ & _ & _ & _ & Hfresh).
    rewrite fst_serve, snd_serve.
    destruct r; simpl;
      unfold teapots_list, teapots_create, teapots_get, teapots_put,
        teapots_patch, teapots_delete, getTeapotBrews, teas_list, teas_create,
        teas_get, teas_put, teas_patch, teas_delete, brews_list, brews_create,
        brews_get, brews_patch, brew_steeps_list;
      try (left; repeat break_match; reflexivity).
    + unfold brews_delete, UuidParamSchema.
      destruct (is_uuid id); [|now left].
      destruct (negb (JsMap.has id (brews s))); [now left|].
      cbn [fst snd]. rewrite delete_associated_steeps_spec by apply Hs.
      cbn [brews with_steeps]. rewrite steeps_of_cascade.
      destruct (String.eqb_spec id brewId) as [->|Hne];
        [right; right; now repeat split|now left].
    + unfold brew_steeps_create, BrewIdParamSchema.
      destruct (is_uuid brewId0); [|now left].
      destruct (negb (JsMap.has brewId0 (brews s))); [now left|].
      destruct (CreateSteepSchema _); [|now left].
      cbn [fst snd steep_id]. rewrite set_fresh by assumption.
      rewrite steeps_of_append. cbn [steep_brewId].
      destruct (String.eqb_spec brewId0 brewId) as [->|Hne].
      * right; left. eexists _, _. now repeat split.
      * left. apply app_nil_r.
  - intros trace Hok Hdel k st Hk.
    destruct (serve_all_steeps_of brewId trace Hr Hok Hdel) as [Hr' Hall].
    pose proof (reachable_Invariant Hr') as (_ & _ & _ & _ & Hn' & _).
    specialize (Hn' brewId). rewrite Hall in Hn'.
    apply numbered_nth
      with (start := 1%nat) (k := (List.length (steeps_of brewId s) + k)%nat)
           (st := st) in Hn'.
    + lia.
    + rewrite nth_error_app2 by lia.
      now replace (List.length (steeps_of brewId s) + k
                   - List.length (steeps_of brewId s))%nat with k by lia.
Qed.

(** ** Brew creation *)

Lemma z_uuid_inv (x : option json) (id : string) :
  z_uuid x = Some id -> x = Some (JStr id) /\ is_uuid id = true.
Proof.
  unfold z_uuid, z_string, checks. simpl. intros H.
  destruct x as [[]|]; try discriminate.
  destruct (is_uuid s) eqn:E; simpl in H; [|discriminate].
  injection H as <-. now split.
Qed.

Lemma optional_absent (A : Type) (f : field A) (r : option A) :
  optional f None = Some r -> r = None.
Proof. simpl. congruence. Qed.

Lemma optional_z_int_present (cs : list (Z -> bool)) (v : json)
  (r : option Z) :
  optional (z_int cs) (Some v) = Some r ->
  exists q w, v = JNum q /\ as_integer q = Some w
              /\ checks cs w = true /\ r = Some w.
Proof.
  unfold optional, z_int. intros H.
  destruct v; try discriminate.
  destruct (as_integer q) as [w|] eqn:Hq; [|discriminate].
  destruct (checks cs w) eqn:Hc; [|discriminate].
  injection H as <-. now exists q, w.
Qed.

Lemma CreateBrewSchema_fields (input : json) (d : CreateBrew) :
  CreateBrewSchema input = Success d ->
  exists o,
    input = JObj o
    /\ z_uuid (prop "teapotId" o) = Some (cb_teapotId d)
    /\ z_uuid (prop "teaId" o) = Some (cb_teaId d)
    /\ optional (z_int [min 60; max 100]) (prop "waterTempCelsius" o)
       = Some (cb_waterTempCelsius d)
    /\ default None (nullable (z_string [smax 500])) (prop "notes" o)
       = Some (cb_notes d).
Proof.
  unfold CreateBrewSchema, finish. intros H.
  destruct input as [| | | | |o]; try discriminate.
  exists o. split; [reflexivity|].
  destruct (z_uuid (prop "teapotId" o)); [|discriminate].
  destruct (z_uuid (prop "teaId" o)); [|discriminate].
  destruct (optional _ (prop "waterTempCelsius" o)); [|discriminate].
  destruct (default _ _ (prop "notes" o)); [|discriminate].
  injection H as <-. now repeat split.
Qed.

(** C3, as the handler has it. A POST /brews whose body passes the schema
    carries two well-formed UUIDs and is answered with status 400 and code
    VALIDATION_ERROR, never 404, when a referenced entity is missing: with
    the message "Teapot not found" when the teapot is not in the teapot
    store, and with "Tea not found" when the teapot is there and the tea is
    not in the tea store. The stores are unchanged. *)
Theorem brew_create_missing_reference (s : State) (env : Env) (input : json)
  (d : CreateBrew) :
  CreateBrewSchema input = Success d ->
  is_uuid (cb_teapotId d) = true
  /\ is_uuid (cb_teaId d) = true
  /\ (JsMap.has (cb_teapotId d) (teapots s) = false ->
      brews_create s env input
      = (s, Responded
              (mkResponse 400
                 (BError (mkApiError "VALIDATION_ERROR" "Teapot not found"
                            None)))))
  /\ (JsMap.has (cb_teapotId d) (teapots s) = true ->
      JsMap.has (cb_teaId d) (teas s) = false ->
      brews_create s env input
      = (s, Responded
              (mkResponse 400
                 (BError (mkApiError "VALIDATION_ERROR" "Tea not found"
                            None))))).
Proof.
  intros Hd.
  destruct (CreateBrewSchema_fields _ Hd) as (o & _ & Hp & Ht & _).
  apply z_uuid_inv in Hp as [_ Hp]. apply z_uuid_inv in Ht as [_ Ht].
  split; [assumption|]. split; [assumption|].
  unfold brews_create. rewrite Hd. split.
  - intros H. now rewrite (has_false_get _ _ H).
  - intros H1 H2. apply has_true_get in H1 as (teapot & ->).
    now rewrite (has_false_get _ _ H2).
Qed.

(** C9. A successful POST /brews answers 201 with the brew it stored under
    the new id: status "preparing"; waterTempCelsius the value of the
    request when the body has one, the steepTempCelsius of the referenced
    tea otherwise; startedAt, createdAt and updatedAt all the time of the
    request; completedAt null. *)
Theorem brew_create_defaults (s : State) (env : Env) (input : json)
  (d : CreateBrew) (teapot : Teapot) (tea : Tea) :
  CreateBrewSchema input = Success d ->
  JsMap.get (cb_teapotId d) (teapots s) = Some teapot ->
  JsMap.get (cb_teaId d) (teas s) = Some tea ->
  exists brew,
    brews_create s env input
    = (with_brews s (JsMap.set (uuid env) brew (brews s)),
       Responded (mkResponse 201 (BBrew brew)))
    /\ brew_id brew = uuid env
    /\ brew_teapotId brew = cb_teapotId d
    /\ brew_teaId brew = cb_teaId d
    /\ brew_status brew = preparing
    /\ brew_waterTempCelsius brew
       = match cb_waterTempCelsius d with
         | Some w => w
         | None => tea_steepTempCelsius tea
         end
    /\ (exists o,
          input = JObj o
          /\ (prop "waterTempCelsius" o = None ->
              brew_waterTempCelsius brew = tea_steepTempCelsius tea)
          /\ (forall v, prop "waterTempCelsius" o = Some v ->
                exists q w, v = JNum q /\ as_integer q = Some w
                            /\ 60 <= w <= 100
                            /\ brew_waterTempCelsius brew = w))
    /\ brew_startedAt brew = now env
    /\ brew_createdAt brew = brew_startedAt brew
    /\ brew_updatedAt brew = brew_startedAt brew
    /\ brew_completedAt brew = None.
Proof.
  intros Hd Hp Ht.
  destruct (CreateBrewSchema_fields _ Hd) as (o & -> & _ & _ & Hw & _).
  unfold brews_create. rewrite Hd, Hp, Ht. cbn [brew_id].
  eexists. split; [reflexivity|]. cbn.
  repeat (split; [reflexivity|]). split; [|now repeat split].
  exists o. split; [reflexivity|]. split.
  - intros E. rewrite E in Hw. apply optional_absent in Hw. now rewrite Hw.
  - intros v E. rewrite E in Hw.
    apply optional_z_int_present in Hw as (q & w & -> & Hq & Hc & ->).
    exists q, w. repeat split; try assumption; try reflexivity;
      unfold checks, min, max in Hc; simpl in Hc; lia.
Qed.

(** ** Steep creation under a missing brew *)

(** C4. POST /brews/:brewId/steeps with a well-formed UUID that is not in
    the brew store answers 404, code NOT_FOUND, message "Brew not found",
    whatever the body, and leaves the stores as they were. *)
Theorem steep_create_brew_not_found (s : State) (env : Env) (brewId : string)
  (input : json) :
  is_uuid brewId = true ->
  JsMap.has brewId (brews s) = false ->
  brew_steeps_create s env brewId input
  = (s, Responded
          (mkResponse 404
             (BError (mkApiError "NOT_FOUND" "Brew not found" None)))).
Proof.
  intros Hu Hb. unfold brew_steeps_create.
  rewrite BrewIdParamSchema_ok by assumption. now rewrite Hb.
Qed.

(** ** The detail view of a brew *)

(** C8. GET /brews/:id on a brew of the store answers 200: with the brew
    and its teapot and tea inlined when both are in their stores, with the
    bare brew when either is missing. *)
Theorem brew_get_expansion (s : State) (id : string) (brew : Brew) :
  is_uuid id = true ->
  JsMap.get id (brews s) = Some brew ->
  (forall teapot tea,
     JsMap.get (brew_teapotId brew) (teapots s) = Some teapot ->
     JsMap.get (brew_teaId brew) (teas s) = Some tea ->
     brews_get s id
     = (s, Responded (mkResponse 200 (BBrewWithDetails brew teapot tea))))
  /\ (JsMap.get (brew_teapotId brew) (teapots s) = None
      \/ JsMap.get (brew_teaId brew) (teas s) = None ->
      brews_get s id = (s, Responded (mkResponse 200 (BBrew brew)))).
Proof.
  intros Hu Hb. unfold brews_get.
  rewrite UuidParamSchema_ok by assumption. rewrite Hb. split.
  - intros teapot tea -> ->. reflexivity.
  - intros [->| ->]; [reflexivity|].
    now destruct (JsMap.get (brew_teapotId brew) (teapots s)).
Qed.

(** ** Errors leave the stores alone *)

(** C10. A request answered with status 400 or 404 leaves the four stores
    exactly as they were. *)
Theorem error_leaves_stores (s : State) (env : Env) (r : Request) :
  status (snd (serve s env r)) = 400 \/ status (snd (serve s env r)) = 404 ->
  fst (serve s env r) = s.
Proof.
  rewrite fst_serve, snd_serve.
  destruct r; simpl;
    unfold teapots_list, teapots_create, teapots_get, teapots_put,
      teapots_patch, teapots_delete, getTeapotBrews, teas_list, teas_create,
      teas_get, teas_put, teas_patch, teas_delete, brews_list, brews_create,
      brews_get, brews_patch, brews_delete, brew_steeps_list,
      brew_steeps_create, paginate;
    repeat break_match; cbn; intros [H|H]; try reflexivity; discriminate H.
Qed.

(** ** Pagination *)

Lemma math_ceil_div_spec (a b : Z) :
  0 < b -> b * (math_ceil_div a b - 1) < a <= b * math_ceil_div a b.
Proof.
  intros Hb. unfold math_ceil_div.
  pose proof (Z.mul_div_le (- a) b Hb).
  pose proof (Z.mul_succ_div_gt (- a) b Hb). nia.
Qed.

Lemma firstn_cap (A : Type) (n : nat) (l : list A) :
  firstn n l = firstn (Nat.min n (List.length l)) l.
Proof.
  destruct (Nat.le_gt_cases n (List.length l)) as [H|H].
  - now rewrite Nat.min_l.
  - rewrite Nat.min_r by lia. rewrite firstn_all.
    apply firstn_all2. lia.
Qed.

Lemma js_slice_window (A : Type) (l : list A) (start limit : Z) :
  0 <= start -> 0 <= limit ->
  js_slice start (start + limit) l
  = firstn (Z.to_nat limit) (skipn (Z.to_nat start) l).
Proof.
  intros Hs Hl. unfold js_slice.
  destruct (Z.ltb_spec start 0); [lia|].
  destruct (Z.ltb_spec (start + limit) 0); [lia|].
  destruct (Z_le_gt_dec start (Z.of_nat (List.length l))) as [Hle|Hgt].
  - rewrite (Z.min_l start) by assumption.
    rewrite firstn_cap, (firstn_cap (Z.to_nat limit)).
    f_equal. rewrite length_skipn. lia.
  - rewrite (Z.min_r start) by lia. rewrite Nat2Z.id, skipn_all.
    rewrite (skipn_all2 (n := Z.to_nat start)) by lia.
    now rewrite !firstn_nil.
Qed.

Lemma paginate_spec (A : Type) (wrap : Page A -> Body) (items : list A)
  (page limit : Z) :
  1 <= page -> 1 <= limit ->
  exists p,
    paginate wrap items page limit = Responded (mkResponse 200 (wrap p))
    /\ is_page_of items page limit p.
Proof.
  intros Hp Hl. unfold paginate. eexists. split; [reflexivity|].
  unfold is_page_of. cbn [pagination data pg_page pg_limit pg_total
                          pg_totalPages].
  assert (Hceil := @math_ceil_div_spec (Z.of_nat (List.length items)) limit
                    ltac:(lia)).
  rewrite js_slice_window by nia.
  do 3 (split; [reflexivity|]). split; [exact Hceil|].
  split; [reflexivity|]. split.
  - intros i. rewrite nth_error_firstn, nth_error_skipn.
    destruct (Nat.ltb_spec i (Z.to_nat limit));
      destruct (Z.ltb_spec (Z.of_nat i) limit); try lia; reflexivity.
  - intros Hlast. rewrite skipn_all2 by nia. apply firstn_nil.
Qed.

Lemma paging_field_checks (cs : list (Z -> bool)) (d : Z) (x : option json)
  (n : Z) :
  default d (z_coerce_int cs) x = Some n ->
  checks cs d = true -> checks cs n = true.
Proof.
  unfold default, z_coerce_int. intros H Hd.
  destruct x as [[]|]; try discriminate.
  - destruct (as_integer q) as [w|]; [|discriminate].
    destruct (checks cs w) eqn:E; [|discriminate]. now injection H as <-.
  - destruct (js_Number s) as [q|]; [|discriminate].
    destruct (as_integer q) as [w|]; [|discriminate].
    destruct (checks cs w) eqn:E; [|discriminate]. now injection H as <-.
  - now injection H as <-.
Qed.

Lemma page_field_range (x : option json) (n : Z) :
  default 1 (z_coerce_int [positive]) x = Some n -> 1 <= n.
Proof.
  intros H. apply paging_field_checks in H; [|reflexivity].
  unfold checks, positive in H. simpl in H. lia.
Qed.

Lemma limit_field_range (x : option json) (n : Z) :
  default 20 (z_coerce_int [positive; max 100]) x = Some n -> 1 <= n <= 100.
Proof.
  intros H. apply paging_field_checks in H; [|reflexivity].
  unfold checks, positive, max in H. simpl in H. lia.
Qed.

Ltac query_range H :=
  unfold finish in H;
  match type of H with
  | context [default 1 (z_coerce_int [positive]) ?x] =>
      destruct (default 1 (z_coerce_int [positive]) x) as [pg|] eqn:Hpage;
      [apply page_field_range in Hpage|discriminate H]
  end;
  match type of H with
  | context [default 20 (z_coerce_int [positive; max 100]) ?x] =>
      destruct (default 20 (z_coerce_int [positive; max 100]) x)
        as [lm|] eqn:Hlimit;
      [apply limit_field_range in Hlimit|discriminate H]
  end;
  break_in H; try discriminate H; injection H as <-; cbn; lia.

Lemma PaginationQuerySchema_range (query : list (string * string))
  (q : PaginationQuery) :
  PaginationQuerySchema query = Success q ->
  1 <= pq_page q /\ 1 <= pq_limit q <= 100.
Proof. unfold PaginationQuerySchema. intros H. query_range H. Qed.

Lemma TeapotQuerySchema_range (query : list (string * string))
  (q : TeapotQuery) :
  TeapotQuerySchema query = Success q ->
  1 <= tq_page q /\ 1 <= tq_limit q <= 100.
Proof. unfold TeapotQuerySchema. intros H. query_range H. Qed.

Lemma TeaQuerySchema_range (query : list (string * string)) (q : TeaQuery) :
  TeaQuerySchema query = Success q ->
  1 <= taq_page q /\ 1 <= taq_limit q <= 100.
Proof. unfold TeaQuerySchema. intros H. query_range H. Qed.

Lemma BrewQuerySchema_range (query : list (string * string)) (q : BrewQuery) :
  BrewQuerySchema query = Success q ->
  1 <= bq_page q /\ 1 <= bq_limit q <= 100.
Proof. unfold BrewQuerySchema. intros H. query_range H. Qed.

(** C5. Every list handler whose query passes validation has
    1 <= page and 1 <= limit <= 100 and answers 200 with the page of its
    filtered items: total is their number, totalPages the ceiling of
    total / limit, data the items from index (page-1)*limit up to
    (page-1)*limit + limit, and data is empty, with no error, for a page
    beyond totalPages. *)
Theorem list_pagination (s : State) :
  (forall query q,
     TeapotQuerySchema query = Success q ->
     1 <= tq_page q /\ 1 <= tq_limit q <= 100
     /\ exists p,
          teapots_list s query
          = (s, Responded (mkResponse 200 (BTeapotPage p)))
          /\ is_page_of (teapots_items s q) (tq_page q) (tq_limit q) p)
  /\ (forall query q,
        TeaQuerySchema query = Success q ->
        1 <= taq_page q /\ 1 <= taq_limit q <= 100
        /\ exists p,
             teas_list s query = (s, Responded (mkResponse 200 (BTeaPage p)))
             /\ is_page_of (teas_items s q) (taq_page q) (taq_limit q) p)
  /\ (forall query q,
        BrewQuerySchema query = Success q ->
        1 <= bq_page q /\ 1 <= bq_limit q <= 100
        /\ exists p,
             brews_list s query = (s, Responded (mkResponse 200 (BBrewPage p)))
             /\ is_page_of (brews_items s q) (bq_page q) (bq_limit q) p)
  /\ (forall brewId query q,
        is_uuid brewId = true ->
        JsMap.has brewId (brews s) = true ->
        PaginationQuerySchema query = Success q ->
        1 <= pq_page q /\ 1 <= pq_limit q <= 100
        /\ exists p,
             brew_steeps_list s brewId query
             = (s, Responded (mkResponse 200 (BSteepPage p)))
             /\ is_page_of (steeps_items s brewId) (pq_page q) (pq_limit q) p)
  /\ (forall teapotId query q,
        is_uuid teapotId = true ->
        JsMap.has teapotId (teapots s) = true ->
        PaginationQuerySchema query = Success q ->
        1 <= pq_page q /\ 1 <= pq_limit q <= 100
        /\ exists p,
             getTeapotBrews s teapotId query
             = (s, Responded (mkResponse 200 (BBrewPage p)))
             /\ is_page_of (teapot_brews_items s teapotId)
                           (pq_page q) (pq_limit q) p).
Proof.
  split; [|split; [|split; [|split]]].
  - intros query q H. unfold teapots_list. rewrite H.
    apply TeapotQuerySchema_range in H.
    destruct (@paginate_spec _ BTeapotPage (teapots_items s q)
                (tq_page q) (tq_limit q)) as (p & -> & Hp); try lia.
    repeat (split; [lia|]). now exists p.
  - intros query q H. unfold teas_list. rewrite H.
    apply TeaQuerySchema_range in H.
    destruct (@paginate_spec _ BTeaPage (teas_items s q)
                (taq_page q) (taq_limit q)) as (p & -> & Hp); try lia.
    repeat (split; [lia|]). now exists p.
  - intros query q H. unfold brews_list. rewrite H.
    apply BrewQuerySchema_range in H.
    destruct (@paginate_spec _ BBrewPage (brews_items s q)
                (bq_page q) (bq_limit q)) as (p & -> & Hp); try lia.
    repeat (split; [lia|]). now exists p.
  - intros brewId query q Hu Hb H. unfold brew_steeps_list.
    rewrite BrewIdParamSchema_ok by assumption. rewrite Hb, H. cbn [negb].
    apply PaginationQuerySchema_range in H.
    destruct (@paginate_spec _ BSteepPage (steeps_items s brewId)
                (pq_page q) (pq_limit q)) as (p & -> & Hp); try lia.
    repeat (split; [lia|]). now exists p.
  - intros teapotId query q Hu Hb H. unfold getTeapotBrews.
    rewrite TeapotIdParamSchema_ok by assumption. rewrite Hb, H. cbn [negb].
    apply PaginationQuerySchema_range in H.
    destruct (@paginate_spec _ BBrewPage (teapot_brews_items s teapotId)
                (pq_page q) (pq_limit q)) as (p & -> & Hp); try lia.
    repeat (split; [lia|]). now exists p.
Qed.

(** ** Partial updates *)

Ltac fields_of H :=
  unfold finish in H; break_in H; try discriminate H;
  injection H as <-; cbn; repeat split; assumption.

Lemma PatchTeapotSchema_fields (input : json) (d : PatchTeapot) :
  PatchTeapotSchema input = Success d ->
  exists o,
    input = JObj o
    /\ optional (z_string [smin 1; smax 100]) (prop "name" o)
       = Some (pt_name d)
    /\ optional (z_enum TeapotMaterial_of_string) (prop "material" o)
       = Some (pt_material d)
    /\ optional (z_int [positive; max 5000]) (prop "capacityMl" o)
       = Some (pt_capacityMl d)
    /\ optional (z_enum TeapotStyle_of_string) (prop "style" o)
       = Some (pt_style d)
    /\ optional (nullable (z_string [smax 500])) (prop "description" o)
       = Some (pt_description d).
Proof.
  unfold PatchTeapotSchema. intros H.
  destruct input as [| | | | |o]; try discriminate.
  exists o. split; [reflexivity|]. fields_of H.
Qed.

Lemma PatchTeaSchema_fields (input : json) (d : PatchTea) :
  PatchTeaSchema input = Success d ->
  exists o,
    input = JObj o
    /\ optional (z_string [smin 1; smax 100]) (prop "name" o)
       = Some (pta_name d)
    /\ optional (z_enum TeaType_of_string) (prop "type" o)
       = Some (pta_type d)
    /\ optional (z_string [smax 100]) (prop "origin" o)
       = Some (pta_origin d)
    /\ optional (z_enum CaffeineLevel_of_string) (prop "caffeineLevel" o)
       = Some (pta_caffeineLevel d)
    /\ optional (z_int [min 60; max 100]) (prop "steepTempCelsius" o)
       = Some (pta_steepTempCelsius d)
    /\ optional (z_int [positive; max 600]) (prop "steepTimeSeconds" o)
       = Some (pta_steepTimeSeconds d)
    /\ optional (nullable (z_string [smax 1000])) (prop "description" o)
       = Some (pta_description d).
Proof.
  unfold PatchTeaSchema. intros H.
  destruct input as [| | | | |o]; try discriminate.
  exists o. split; [reflexivity|]. fields_of H.
Qed.

Lemma PatchBrewSchema_fields (input : json) (d : PatchBrew) :
  PatchBrewSchema input = Success d ->
  exists o,
    input = JObj o
    /\ optional (z_enum BrewStatus_of_string) (prop "status" o)
       = Some (pb_status d)
    /\ optional (nullable (z_string [smax 500])) (prop "notes" o)
       = Some (pb_notes d)
    /\ optional (nullable z_datetime) (prop "completedAt" o)
       = Some (pb_completedAt d).
Proof.
  unfold PatchBrewSchema. intros H.
  destruct input as [| | | | |o]; try discriminate.
  exists o. split; [reflexivity|]. fields_of H.
Qed.

Ltac retained :=
  let E := fresh in
  intros E;
  match goal with
  | H : optional _ _ = Some _ |- _ =>
      rewrite E in H; apply optional_absent in H; rewrite H; reflexivity
  end.

(** C6. A PATCH of an entity of the store with a valid partial body
    answers 200 with the patched entity, stored under the same id: every
    field whose key the body omits keeps its value, id and createdAt are
    unchanged, and updatedAt is the time of the request, whatever the body
    supplies, hence not earlier than before when the clock has not gone
    back. This for teapots, teas and brews. *)
Theorem patch_retains_omitted (s : State) (env : Env) (id : string)
  (input : json) :
  is_uuid id = true ->
  (forall existing d,
     JsMap.get id (teapots s) = Some existing ->
     PatchTeapotSchema input = Success d ->
     exists t o,
       teapots_patch s env id input
       = (with_teapots s (JsMap.set (teapot_id existing) t (teapots s)),
          Responded (mkResponse 200 (BTeapot t)))
       /\ input = JObj o
       /\ teapot_id t = teapot_id existing
       /\ teapot_createdAt t = teapot_createdAt existing
       /\ teapot_updatedAt t = now env
       /\ (String.leb (teapot_updatedAt existing) (now env) = true ->
           String.leb (teapot_updatedAt existing) (teapot_updatedAt t) = true)
       /\ (prop "name" o = None -> teapot_name t = teapot_name existing)
       /\ (prop "material" o = None ->
           teapot_material t = teapot_material existing)
       /\ (prop "capacityMl" o = None ->
           teapot_capacityMl t = teapot_capacityMl existing)
       /\ (prop "style" o = None -> teapot_style t = teapot_style existing)
       /\ (prop "description" o = None ->
           teapot_description t = teapot_description existing))
  /\ (forall existing d,
        JsMap.get id (teas s) = Some existing ->
        PatchTeaSchema input = Success d ->
        exists t o,
          teas_patch s env id input
          = (with_teas s (JsMap.set (tea_id existing) t (teas s)),
             Responded (mkResponse 200 (BTea t)))
          /\ input = JObj o
          /\ tea_id t = tea_id existing
          /\ tea_createdAt t = tea_createdAt existing
          /\ tea_updatedAt t = now env
          /\ (String.leb (tea_updatedAt existing) (now env) = true ->
              String.leb (tea_updatedAt existing) (tea_updatedAt t) = true)
          /\ (prop "name" o = None -> tea_name t = tea_name existing)
          /\ (prop "type" o = None -> tea_type t = tea_type existing)
          /\ (prop "origin" o = None -> tea_origin t = tea_origin existing)
          /\ (prop "caffeineLevel" o = None ->
              tea_caffeineLevel t = tea_caffeineLevel existing)
          /\ (prop "steepTempCelsius" o = None ->
              tea_steepTempCelsius t = tea_steepTempCelsius existing)
          /\ (prop "steepTimeSeconds" o = None ->
              tea_steepTimeSeconds t = tea_steepTimeSeconds existing)
          /\ (prop "description" o = None ->
              tea_description t = tea_description existing))
  /\ (forall existing d,
        JsMap.get id (brews s) = Some existing ->
        PatchBrewSchema input = Success d ->
        exists b o,
          brews_patch s env id input
          = (with_brews s (JsMap.set (brew_id existing) b (brews s)),
             Responded (mkResponse 200 (BBrew b)))
          /\ input = JObj o
          /\ brew_id b = brew_id existing
          /\ brew_createdAt b = brew_createdAt existing
          /\ brew_updatedAt b = now env
          /\ (String.leb (brew_updatedAt existing) (now env) = true ->
              String.leb (brew_updatedAt existing) (brew_updatedAt b) = true)
          /\ brew_teapotId b = brew_teapotId existing
          /\ brew_teaId b = brew_teaId existing
          /\ brew_waterTempCelsius b = brew_waterTempCelsius existing
          /\ brew_startedAt b = brew_startedAt existing
          /\ (prop "status" o = None -> brew_status b = brew_status existing)
          /\ (prop "notes" o = None -> brew_notes b = brew_notes existing)
          /\ (prop "completedAt" o = None ->
              brew_completedAt b = brew_completedAt existing)).
Proof.
  intros Hu. split; [|split]; intros existing d Hget Hd.
  - destruct (PatchTeapotSchema_fields _ Hd) as (o & -> & ? & ? & ? & ? & ?).
    unfold teapots_patch. rewrite UuidParamSchema_ok by assumption.
    rewrite Hget, Hd. eexists _, o. split; [reflexivity|]. cbn.
    repeat (split; [first [reflexivity | tauto | retained]|]). retained.
  - destruct (PatchTeaSchema_fields _ Hd)
      as (o & -> & ? & ? & ? & ? & ? & ? & ?).
    unfold teas_patch. rewrite UuidParamSchema_ok by assumption.
    rewrite Hget, Hd. eexists _, o. split; [reflexivity|]. cbn.
    repeat (split; [first [reflexivity | tauto | retained]|]). retained.
  - destruct (PatchBrewSchema_fields _ Hd) as (o & -> & ? & ? & ?).
    unfold brews_patch. rewrite UuidParamSchema_ok by assumption.
    rewrite Hget, Hd. eexists _, o. split; [reflexivity|]. cbn.
    repeat (split; [first [reflexivity | tauto | retained]|]). retained.
Qed.

(** ** Invalid query strings *)

Lemma prop_query_object (k : string) (query : list (string * string)) :
  prop k (query_object query) = option_map JStr (assoc k query).
Proof.
  unfold prop, query_object.
  induction query as [|[k' v] query IH]; simpl; [reflexivity|].
  now destruct (String.eqb k' k).
Qed.

Lemma z_coerce_int_rejects (cs : list (Z -> bool)) (d : Z) (v : string) :
  (forall n, coerces_to v n -> checks cs n = false) ->
  default d (z_coerce_int cs) (Some (JStr v)) = None.
Proof.
  unfold default, z_coerce_int, coerces_to. intros H.
  destruct (js_Number v) as [q|] eqn:Hq; [|reflexivity].
  destruct (as_integer q) as [n|] eqn:Hn; [|reflexivity].
  rewrite (H n); [reflexivity|]. now exists q.
Qed.

Lemma paging_invalid_field (query : list (string * string)) :
  paging_invalid query ->
  default 1 (z_coerce_int [positive]) (prop "page" (query_object query))
  = None
  \/ default 20 (z_coerce_int [positive; max 100])
       (prop "limit" (query_object query))
     = None.
Proof.
  intros [(v & Hv & H)|(v & Hv & H)]; [left|right];
    rewrite prop_query_object, Hv; apply z_coerce_int_rejects;
    intros n Hn; apply H in Hn;
    unfold checks, positive, max; simpl.
  - destruct (Z.ltb_spec 0 n); [lia|reflexivity].
  - destruct (Z.ltb_spec 0 n); destruct (Z.leb_spec n 100);
      try reflexivity; lia.
Qed.

Ltac rejects H :=
  let E := fresh in
  unfold finish, not; destruct H as [H|H]; rewrite H;
  intros E; break_in E; discriminate E.

Lemma paging_invalid_fails (query : list (string * string)) :
  paging_invalid query ->
  (forall q, TeapotQuerySchema query <> Success q)
  /\ (forall q, TeaQuerySchema query <> Success q)
  /\ (forall q, BrewQuerySchema query <> Success q)
  /\ (forall q, PaginationQuerySchema query <> Success q).
Proof.
  intros H. apply paging_invalid_field in H.
  repeat split; intros q;
    unfold TeapotQuerySchema, TeaQuerySchema, BrewQuerySchema,
      PaginationQuerySchema; rejects H.
Qed.

(** C7. A list request whose query schema fails is not answered as a
    validation failure. The five list handlers read the query string with
    [Schema.parse], which throws: a paging parameter that fails validation
    after coercion (a page that is no integer from 1 up, a limit that is no
    integer from 1 to 100) makes every query schema fail, and, unless a
    nested route has already answered for its path parameter, the handler
    then answers nothing and changes no store. What the caller receives is
    the answer of the error middleware of app.ts, HTTP 500 with code
    INTERNAL_ERROR, the generic message and no field details. The failure
    of a body schema, which the handlers test with [safeParse], is answered
    with HTTP 400, code VALIDATION_ERROR and the failing fields. *)
Theorem invalid_query_internal_error (s : State) (env : Env) (r : Request) :
  (forall query,
     list_query r = Some query -> paging_invalid query ->
     exists e, query_failure r = Some e)
  /\ (forall e,
        query_failure r = Some e ->
        (forall id, path_id r = Some id ->
                    is_uuid id = true /\ addressed_has s r = true) ->
        route s env r = (s, Thrown e)
        /\ createApp s env (Resource r)
           = (s, mkResponse 500
                   (BError (mkApiError "INTERNAL_ERROR"
                              "An unexpected error occurred" None))))
  /\ (forall input e,
        CreateTeapotSchema input = Failure e ->
        createApp s env (Resource (POST_teapots input))
        = (s, mkResponse 400
                (BError (mkApiError "VALIDATION_ERROR" "Invalid request body"
                           (Some e))))).
Proof.
  split; [|split].
  - intros query Hq Hbad.
    destruct (paging_invalid_fails Hbad) as (H1 & H2 & H3 & H4).
    destruct r; simpl in Hq; try discriminate; injection Hq as ->; simpl.
    + destruct (TeapotQuerySchema query) as [q|e];
        [now destruct (H1 q)|now exists e].
    + destruct (PaginationQuerySchema query) as [q|e];
        [now destruct (H4 q)|now exists e].
    + destruct (TeaQuerySchema query) as [q|e];
        [now destruct (H2 q)|now exists e].
    + destruct (BrewQuerySchema query) as [q|e];
        [now destruct (H3 q)|now exists e].
    + destruct (PaginationQuerySchema query) as [q|e];
        [now destruct (H4 q)|now exists e].
  - intros e He Hid.
    assert (Hroute : route s env r = (s, Thrown e)).
    { destruct r; simpl in He; try discriminate; simpl.
      + unfold teapots_list.
        destruct (TeapotQuerySchema query); [discriminate|].
        now injection He as ->.
      + destruct (Hid teapotId eq_refl) as (Hu & Hhas). simpl in Hhas.
        unfold getTeapotBrews, TeapotIdParamSchema. rewrite Hu, Hhas.
        destruct (PaginationQuerySchema query); [discriminate|].
        now injection He as ->.
      + unfold teas_list.
        destruct (TeaQuerySchema query); [discriminate|].
        now injection He as ->.
      + unfold brews_list.
        destruct (BrewQuerySchema query); [discriminate|].
        now injection He as ->.
      + destruct (Hid brewId eq_refl) as (Hu & Hhas). simpl in Hhas.
        unfold brew_steeps_list, BrewIdParamSchema. rewrite Hu, Hhas.
        destruct (PaginationQuerySchema query); [discriminate|].
        now injection He as ->. }
    split; [exact Hroute|].
    cbn [createApp]. unfold serve. now rewrite Hroute.
  - intros input e He. cbn [createApp]. unfold serve. cbn [route].
    unfold teapots_create. now rewrite He.
Qed.
(** ** Further properties of the reachable states *)

(** X1. In every reachable state each of the four stores holds one entry
    per id, every entity sits under its own id, and every id is a
    well-formed UUID. *)
Theorem stores_keyed_by_id (s : State) :
  reachable s ->
  store_ok teapot_id (teapots s)
  /\ store_ok tea_id (teas s)
  /\ store_ok brew_id (brews s)
  /\ store_ok steep_id (steeps s).
Proof.
  intros Hr. destruct (reachable_Invariant Hr) as (Hp & Ht & Hb & Hs & _).
  auto.
Qed.

(** X2. In every reachable state every steep belongs to a brew of the brew
    store: the existence check on creation and the cascade on deletion
    leave no steep without its brew. *)
Theorem steeps_have_their_brew (s : State) (st : Steep) :
  reachable s ->
  In st (JsMap.values (steeps s)) ->
  exists b,
    JsMap.get (steep_brewId st) (brews s) = Some b
    /\ brew_id b = steep_brewId st.
Proof.
  intros Hr Hin.
  destruct (reachable_Invariant Hr) as (_ & _ & Hb & _ & _ & Href).
  apply In_values in Hin as (k & Hin). apply Href in Hin.
  apply has_true_get in Hin as (b & Hget). exists b. split; [assumption|].
  now destruct (store_ok_get _ Hb Hget).
Qed.

(** ** Methods and status codes *)

(** X3. A GET request never changes a store, whatever it answers. *)
Theorem get_is_read_only (s : State) (env : Env) (r : Request) :
  is_get r = true -> fst (serve s env r) = s.
Proof.
  rewrite fst_serve.
  destruct r; simpl; try discriminate; intros _;
    unfold teapots_list, teapots_get, getTeapotBrews, teas_list, teas_get,
      brews_list, brews_get, brew_steeps_list;
    repeat break_match; reflexivity.
Qed.

(** X4. The status of a response of the application is 200, 201, 204,
    400, 404, 418 or 500, and never 503, the two checks of GET /health/ready
    being constants. 201 is answered to the POST routes only, 204 to the
    DELETE routes only, 418 to GET /brew and to nothing else, 200 to the
    health routes and to the GET, PUT and PATCH routes only. 500 is what the
    error middleware answers: only to a request that [express.json()] or
    the router refused before any route ran, and to a list request whose
    query schema failed. *)
Theorem status_codes (s : State) (env : Env) (i : Incoming) :
  let st := status (snd (createApp s env i)) in
  (st = 200 \/ st = 201 \/ st = 204 \/ st = 400 \/ st = 404 \/ st = 418
   \/ st = 500)
  /\ (st = 201 -> exists r, i = Resource r /\ is_post r = true)
  /\ (st = 204 -> exists r, i = Resource r /\ is_delete r = true)
  /\ (st = 200 ->
      i = GET_health \/ i = GET_health_live \/ i = GET_health_ready
      \/ exists r, i = Resource r
                   /\ (is_get r = true \/ is_put_or_patch r = true))
  /\ (st = 418 <-> i = GET_brew)
  /\ (st = 500 ->
      (exists err, i = Refused err)
      \/ exists r e, i = Resource r /\ query_failure r = Some e).
Proof.
  destruct i as [err|r| | | | |method path]; cbn [createApp snd];
    try (cbn; repeat split; try tauto; try discriminate; intros _;
         eauto).
  rewrite snd_serve.
  destruct r; simpl;
    unfold teapots_list, teapots_create, teapots_get, teapots_put,
      teapots_patch, teapots_delete, getTeapotBrews, teas_list, teas_create,
      teas_get, teas_put, teas_patch, teas_delete, brews_list, brews_create,
      brews_get, brews_patch, brews_delete, brew_steeps_list,
      brew_steeps_create, paginate;
    repeat break_match; cbn;
    repeat split; try tauto; try discriminate; intros _;
    eauto 8;
    right; eexists _, _; (split; [reflexivity|]); simpl;
    match goal with H : _ = Failure _ |- _ => now rewrite H end.
Qed.

(** ** Stored entities pass their entity schema *)

Ltac field_sound H :=
  unfold default, optional, nullable, z_uuid, z_datetime in H;
  unfold z_string, z_int, z_enum in H;
  break_in H; try discriminate H; injection H as <-;
  cbn [when_present]; first [reflexivity | assumption].

Lemma checks_one (A : Type) (c : A -> bool) (a : A) : checks [c] a = c a.
Proof. unfold checks. simpl. apply andb_true_r. Qed.

Lemma over_sound (A : Type) (p : A -> bool) (new : option A) (old : A) :
  when_present p new = true -> p old = true -> p (over new old) = true.
Proof. now destruct new. Qed.

Lemma get_In_values (V : Type) (k : string) (m : JsMap.t V) (v : V) :
  JsMap.get k m = Some v -> In v (JsMap.values m).
Proof.
  intros H. apply get_In in H. unfold JsMap.values.
  apply in_map_iff. now exists (k, v).
Qed.

Lemma In_values_set (V : Type) (k : string) (v x : V) (m : JsMap.t V) :
  In x (JsMap.values (JsMap.set k v m)) -> x = v \/ In x (JsMap.values m).
Proof.
  unfold JsMap.values. intros H. apply in_map_iff in H as ([k' x'] & E & H).
  simpl in E. subst x'. apply In_set in H as [[_ ->]|H]; [now left|].
  right. apply in_map_iff. now exists (k', x).
Qed.

Lemma In_values_filter (V : Type) (p : string * V -> bool) (x : V)
  (m : JsMap.t V) :
  In x (JsMap.values (filter p m)) -> In x (JsMap.values m).
Proof.
  unfold JsMap.values. intros H. apply in_map_iff in H as (e & E & H).
  apply filter_In in H as [H _]. apply in_map_iff. now exists e.
Qed.

Lemma CreateTeapotSchema_fields (input : json) (d : CreateTeapot) :
  CreateTeapotSchema input = Success d ->
  exists o,
    input = JObj o
    /\ z_string [smin 1; smax 100] (prop "name" o) = Some (ct_name d)
    /\ z_enum TeapotMaterial_of_string (prop "material" o)
       = Some (ct_material d)
    /\ z_int [positive; max 5000] (prop "capacityMl" o)
       = Some (ct_capacityMl d)
    /\ default english (z_enum TeapotStyle_of_string) (prop "style" o)
       = Some (ct_style d)
    /\ default None (nullable (z_string [smax 500])) (prop "description" o)
       = Some (ct_description d).
Proof.
  unfold CreateTeapotSchema. intros H.
  destruct input as [| | | | |o]; try discriminate.
  exists o. split; [reflexivity|]. fields_of H.
Qed.

Lemma UpdateTeapotSchema_fields (input : json) (d : UpdateTeapot) :
  UpdateTeapotSchema input = Success d ->
  exists o,
    input = JObj o
    /\ z_string [smin 1; smax 100] (prop "name" o) = Some (ct_name d)
    /\ z_enum TeapotMaterial_of_string (prop "material" o)
       = Some (ct_material d)
    /\ z_int [positive; max 5000] (prop "capacityMl" o)
       = Some (ct_capacityMl d)
    /\ z_enum TeapotStyle_of_string (prop "style" o) = Some (ct_style d)
    /\ nullable (z_string [smax 500]) (prop "description" o)
       = Some (ct_description d).
Proof.
  unfold UpdateTeapotSchema. intros H.
  destruct input as [| | | | |o]; try discriminate.
  exists o. split; [reflexivity|]. fields_of H.
Qed.

Lemma CreateTeaSchema_fields (input : json) (d : CreateTea) :
  CreateTeaSchema input = Success d ->
  exists o,
    input = JObj o
    /\ z_string [smin 1; smax 100] (prop "name" o) = Some (cta_name d)
    /\ z_enum TeaType_of_string (prop "type" o) = Some (cta_type d)
    /\ optional (z_string [smax 100]) (prop "origin" o)
       = Some (cta_origin d)
    /\ default caf_medium (z_enum CaffeineLevel_of_string)
         (prop "caffeineLevel" o)
       = Some (cta_caffeineLevel d)
    /\ z_int [min 60; max 100] (prop "steepTempCelsius" o)
       = Some (cta_steepTempCelsius d)
    /\ z_int [positive; max 600] (prop "steepTimeSeconds" o)
       = Some (cta_steepTimeSeconds d)
    /\ default None (nullable (z_string [smax 1000])) (prop "description" o)
       = Some (cta_description d).
Proof.
  unfold CreateTeaSchema. intros H.
  destruct input as [| | | | |o]; try discriminate.
  exists o. split; [reflexivity|]. fields_of H.
Qed.

Lemma UpdateTeaSchema_fields (input : json) (d : UpdateTea) :
  UpdateTeaSchema input = Success d ->
  exists o,
    input = JObj o
    /\ z_string [smin 1; smax 100] (prop "name" o) = Some (cta_name d)
    /\ z_enum TeaType_of_string (prop "type" o) = Some (cta_type d)
    /\ optional (z_string [smax 100]) (prop "origin" o)
       = Some (cta_origin d)
    /\ z_enum CaffeineLevel_of_string (prop "caffeineLevel" o)
       = Some (cta_caffeineLevel d)
    /\ z_int [min 60; max 100] (prop "steepTempCelsius" o)
       = Some (cta_steepTempCelsius d)
    /\ z_int [positive; max 600] (prop "steepTimeSeconds" o)
       = Some (cta_steepTimeSeconds d)
    /\ nullable (z_string [smax 1000]) (prop "description" o)
       = Some (cta_description d).
Proof.
  unfold UpdateTeaSchema. intros H.
  destruct input as [| | | | |o]; try discriminate.
  exists o. split; [reflexivity|]. fields_of H.
Qed.

Lemma CreateSteepSchema_fields (input : json) (d : CreateSteep) :
  CreateSteepSchema input = Success d ->
  exists o,
    input = JObj o
    /\ z_int [positive] (prop "durationSeconds" o)
       = Some (cs_durationSeconds d)
    /\ default None (nullable (z_int [min 1; max 5])) (prop "rating" o)
       = Some (cs_rating d)
    /\ default None (nullable (z_string [smax 200])) (prop "notes" o)
       = Some (cs_notes d).
Proof.
  unfold CreateSteepSchema. intros H.
  destruct input as [| | | | |o]; try discriminate.
  exists o. split; [reflexivity|]. fields_of H.
Qed.

Ltac all_true :=
  repeat match goal with
         | H : ?b = true |- context [?b] => rewrite H
         end;
  reflexivity.

Lemma create_teapot_conforms (input : json) (d : CreateTeapot)
  (id created updated : string) :
  CreateTeapotSchema input = Success d \/ UpdateTeapotSchema input = Success d ->
  is_uuid id = true -> is_datetime created = true ->
  is_datetime updated = true ->
  TeapotSchema
    (mkTeapot id (ct_name d) (ct_material d) (ct_capacityMl d) (ct_style d)
       (ct_description d) created updated)
  = true.
Proof.
  intros [Hd|Hd] Hu Hc Hup;
    [destruct (CreateTeapotSchema_fields _ Hd) as (o & _ & Hn & _ & Hk & _ & Hs)
    |destruct (UpdateTeapotSchema_fields _ Hd) as (o & _ & Hn & _ & Hk & _ & Hs)];
    assert (checks [smin 1; smax 100] (ct_name d) = true)
      by field_sound Hn;
    assert (checks [positive; max 5000] (ct_capacityMl d) = true)
      by field_sound Hk;
    assert (when_present (checks [smax 500]) (ct_description d) = true)
      by field_sound Hs;
    unfold TeapotSchema; cbn [teapot_id teapot_name teapot_capacityMl
      teapot_description teapot_createdAt teapot_updatedAt]; all_true.
Qed.

Lemma patch_teapot_conforms (input : json) (d : PatchTeapot)
  (existing : Teapot) (updated : string) :
  PatchTeapotSchema input = Success d ->
  TeapotSchema existing = true -> is_datetime updated = true ->
  TeapotSchema (patch_teapot existing d updated) = true.
Proof.
  intros Hd He Hup.
  destruct (PatchTeapotSchema_fields _ Hd) as (o & _ & Hn & _ & Hk & _ & Hs).
  assert (when_present (checks [smin 1; smax 100]) (pt_name d) = true)
    by field_sound Hn.
  assert (when_present (checks [positive; max 5000]) (pt_capacityMl d) = true)
    by field_sound Hk.
  assert (when_present (when_present (checks [smax 500])) (pt_description d)
          = true) by field_sound Hs.
  unfold TeapotSchema in *. repeat (apply andb_prop in He as [He ?]).
  unfold patch_teapot. cbn [teapot_id teapot_name teapot_capacityMl
    teapot_description teapot_createdAt teapot_updatedAt].
  rewrite !over_sound by assumption. all_true.
Qed.

Lemma create_tea_conforms (input : json) (d : CreateTea)
  (id created updated : string) (origin : option string) :
  CreateTeaSchema input = Success d \/ UpdateTeaSchema input = Success d ->
  is_uuid id = true -> is_datetime created = true ->
  is_datetime updated = true ->
  when_present (checks [smax 100]) origin = true ->
  TeaSchema
    (mkTea id (cta_name d) (cta_type d)
       (match cta_origin d with Some o => Some o | None => origin end)
       (cta_caffeineLevel d) (cta_steepTempCelsius d)
       (cta_steepTimeSeconds d) (cta_description d) created updated)
  = true.
Proof.
  intros [Hd|Hd] Hu Hc Hup Ho;
    [destruct (CreateTeaSchema_fields _ Hd)
       as (o & _ & Hn & _ & Hg & _ & Ha & Hb & Hs)
    |destruct (UpdateTeaSchema_fields _ Hd)
       as (o & _ & Hn & _ & Hg & _ & Ha & Hb & Hs)];
    assert (checks [smin 1; smax 100] (cta_name d) = true)
      by field_sound Hn;
    assert (when_present (checks [smax 100]) (cta_origin d) = true)
      by field_sound Hg;
    assert (checks [min 60; max 100] (cta_steepTempCelsius d) = true)
      by field_sound Ha;
    assert (checks [positive; max 600] (cta_steepTimeSeconds d) = true)
      by field_sound Hb;
    assert (when_present (checks [smax 1000]) (cta_description d) = true)
      by field_sound Hs;
    unfold TeaSchema; cbn [tea_id tea_name tea_origin tea_steepTempCelsius
      tea_steepTimeSeconds tea_description tea_createdAt tea_updatedAt];
    destruct (cta_origin d); all_true.
Qed.

Lemma patch_tea_conforms (input : json) (d : PatchTea) (existing : Tea)
  (updated : string) :
  PatchTeaSchema input = Success d ->
  TeaSchema existing = true -> is_datetime updated = true ->
  TeaSchema (patch_tea existing d updated) = true.
Proof.
  intros Hd He Hup.
  destruct (PatchTeaSchema_fields _ Hd)
    as (o & _ & Hn & _ & Hg & _ & Ha & Hb & Hs).
  assert (when_present (checks [smin 1; smax 100]) (pta_name d) = true)
    by field_sound Hn.
  assert (when_present (checks [smax 100]) (pta_origin d) = true)
    by field_sound Hg.
  assert (when_present (checks [min 60; max 100]) (pta_steepTempCelsius d)
          = true) by field_sound Ha.
  assert (when_present (checks [positive; max 600]) (pta_steepTimeSeconds d)
          = true) by field_sound Hb.
  assert (when_present (when_present (checks [smax 1000]))
            (pta_description d) = true) by field_sound Hs.
  unfold TeaSchema in *. repeat (apply andb_prop in He as [He ?]).
  unfold patch_tea. cbn [tea_id tea_name tea_origin tea_steepTempCelsius
    tea_steepTimeSeconds tea_description tea_createdAt tea_updatedAt].
  rewrite !over_sound by assumption.
  destruct (pta_origin d); all_true.
Qed.

Lemma create_brew_conforms (input : json) (d : CreateBrew) (tea : Tea)
  (id created : string) :
  CreateBrewSchema input = Success d ->
  TeaSchema tea = true -> is_uuid id = true -> is_datetime created = true ->
  BrewSchema
    (mkBrew id (cb_teapotId d) (cb_teaId d) preparing
       (over (cb_waterTempCelsius d) (tea_steepTempCelsius tea))
       (cb_notes d) created None created created)
  = true.
Proof.
  intros Hd Ht Hu Hc.
  destruct (CreateBrewSchema_fields _ Hd) as (o & _ & Hp & Ha & Hw & Hn).
  apply z_uuid_inv in Hp as [_ Hp]. apply z_uuid_inv in Ha as [_ Ha].
  assert (when_present (checks [min 60; max 100]) (cb_waterTempCelsius d)
          = true) by field_sound Hw.
  assert (when_present (checks [smax 500]) (cb_notes d) = true)
    by field_sound Hn.
  unfold TeaSchema in Ht. repeat (apply andb_prop in Ht as [Ht ?]).
  unfold BrewSchema. cbn [brew_id brew_teapotId brew_teaId
    brew_waterTempCelsius brew_notes brew_startedAt brew_completedAt
    brew_createdAt brew_updatedAt when_present].
  rewrite over_sound by assumption. all_true.
Qed.

Lemma patch_brew_conforms (input : json) (d : PatchBrew) (existing : Brew)
  (updated : string) :
  PatchBrewSchema input = Success d ->
  BrewSchema existing = true -> is_datetime updated = true ->
  BrewSchema (patch_brew existing d updated) = true.
Proof.
  intros Hd He Hup.
  destruct (PatchBrewSchema_fields _ Hd) as (o & _ & _ & Hn & Hc).
  assert (when_present (when_present (checks [smax 500])) (pb_notes d) = true)
    by field_sound Hn.
  assert (when_present (when_present (checks [is_datetime]))
            (pb_completedAt d) = true) by field_sound Hc.
  assert (Hc' : when_present (when_present is_datetime) (pb_completedAt d)
                = true).
  { destruct (pb_completedAt d) as [[c|]|]; try reflexivity.
    cbn [when_present] in *. now rewrite <- checks_one. }
  unfold BrewSchema in *. repeat (apply andb_prop in He as [He ?]).
  unfold patch_brew. cbn [brew_id brew_teapotId brew_teaId
    brew_waterTempCelsius brew_notes brew_startedAt brew_completedAt
    brew_createdAt brew_updatedAt].
  rewrite !over_sound by assumption. all_true.
Qed.

Lemma create_steep_conforms (input : json) (d : CreateSteep)
  (id brewId created : string) (n : nat) :
  CreateSteepSchema input = Success d ->
  is_uuid id = true -> is_uuid brewId = true -> is_datetime created = true ->
  SteepSchema
    (mkSteep id brewId (Z.of_nat n + 1) (cs_durationSeconds d) (cs_rating d)
       (cs_notes d) created)
  = true.
Proof.
  intros Hd Hu Hb Hc.
  destruct (CreateSteepSchema_fields _ Hd) as (o & _ & Hk & Hr & Hn).
  assert (checks [positive] (cs_durationSeconds d) = true) by field_sound Hk.
  assert (when_present (checks [min 1; max 5]) (cs_rating d) = true)
    by field_sound Hr.
  assert (when_present (checks [smax 200]) (cs_notes d) = true)
    by field_sound Hn.
  assert (checks [positive] (Z.of_nat n + 1) = true).
  { rewrite checks_one. unfold positive. apply Z.ltb_lt. lia. }
  unfold SteepSchema. cbn [steep_id steep_brewId steep_steepNumber
    steep_durationSeconds steep_rating steep_notes steep_createdAt].
  all_true.
Qed.


Lemma put_teapot_conforms (input : json) (d : UpdateTeapot)
  (existing : Teapot) (updated : string) :
  UpdateTeapotSchema input = Success d ->
  TeapotSchema existing = true -> is_datetime updated = true ->
  TeapotSchema
    (mkTeapot (teapot_id existing) (ct_name d) (ct_material d)
       (ct_capacityMl d) (ct_style d) (ct_description d)
       (teapot_createdAt existing) updated)
  = true.
Proof.
  intros Hd He Hup. unfold TeapotSchema in He.
  repeat (apply andb_prop in He as [He ?]).
  apply create_teapot_conforms with (input := input); auto.
Qed.

Lemma post_tea_conforms (input : json) (d : CreateTea) (id created : string) :
  CreateTeaSchema input = Success d ->
  is_uuid id = true -> is_datetime created = true ->
  TeaSchema
    (mkTea id (cta_name d) (cta_type d) (cta_origin d) (cta_caffeineLevel d)
       (cta_steepTempCelsius d) (cta_steepTimeSeconds d) (cta_description d)
       created created)
  = true.
Proof.
  intros Hd Hu Hc.
  assert (H := @create_tea_conforms input d id created created None
                 (or_introl Hd) Hu Hc Hc eq_refl).
  now destruct (cta_origin d).
Qed.

Lemma put_tea_conforms (input : json) (d : UpdateTea) (existing : Tea)
  (updated : string) :
  UpdateTeaSchema input = Success d ->
  TeaSchema existing = true -> is_datetime updated = true ->
  TeaSchema
    (mkTea (tea_id existing) (cta_name d) (cta_type d)
       (match cta_origin d with
        | Some o => Some o
        | None => tea_origin existing
        end)
       (cta_caffeineLevel d) (cta_steepTempCelsius d)
       (cta_steepTimeSeconds d) (cta_description d)
       (tea_createdAt existing) updated)
  = true.
Proof.
  intros Hd He Hup. unfold TeaSchema in He.
  repeat (apply andb_prop in He as [He ?]).
  apply create_tea_conforms with (input := input); auto.
Qed.

Lemma In_values_cascade (id : string) (m : JsMap.t Steep) (st : Steep) :
  In st (JsMap.values (delete_associated_steeps id m)) ->
  In st (JsMap.values m).
Proof.
  unfold delete_associated_steeps. rewrite cascade_fold.
  apply In_values_filter.
Qed.

Lemma Conforms_set_teapot (s : State) (k : string) (v : Teapot) :
  Conforms s -> TeapotSchema v = true ->
  Conforms (with_teapots s (JsMap.set k v (teapots s))).
Proof.
  intros (Cp & Ct & Cb & Cs) Hv. repeat split; try assumption.
  intros t Hin. apply In_values_set in Hin as [->|Hin]; auto.
Qed.

Lemma Conforms_set_tea (s : State) (k : string) (v : Tea) :
  Conforms s -> TeaSchema v = true ->
  Conforms (with_teas s (JsMap.set k v (teas s))).
Proof.
  intros (Cp & Ct & Cb & Cs) Hv. repeat split; try assumption.
  intros t Hin. apply In_values_set in Hin as [->|Hin]; auto.
Qed.

Lemma Conforms_set_brew (s : State) (k : string) (v : Brew) :
  Conforms s -> BrewSchema v = true ->
  Conforms (with_brews s (JsMap.set k v (brews s))).
Proof.
  intros (Cp & Ct & Cb & Cs) Hv. repeat split; try assumption.
  intros t Hin. apply In_values_set in Hin as [->|Hin]; auto.
Qed.

Lemma Conforms_set_steep (s : State) (k : string) (v : Steep) :
  Conforms s -> SteepSchema v = true ->
  Conforms (with_steeps s (JsMap.set k v (steeps s))).
Proof.
  intros (Cp & Ct & Cb & Cs) Hv. repeat split; try assumption.
  intros t Hin. apply In_values_set in Hin as [->|Hin]; auto.
Qed.

Lemma Conforms_delete (s : State) (id : string) :
  Conforms s ->
  Conforms (with_teapots s (JsMap.delete id (teapots s)))
  /\ Conforms (with_teas s (JsMap.delete id (teas s)))
  /\ Conforms
       (with_brews
          (with_steeps s (delete_associated_steeps id (steeps s)))
          (JsMap.delete id (brews s))).
Proof.
  intros (Cp & Ct & Cb & Cs).
  repeat split; try assumption; cbn [teapots teas brews steeps with_teapots
    with_teas with_brews with_steeps]; intros x Hin;
    first [apply In_values_filter in Hin | apply In_values_cascade in Hin];
    auto.
Qed.

Ltac stored H :=
  match goal with
  | G : JsMap.get _ _ = Some ?v |- _ => apply H; eapply get_In_values, G
  end.

Ltac put_tea_case Ct Hclock :=
  match goal with
  | S : UpdateTeaSchema _ = Success ?d,
    G : JsMap.get _ _ = Some ?e,
    O : cta_origin ?d = _ |- _ =>
      let H := fresh in
      assert (H := @put_tea_conforms _ d e _ S
                     (Ct e (@get_In_values _ _ _ _ G)) Hclock);
      rewrite O in H; exact H
  end.

Lemma route_conforms (s : State) (env : Env) (r : Request) :
  Conforms s -> env_ok s env -> is_datetime (now env) = true ->
  Conforms (fst (route s env r)).
Proof.
  intros Hc (Hu & _) Hclock. pose proof Hc as (Cp & Ct & Cb & Cs).
  destruct r; simpl;
    unfold teapots_list, teapots_create, teapots_get, teapots_put,
      teapots_patch, teapots_delete, getTeapotBrews, teas_list, teas_create,
      teas_get, teas_put, teas_patch, teas_delete, brews_list, brews_create,
      brews_get, brews_patch, brews_delete, brew_steeps_list,
      brew_steeps_create;
    repeat break_match; cbn [fst]; try assumption;
    try apply (proj1 (Conforms_delete _ Hc));
    try apply (proj1 (proj2 (Conforms_delete _ Hc)));
    try exact (proj2 (proj2 (Conforms_delete _ Hc))).
  - apply Conforms_set_teapot; [assumption|].
    eapply create_teapot_conforms; eauto.
  - apply Conforms_set_teapot; [assumption|].
    eapply put_teapot_conforms; eauto. stored Cp.
  - apply Conforms_set_teapot; [assumption|].
    eapply patch_teapot_conforms; eauto. stored Cp.
  - apply Conforms_set_tea; [assumption|].
    eapply post_tea_conforms; eauto.
  - apply Conforms_set_tea; [assumption|]. put_tea_case Ct Hclock.
  - apply Conforms_set_tea; [assumption|]. put_tea_case Ct Hclock.
  - apply Conforms_set_tea; [assumption|].
    eapply patch_tea_conforms; eauto. stored Ct.
  - apply Conforms_set_brew; [assumption|].
    eapply create_brew_conforms; eauto. stored Ct.
  - apply Conforms_set_brew; [assumption|].
    eapply patch_brew_conforms; eauto. stored Cb.
  - apply Conforms_set_steep; [assumption|].
    eapply create_steep_conforms; eauto.
    unfold BrewIdParamSchema in *.
    destruct (is_uuid brewId) eqn:E; [|discriminate].
    match goal with
    | G : Success _ = Success _ |- _ => now injection G as <-
    end.
Qed.

Lemma serve_all_conforms (trace : list (Env * Request)) :
  forall s,
    Conforms s -> envs_ok s trace -> clocks_ok trace ->
    Conforms (fst (serve_all s trace)).
Proof.
  induction trace as [|[env r] rest IH]; intros s Hc Hok Hclock; simpl.
  - assumption.
  - simpl in Hok. destruct Hok as [Hok Hrest].
    inversion Hclock as [|? ? Hnow Hclocks]; subst. simpl in Hnow.
    pose proof (route_conforms r Hc Hok Hnow) as Hc'.
    rewrite <- fst_serve in Hc'.
    specialize (IH _ Hc' Hrest Hclocks).
    destruct (serve s env r) as [s1 resp]. cbn [fst] in *.
    now destruct (serve_all s1 rest).
Qed.

Lemma Conforms_initial : Conforms initial.
Proof. repeat split; intros x []. Qed.

(** X5. After any sequence of requests served from the empty stores, with
    fresh identifiers and well-formed timestamps from the environment,
    every stored teapot passes [TeapotSchema]: UUID id, name of 1 to 100
    characters, capacity from 1 to 5000, description of at most 500
    characters or null, well-formed timestamps. *)
Theorem stored_teapots_conform (trace : list (Env * Request)) (t : Teapot) :
  envs_ok initial trace -> clocks_ok trace ->
  In t (JsMap.values (teapots (fst (serve_all initial trace)))) ->
  TeapotSchema t = true.
Proof.
  intros Hok Hclock.
  exact (proj1 (serve_all_conforms Conforms_initial Hok Hclock) t).
Qed.

(** X6. After any such sequence every stored tea passes [TeaSchema]: in
    particular steepTempCelsius from 60 to 100 and steepTimeSeconds from 1
    to 600, an origin of at most 100 characters when there is one. *)
Theorem stored_teas_conform (trace : list (Env * Request)) (t : Tea) :
  envs_ok initial trace -> clocks_ok trace ->
  In t (JsMap.values (teas (fst (serve_all initial trace)))) ->
  TeaSchema t = true.
Proof.
  intros Hok Hclock.
  exact (proj1 (proj2 (serve_all_conforms Conforms_initial Hok Hclock)) t).
Qed.

(** X7. After any such sequence every stored brew passes [BrewSchema]: its
    waterTempCelsius is from 60 to 100 also when it was defaulted from the
    tea, and completedAt is null or a well-formed timestamp. *)
Theorem stored_brews_conform (trace : list (Env * Request)) (b : Brew) :
  envs_ok initial trace -> clocks_ok trace ->
  In b (JsMap.values (brews (fst (serve_all initial trace)))) ->
  BrewSchema b = true.
Proof.
  intros Hok Hclock.
  exact (proj1 (proj2 (proj2
           (serve_all_conforms Conforms_initial Hok Hclock))) b).
Qed.

(** X8. After any such sequence every stored steep passes [SteepSchema]:
    positive steepNumber and durationSeconds, rating from 1 to 5 or null,
    notes of at most 200 characters or null. *)
Theorem stored_steeps_conform (trace : list (Env * Request)) (st : Steep) :
  envs_ok initial trace -> clocks_ok trace ->
  In st (JsMap.values (steeps (fst (serve_all initial trace)))) ->
  SteepSchema st = true.
Proof.
  intros Hok Hclock.
  exact (proj2 (proj2 (proj2
           (serve_all_conforms Conforms_initial Hok Hclock))) st).
Qed.

(** ** Creating, then reading *)

Lemma values_set_fresh (V : Type) (k : string) (v : V) (m : JsMap.t V) :
  JsMap.has k m = false ->
  JsMap.values (JsMap.set k v m) = JsMap.values m ++ [v].
Proof.
  intros H. rewrite set_fresh by assumption.
  unfold JsMap.values. now rewrite map_app.
Qed.

(** X9. A teapot that POST /teapots answered with 201 is stored under the
    generated id: GET /teapots/:id with that id answers 200 with the same
    teapot, the teapot is last in store order when the id is new, and no
    other store changes. *)
Theorem teapot_create_then_get (s s' : State) (env : Env) (input : json)
  (t : Teapot) :
  is_uuid (uuid env) = true ->
  teapots_create s env input
  = (s', Responded (mkResponse 201 (BTeapot t))) ->
  teapot_id t = uuid env
  /\ teapots_get s' (teapot_id t)
     = (s', Responded (mkResponse 200 (BTeapot t)))
  /\ (JsMap.has (uuid env) (teapots s) = false ->
      JsMap.values (teapots s') = JsMap.values (teapots s) ++ [t])
  /\ teas s' = teas s /\ brews s' = brews s /\ steeps s' = steeps s.
Proof.
  intros Hu H. unfold teapots_create in H.
  destruct (CreateTeapotSchema input) as [d|]; [|discriminate].
  injection H as <- <-. cbn [teapot_id].
  split; [reflexivity|]. split; [|split; [|now repeat split]].
  - unfold teapots_get. rewrite UuidParamSchema_ok by assumption.
    cbn [teapots with_teapots]. now rewrite get_set_same.
  - intros Hfresh. cbn [teapots with_teapots]. now apply values_set_fresh.
Qed.

(** X10. A tea that POST /teas answered with 201 is stored under the
    generated id: GET /teas/:id with that id answers 200 with the same tea,
    the tea is last in store order when the id is new, and no other store
    changes. *)
Theorem tea_create_then_get (s s' : State) (env : Env) (input : json)
  (t : Tea) :
  is_uuid (uuid env) = true ->
  teas_create s env input = (s', Responded (mkResponse 201 (BTea t))) ->
  tea_id t = uuid env
  /\ teas_get s' (tea_id t) = (s', Responded (mkResponse 200 (BTea t)))
  /\ (JsMap.has (uuid env) (teas s) = false ->
      JsMap.values (teas s') = JsMap.values (teas s) ++ [t])
  /\ teapots s' = teapots s /\ brews s' = brews s /\ steeps s' = steeps s.
Proof.
  intros Hu H. unfold teas_create in H.
  destruct (CreateTeaSchema input) as [d|]; [|discriminate].
  injection H as <- <-. cbn [tea_id].
  split; [reflexivity|]. split; [|split; [|now repeat split]].
  - unfold teas_get. rewrite UuidParamSchema_ok by assumption.
    cbn [teas with_teas]. now rewrite get_set_same.
  - intros Hfresh. cbn [teas with_teas]. now apply values_set_fresh.
Qed.

(** X11. A brew that POST /brews answered with 201 references a teapot and
    a tea of the stores, and GET /brews/:id with the generated id answers
    200 with the brew and these two inlined; the brew is last in store
    order when the id is new, and no other store changes. *)
Theorem brew_create_then_get (s s' : State) (env : Env) (input : json)
  (b : Brew) :
  is_uuid (uuid env) = true ->
  brews_create s env input = (s', Responded (mkResponse 201 (BBrew b))) ->
  brew_id b = uuid env
  /\ (exists teapot tea,
        JsMap.get (brew_teapotId b) (teapots s) = Some teapot
        /\ JsMap.get (brew_teaId b) (teas s) = Some tea
        /\ brews_get s' (brew_id b)
           = (s', Responded
                    (mkResponse 200 (BBrewWithDetails b teapot tea))))
  /\ (JsMap.has (uuid env) (brews s) = false ->
      JsMap.values (brews s') = JsMap.values (brews s) ++ [b])
  /\ teapots s' = teapots s /\ teas s' = teas s /\ steeps s' = steeps s.
Proof.
  intros Hu H. unfold brews_create in H.
  destruct (CreateBrewSchema input) as [d|]; [|discriminate].
  destruct (JsMap.get (cb_teapotId d) (teapots s)) as [teapot|] eqn:Hp;
    [|discriminate].
  destruct (JsMap.get (cb_teaId d) (teas s)) as [tea|] eqn:Ht;
    [|discriminate].
  injection H as <- <-. cbn [brew_id brew_teapotId brew_teaId].
  split; [reflexivity|]. split; [|split; [|now repeat split]].
  - exists teapot, tea. split; [assumption|]. split; [assumption|].
    unfold brews_get. rewrite UuidParamSchema_ok by assumption.
    cbn [brews teapots teas with_brews]. rewrite get_set_same.
    cbn [brew_teapotId brew_teaId]. now rewrite Hp, Ht.
  - intros Hfresh. cbn [brews with_brews]. now apply values_set_fresh.
Qed.

(** ** Full replacement *)

Lemma z_string_inv (cs : list (string -> bool)) (x : option json)
  (v : string) :
  z_string cs x = Some v -> x = Some (JStr v) /\ checks cs v = true.
Proof.
  unfold z_string. intros H. destruct x as [[]|]; try discriminate.
  destruct (checks cs s) eqn:E; [|discriminate]. now injection H as <-.
Qed.

Lemma z_int_inv (cs : list (Z -> bool)) (x : option json) (n : Z) :
  z_int cs x = Some n ->
  exists q, x = Some (JNum q) /\ as_integer q = Some n
            /\ checks cs n = true.
Proof.
  unfold z_int. intros H. destruct x as [[]|]; try discriminate.
  destruct (as_integer q) as [w|] eqn:Hq; [|discriminate].
  destruct (checks cs w) eqn:E; [|discriminate]. injection H as <-.
  now exists q.
Qed.

Lemma z_enum_inv (E : Type) (of_string : string -> option E)
  (x : option json) (e : E) :
  z_enum of_string x = Some e ->
  exists v, x = Some (JStr v) /\ of_string v = Some e.
Proof.
  unfold z_enum. intros H. destruct x as [[]|]; try discriminate.
  now exists s.
Qed.

Lemma nullable_z_string_inv (cs : list (string -> bool)) (x : option json)
  (r : option string) :
  nullable (z_string cs) x = Some r ->
  (x = Some JNull /\ r = None) \/ (exists v, x = Some (JStr v) /\ r = Some v).
Proof.
  unfold nullable. intros H.
  destruct x as [[]|]; try discriminate;
    try (injection H as <-; now left).
  destruct (z_string cs (Some (JStr s))) as [v|] eqn:E; [|discriminate].
  injection H as <-. apply z_string_inv in E as [E _]. injection E as <-.
  right. now exists s.
Qed.

(** X12. PUT /teapots/:id on a stored teapot with a body that passes
    [UpdateTeapotSchema] answers 200 with a teapot that keeps id and
    createdAt, takes name, material, capacityMl, style and description from
    the body and the time of the request as updatedAt; it replaces the
    stored teapot in place: the order of the store and the other teapots
    are unchanged. *)
Theorem teapot_put_replaces (s : State) (env : Env) (id : string)
  (input : json) (existing : Teapot) (d : UpdateTeapot) :
  reachable s ->
  JsMap.get id (teapots s) = Some existing ->
  UpdateTeapotSchema input = Success d ->
  exists t o,
    teapots_put s env id input
    = (with_teapots s (JsMap.set id t (teapots s)),
       Responded (mkResponse 200 (BTeapot t)))
    /\ input = JObj o
    /\ teapot_id t = id
    /\ teapot_createdAt t = teapot_createdAt existing
    /\ teapot_updatedAt t = now env
    /\ prop "name" o = Some (JStr (teapot_name t))
    /\ (exists v, prop "material" o = Some (JStr v)
                  /\ TeapotMaterial_of_string v = Some (teapot_material t))
    /\ (exists q, prop "capacityMl" o = Some (JNum q)
                  /\ as_integer q = Some (teapot_capacityMl t))
    /\ (exists v, prop "style" o = Some (JStr v)
                  /\ TeapotStyle_of_string v = Some (teapot_style t))
    /\ (prop "description" o = Some JNull /\ teapot_description t = None
        \/ exists v, prop "description" o = Some (JStr v)
                     /\ teapot_description t = Some v)
    /\ JsMap.keys (JsMap.set id t (teapots s)) = JsMap.keys (teapots s)
    /\ JsMap.get id (JsMap.set id t (teapots s)) = Some t
    /\ forall id', id <> id' ->
         JsMap.get id' (JsMap.set id t (teapots s))
         = JsMap.get id' (teapots s).
Proof.
  intros Hr Hget Hd.
  destruct (reachable_Invariant Hr) as (Hp & _).
  destruct (store_ok_get _ Hp Hget) as [Hid Hu].
  destruct (UpdateTeapotSchema_fields _ Hd)
    as (o & -> & Hn & Hm & Hk & Hy & Hs).
  unfold teapots_put. rewrite UuidParamSchema_ok by assumption.
  rewrite Hget, Hd. cbn [teapot_id]. rewrite Hid.
  eexists _, o. split; [reflexivity|]. cbn.
  do 4 (split; [reflexivity|]).
  split; [now apply z_string_inv in Hn|].
  split; [now apply z_enum_inv in Hm|].
  split; [apply z_int_inv in Hk as (q & ? & ? & _); now exists q|].
  split; [now apply z_enum_inv in Hy|].
  split; [now apply nullable_z_string_inv in Hs|].
  split; [|split].
  - apply keys_set_present. apply get_In in Hget.
    unfold JsMap.keys. apply in_map_iff. now exists (id, existing).
  - apply get_set_same.
  - intros id' Hne. now apply get_set_other.
Qed.

(** X13. PUT /teas/:id does not replace the origin of a tea when the body
    has none: [origin] is optional in [UpdateTeaSchema] and the handler
    spreads the parsed body over the stored tea, so the stored origin
    stays; a body with an origin sets it. A PUT cannot remove an origin. *)
Theorem tea_put_keeps_origin (s : State) (env : Env) (id : string)
  (o : list (string * json)) (existing : Tea) (d : UpdateTea) :
  is_uuid id = true ->
  JsMap.get id (teas s) = Some existing ->
  UpdateTeaSchema (JObj o) = Success d ->
  exists t,
    teas_put s env id (JObj o)
    = (with_teas s (JsMap.set (tea_id existing) t (teas s)),
       Responded (mkResponse 200 (BTea t)))
    /\ tea_id t = tea_id existing
    /\ tea_createdAt t = tea_createdAt existing
    /\ (prop "origin" o = None -> tea_origin t = tea_origin existing)
    /\ (forall v, prop "origin" o = Some v ->
                  v = JStr (match tea_origin t with
                            | Some g => g
                            | None => ""
                            end)
                  /\ tea_origin t <> None).
Proof.
  intros Hu Hget Hd.
  destruct (UpdateTeaSchema_fields _ Hd) as (o' & E & _ & _ & Hg & _).
  injection E as <-.
  unfold teas_put. rewrite UuidParamSchema_ok by assumption.
  rewrite Hget, Hd. cbn [tea_id].
  eexists. split; [reflexivity|]. cbn.
  split; [reflexivity|]. split; [reflexivity|]. split.
  - intros E. rewrite E in Hg. apply optional_absent in Hg. now rewrite Hg.
  - intros v E. rewrite E in Hg. unfold optional in Hg.
    destruct (z_string [smax 100] (Some v)) as [g|] eqn:Hz; [|discriminate].
    injection Hg as <-. apply z_string_inv in Hz as [Hz _].
    injection Hz as ->. split; [reflexivity|discriminate].
Qed.

(** ** Path parameters come first *)

(** X14. A request whose path parameter is not a well-formed UUID is
    answered 400 VALIDATION_ERROR "Invalid <resource> ID format" before any
    lookup and whatever its body or query string holds; no store
    changes. *)
Theorem malformed_id_rejected (s : State) (env : Env) (r : Request)
  (id : string) :
  path_id r = Some id ->
  is_uuid id = false ->
  serve s env r
  = (s, mkResponse 400
          (BError
             (mkApiError "VALIDATION_ERROR"
                ("Invalid " ++ addressed_resource r ++ " ID format")%string
                None))).
Proof.
  intros Hp Hu. unfold serve.
  destruct r; simpl in Hp; try discriminate; injection Hp as ->; simpl;
    unfold teapots_get, teapots_put, teapots_patch, teapots_delete,
      getTeapotBrews, teas_get, teas_put, teas_patch, teas_delete,
      brews_get, brews_patch, brews_delete, brew_steeps_list,
      brew_steeps_create, UuidParamSchema, BrewIdParamSchema,
      TeapotIdParamSchema;
    rewrite Hu; reflexivity.
Qed.

(** X15. A request whose path parameter is a well-formed UUID that the
    addressed store does not hold is answered 404 NOT_FOUND
    "<Resource> not found": for PUT, PATCH and the steep POST before the
    body is validated, for the nested lists before the query string is
    parsed; no store changes. *)
Theorem unknown_id_not_found (s : State) (env : Env) (r : Request)
  (id : string) :
  path_id r = Some id ->
  is_uuid id = true ->
  addressed_has s r = false ->
  serve s env r
  = (s, mkResponse 404
          (BError
             (mkApiError "NOT_FOUND"
                (addressed_Resource r ++ " not found")%string None))).
Proof.
  intros Hp Hu Hhas. unfold serve.
  destruct r; simpl in Hp; try discriminate; injection Hp as ->;
    simpl in Hhas |- *;
    unfold teapots_get, teapots_put, teapots_patch, teapots_delete,
      getTeapotBrews, teas_get, teas_put, teas_patch, teas_delete,
      brews_get, brews_patch, brews_delete, brew_steeps_list,
      brew_steeps_create, UuidParamSchema, BrewIdParamSchema,
      TeapotIdParamSchema;
    rewrite Hu; try rewrite Hhas; try rewrite (has_false_get _ _ Hhas);
    reflexivity.
Qed.

(** ** Deleting a teapot or a tea *)

(** X16. DELETE /teapots/:id on a stored teapot answers 204 and removes
    that teapot only: the other teapots and the tea, brew and steep stores
    are unchanged (no cascade), a second DELETE and a GET of the id answer
    404, and a brew that referenced the teapot is still served by
    GET /brews/:id, as the bare brew. *)
Theorem teapot_delete_no_cascade (s : State) (id : string) (t : Teapot) :
  is_uuid id = true ->
  JsMap.get id (teapots s) = Some t ->
  exists s',
    teapots_delete s id = (s', Responded (mkResponse 204 BEmpty))
    /\ teapots s' = JsMap.delete id (teapots s)
    /\ teas s' = teas s /\ brews s' = brews s /\ steeps s' = steeps s
    /\ (forall id', id <> id' ->
          JsMap.get id' (teapots s') = JsMap.get id' (teapots s))
    /\ teapots_get s' id
       = (s', Responded
                (mkResponse 404
                   (BError (mkApiError "NOT_FOUND" "Teapot not found" None))))
    /\ teapots_delete s' id
       = (s', Responded
                (mkResponse 404
                   (BError (mkApiError "NOT_FOUND" "Teapot not found" None))))
    /\ forall brewId b,
         is_uuid brewId = true ->
         JsMap.get brewId (brews s) = Some b ->
         brew_teapotId b = id ->
         brews_get s' brewId = (s', Responded (mkResponse 200 (BBrew b))).
Proof.
  intros Hu Hget. unfold teapots_delete.
  rewrite UuidParamSchema_ok by assumption.
  rewrite (get_has _ _ Hget). cbn [negb]. eexists. split; [reflexivity|].
  cbn [teapots teas brews steeps with_teapots].
  do 4 (split; [reflexivity|]).
  pose proof (has_delete id (teapots s)) as Hgone.
  split; [intros id' Hne; now apply get_delete_other|].
  split; [|split].
  - unfold teapots_get. rewrite UuidParamSchema_ok by assumption.
    cbn [teapots with_teapots]. now rewrite (has_false_get _ _ Hgone).
  - cbn [teapots with_teapots]. now rewrite Hgone.
  - intros brewId b Hb Hbrew Href. unfold brews_get.
    rewrite UuidParamSchema_ok by assumption.
    cbn [teapots teas brews with_teapots]. rewrite Hbrew, Href.
    now rewrite (has_false_get _ _ Hgone).
Qed.

(** X17. DELETE /teas/:id on a stored tea answers 204 and removes that tea
    only: the other teas and the teapot, brew and steep stores are
    unchanged (no cascade), a second DELETE and a GET of the id answer 404,
    and a brew that referenced the tea is still served by GET /brews/:id,
    as the bare brew. *)
Theorem tea_delete_no_cascade (s : State) (id : string) (t : Tea) :
  is_uuid id = true ->
  JsMap.get id (teas s) = Some t ->
  exists s',
    teas_delete s id = (s', Responded (mkResponse 204 BEmpty))
    /\ teas s' = JsMap.delete id (teas s)
    /\ teapots s' = teapots s /\ brews s' = brews s /\ steeps s' = steeps s
    /\ (forall id', id <> id' ->
          JsMap.get id' (teas s') = JsMap.get id' (teas s))
    /\ teas_get s' id
       = (s', Responded
                (mkResponse 404
                   (BError (mkApiError "NOT_FOUND" "Tea not found" None))))
    /\ teas_delete s' id
       = (s', Responded
                (mkResponse 404
                   (BError (mkApiError "NOT_FOUND" "Tea not found" None))))
    /\ forall brewId b,
         is_uuid brewId = true ->
         JsMap.get brewId (brews s) = Some b ->
         brew_teaId b = id ->
         brews_get s' brewId = (s', Responded (mkResponse 200 (BBrew b))).
Proof.
  intros Hu Hget. unfold teas_delete.
  rewrite UuidParamSchema_ok by assumption.
  rewrite (get_has _ _ Hget). cbn [negb]. eexists. split; [reflexivity|].
  cbn [teapots teas brews steeps with_teas].
  do 4 (split; [reflexivity|]).
  pose proof (has_delete id (teas s)) as Hgone.
  split; [intros id' Hne; now apply get_delete_other|].
  split; [|split].
  - unfold teas_get. rewrite UuidParamSchema_ok by assumption.
    cbn [teas with_teas]. now rewrite (has_false_get _ _ Hgone).
  - cbn [teas with_teas]. now rewrite Hgone.
  - intros brewId b Hb Hbrew Href. unfold brews_get.
    rewrite UuidParamSchema_ok by assumption.
    cbn [teapots teas brews with_teas]. rewrite Hbrew, Href.
    rewrite (has_false_get _ _ Hgone).
    now destruct (JsMap.get (brew_teapotId b) (teapots s)).
Qed.

(** ** Repeating an update *)

Lemma set_set (V : Type) (k : string) (v v' : V) (m : JsMap.t V) :
  JsMap.set k v (JsMap.set k v' m) = JsMap.set k v m.
Proof.
  induction m as [|[k0 v0] m IH]; simpl.
  - now rewrite String.eqb_refl.
  - destruct (String.eqb_spec k0 k) as [->|Hne]; simpl.
    + now rewrite String.eqb_refl.
    + destruct (String.eqb_spec k0 k); [contradiction|]. now rewrite IH.
Qed.

Lemma over_over (A : Type) (new : option A) (old : A) :
  over new (over new old) = over new old.
Proof. now destruct new. Qed.

Lemma patch_teapot_twice (e : Teapot) (d : PatchTeapot) (n : string) :
  patch_teapot (patch_teapot e d n) d n = patch_teapot e d n.
Proof. unfold patch_teapot. cbn. now rewrite !over_over. Qed.

Lemma patch_tea_twice (e : Tea) (d : PatchTea) (n : string) :
  patch_tea (patch_tea e d n) d n = patch_tea e d n.
Proof.
  unfold patch_tea. cbn. rewrite !over_over. now destruct (pta_origin d).
Qed.

Lemma patch_brew_twice (e : Brew) (d : PatchBrew) (n : string) :
  patch_brew (patch_brew e d n) d n = patch_brew e d n.
Proof. unfold patch_brew. cbn. now rewrite !over_over. Qed.

Lemma serve_route (s1 s2 : State) (env : Env) (r : Request) :
  route s1 env r = route s2 env r -> serve s1 env r = serve s2 env r.
Proof. unfold serve. now intros ->. Qed.

Ltac same_again Hget :=
  cbn [fst teapots teas brews with_teapots with_teas with_brews];
  try rewrite Hget; try reflexivity.

(** X18. PUT and PATCH are idempotent at a fixed clock reading: in a
    reachable state, serving the same PUT or PATCH request a second time
    right after the first gives the same response and leaves the stores as
    the first left them. *)
Theorem update_idempotent (s : State) (env : Env) (r : Request) :
  reachable s ->
  is_put_or_patch r = true ->
  serve (fst (serve s env r)) env r = serve s env r.
Proof.
  intros Hr Hk. destruct (reachable_Invariant Hr) as (Hp & Ht & Hb & _).
  rewrite fst_serve.
  transitivity (fst (route s env r), settle (snd (route s env r)));
    [|unfold serve; now destruct (route s env r)].
  unfold serve. 
  enough (E : route (fst (route s env r)) env r = route s env r)
    by (rewrite E; now destruct (route s env r)).
  destruct r; simpl in Hk; try discriminate; simpl.
  - unfold teapots_put, UuidParamSchema.
    destruct (is_uuid id); [|reflexivity].
    destruct (JsMap.get id (teapots s)) as [e|] eqn:Hget; same_again Hget.
    destruct (UpdateTeapotSchema body0) as [d|]; same_again Hget.
    destruct (store_ok_get _ Hp Hget) as [-> _].
    cbn [teapot_id teapot_createdAt]. rewrite get_set_same.
    cbn [teapot_id teapot_createdAt]. now rewrite set_set.
  - unfold teapots_patch, UuidParamSchema.
    destruct (is_uuid id); [|reflexivity].
    destruct (JsMap.get id (teapots s)) as [e|] eqn:Hget; same_again Hget.
    destruct (PatchTeapotSchema body0) as [d|]; same_again Hget.
    destruct (store_ok_get _ Hp Hget) as [E _].
    replace (teapot_id (patch_teapot e d (now env))) with id
      by (rewrite <- E; reflexivity).
    rewrite get_set_same, patch_teapot_twice.
    replace (teapot_id (patch_teapot e d (now env))) with id
      by (rewrite <- E; reflexivity).
    now rewrite set_set.
  - unfold teas_put, UuidParamSchema.
    destruct (is_uuid id); [|reflexivity].
    destruct (JsMap.get id (teas s)) as [e|] eqn:Hget; same_again Hget.
    destruct (UpdateTeaSchema body0) as [d|]; same_again Hget.
    destruct (store_ok_get _ Ht Hget) as [-> _].
    cbn [tea_id tea_createdAt tea_origin]. rewrite get_set_same.
    cbn [tea_id tea_createdAt tea_origin]. rewrite set_set.
    now destruct (cta_origin d).
  - unfold teas_patch, UuidParamSchema.
    destruct (is_uuid id); [|reflexivity].
    destruct (JsMap.get id (teas s)) as [e|] eqn:Hget; same_again Hget.
    destruct (PatchTeaSchema body0) as [d|]; same_again Hget.
    destruct (store_ok_get _ Ht Hget) as [E _].
    replace (tea_id (patch_tea e d (now env))) with id
      by (rewrite <- E; reflexivity).
    rewrite get_set_same, patch_tea_twice.
    replace (tea_id (patch_tea e d (now env))) with id
      by (rewrite <- E; reflexivity).
    now rewrite set_set.
  - unfold brews_patch, UuidParamSchema.
    destruct (is_uuid id); [|reflexivity].
    destruct (JsMap.get id (brews s)) as [e|] eqn:Hget; same_again Hget.
    destruct (PatchBrewSchema body0) as [d|]; same_again Hget.
    destruct (store_ok_get _ Hb Hget) as [E _].
    replace (brew_id (patch_brew e d (now env))) with id
      by (rewrite <- E; reflexivity).
    rewrite get_set_same, patch_brew_twice.
    replace (brew_id (patch_brew e d (now env))) with id
      by (rewrite <- E; reflexivity).
    now rewrite set_set.
Qed.

(** ** List filters *)

Lemma TeapotMaterial_eqb_eq (a b : TeapotMaterial) :
  TeapotMaterial_eqb a b = true <-> a = b.
Proof. destruct a, b; simpl; split; congruence. Qed.

Lemma TeapotStyle_eqb_eq (a b : TeapotStyle) :
  TeapotStyle_eqb a b = true <-> a = b.
Proof. destruct a, b; simpl; split; congruence. Qed.

Lemma TeaType_eqb_eq (a b : TeaType) : TeaType_eqb a b = true <-> a = b.
Proof. destruct a, b; simpl; split; congruence. Qed.

Lemma CaffeineLevel_eqb_eq (a b : CaffeineLevel) :
  CaffeineLevel_eqb a b = true <-> a = b.
Proof. destruct a, b; simpl; split; congruence. Qed.

Lemma BrewStatus_eqb_eq (a b : BrewStatus) :
  BrewStatus_eqb a b = true <-> a = b.
Proof. destruct a, b; simpl; split; congruence. Qed.

Lemma In_filter_if (A F : Type) (f : option F) (keep : F -> A -> bool)
  (items : list A) (x : A) :
  In x (filter_if f keep items)
  <-> In x items /\ forall v, f = Some v -> keep v x = true.
Proof.
  destruct f as [v|]; simpl.
  - rewrite filter_In. split.
    + intros [H1 H2]. split; [assumption|]. now intros v' [= <-].
    + intros [H1 H2]. split; [assumption|]. now apply H2.
  - split; [intros H; split; [assumption|discriminate]|tauto].
Qed.

Lemma if_truthy_Some (f : option string) (v : string) :
  if_truthy f = Some v <-> f = Some v /\ v <> "".
Proof.
  unfold if_truthy, truthy. destruct f as [w|]; [|split; [discriminate|]].
  - destruct (String.eqb_spec w ""); simpl; split.
    + discriminate.
    + intros [[= ->] H]. contradiction.
    + intros [= ->]. now split.
    + now intros [[= ->] _].
  - now intros [? _].
Qed.

Lemma filter_if_filter (A F : Type) (f : option F) (keep : F -> A -> bool)
  (items : list A) :
  filter_if f keep items
  = filter (fun x => when_present (fun v => keep v x) f) items.
Proof. destruct f; simpl; [reflexivity|now rewrite filter_all]. Qed.

(** X19. The items of GET /teapots and GET /teas are the stored entities,
    in store order, that match every filter the query has: a teapot is
    listed exactly when its material equals the material filter, if there
    is one, and its style equals the style filter, if there is one; a tea
    likewise for type and caffeineLevel. Without filters every entity is
    listed. *)
Theorem list_filters (s : State) :
  (forall q t,
     In t (teapots_items s q)
     <-> In t (JsMap.values (teapots s))
         /\ (forall m, tq_material q = Some m -> teapot_material t = m)
         /\ (forall y, tq_style q = Some y -> teapot_style t = y))
  /\ (forall q,
        tq_material q = None -> tq_style q = None ->
        teapots_items s q = JsMap.values (teapots s))
  /\ (forall q t,
        In t (teas_items s q)
        <-> In t (JsMap.values (teas s))
            /\ (forall y, taq_type q = Some y -> tea_type t = y)
            /\ (forall c, taq_caffeineLevel q = Some c ->
                          tea_caffeineLevel t = c))
  /\ (forall q,
        taq_type q = None -> taq_caffeineLevel q = None ->
        teas_items s q = JsMap.values (teas s))
  /\ (forall q, exists keep,
        teapots_items s q = filter keep (JsMap.values (teapots s)))
  /\ (forall q, exists keep,
        teas_items s q = filter keep (JsMap.values (teas s))).
Proof.
  split; [|split; [|split; [|split; [|split]]]];
    try (intros q; eexists; unfold teapots_items, teas_items;
         rewrite !filter_if_filter, filter_twice; reflexivity).
  - intros q t. unfold teapots_items. rewrite !In_filter_if. split.
    + intros [[H1 H2] H3]. split; [assumption|].
      split; intros v E; [apply TeapotMaterial_eqb_eq|apply TeapotStyle_eqb_eq];
        auto.
    + intros (H1 & H2 & H3).
      repeat split; try assumption; intros v E;
        [apply TeapotMaterial_eqb_eq|apply TeapotStyle_eqb_eq]; auto.
  - intros q H1 H2. unfold teapots_items. now rewrite H1, H2.
  - intros q t. unfold teas_items. rewrite !In_filter_if. split.
    + intros [[H1 H2] H3]. split; [assumption|].
      split; intros v E; [apply TeaType_eqb_eq|apply CaffeineLevel_eqb_eq];
        auto.
    + intros (H1 & H2 & H3).
      repeat split; try assumption; intros v E;
        [apply TeaType_eqb_eq|apply CaffeineLevel_eqb_eq]; auto.
  - intros q H1 H2. unfold teas_items. now rewrite H1, H2.
Qed.

(** X20. The items of GET /brews are the stored brews, in store order,
    that match every filter of the query: the status filter if there is
    one, and the teapotId and teaId filters if they are there and not the
    empty string (the handler tests them for truthiness). *)
Theorem brews_list_filters (s : State) (q : BrewQuery) (b : Brew) :
  (In b (brews_items s q)
   <-> In b (JsMap.values (brews s))
       /\ (forall st, bq_status q = Some st -> brew_status b = st)
       /\ (forall i, bq_teapotId q = Some i -> i <> "" -> brew_teapotId b = i)
       /\ (forall i, bq_teaId q = Some i -> i <> "" -> brew_teaId b = i))
  /\ exists keep, brews_items s q = filter keep (JsMap.values (brews s)).
Proof.
  split;
    [|eexists; unfold brews_items;
      rewrite !filter_if_filter, !filter_twice; reflexivity].
  unfold brews_items. rewrite !In_filter_if. split.
  - intros [[[H1 H2] H3] H4]. split; [assumption|]. split; [|split].
    + intros st E. now apply BrewStatus_eqb_eq, H2.
    + intros i E Hi. apply String.eqb_eq, H3. now apply if_truthy_Some.
    + intros i E Hi. apply String.eqb_eq, H4. now apply if_truthy_Some.
  - intros (H1 & H2 & H3 & H4). repeat split; try assumption.
    + intros st E. now apply BrewStatus_eqb_eq, H2.
    + intros i E. apply if_truthy_Some in E as [E Hi].
      now apply String.eqb_eq, H3.
    + intros i E. apply if_truthy_Some in E as [E Hi].
      now apply String.eqb_eq, H4.
Qed.

(** ** The order of the steep list *)

Lemma insert_by_steepNumber_perm (x : Steep) (l : list Steep) :
  Permutation (x :: l) (insert_by_steepNumber x l).
Proof.
  induction l as [|y l IH]; simpl; [reflexivity|].
  destruct (steep_steepNumber x <=? steep_steepNumber y); [reflexivity|].
  rewrite perm_swap. now constructor.
Qed.

Lemma sort_by_steepNumber_perm (l : list Steep) :
  Permutation l (sort_by_steepNumber l).
Proof.
  induction l as [|x l IH]; simpl; [constructor|].
  rewrite <- insert_by_steepNumber_perm. now constructor.
Qed.

Lemma insert_by_steepNumber_sorted (x : Steep) (l : list Steep) :
  Sorted steepNumber_le l -> Sorted steepNumber_le (insert_by_steepNumber x l).
Proof.
  induction l as [|y l IH]; simpl; intros Hl.
  - repeat constructor.
  - destruct (Z.leb_spec (steep_steepNumber x) (steep_steepNumber y)).
    + constructor; [assumption|]. now constructor.
    + inversion Hl as [|? ? Hs Hh]; subst. constructor; [now apply IH|].
      destruct l as [|z l]; simpl.
      * constructor. unfold steepNumber_le. lia.
      * destruct (steep_steepNumber x <=? steep_steepNumber z);
          constructor; unfold steepNumber_le; [lia|].
        now inversion Hh.
Qed.

Lemma sort_by_steepNumber_sorted (l : list Steep) :
  Sorted steepNumber_le (sort_by_steepNumber l).
Proof.
  induction l as [|x l IH]; simpl; [constructor|].
  now apply insert_by_steepNumber_sorted.
Qed.

Lemma insert_by_steepNumber_stable (n : Z) (x : Steep) (l : list Steep) :
  filter (fun st => steep_steepNumber st =? n) (insert_by_steepNumber x l)
  = filter (fun st => steep_steepNumber st =? n) (x :: l).
Proof.
  induction l as [|y l IH]; [reflexivity|]. cbn [insert_by_steepNumber].
  destruct (Z.leb_spec (steep_steepNumber x) (steep_steepNumber y));
    [reflexivity|].
  cbn [filter] in *. rewrite IH.
  destruct (Z.eqb_spec (steep_steepNumber y) n);
    destruct (Z.eqb_spec (steep_steepNumber x) n); try reflexivity; lia.
Qed.

Lemma sort_by_steepNumber_stable (n : Z) (l : list Steep) :
  filter (fun st => steep_steepNumber st =? n) (sort_by_steepNumber l)
  = filter (fun st => steep_steepNumber st =? n) l.
Proof.
  induction l as [|x l IH]; [reflexivity|]. cbn [sort_by_steepNumber fold_right].
  change (fold_right insert_by_steepNumber [] l) with (sort_by_steepNumber l).
  rewrite insert_by_steepNumber_stable. cbn [filter]. now rewrite IH.
Qed.

Lemma sort_by_steepNumber_sorted_id (l : list Steep) :
  Sorted steepNumber_le l -> sort_by_steepNumber l = l.
Proof.
  induction l as [|x l IH]; [reflexivity|]. intros Hl.
  inversion Hl as [|? ? Hs Hh]; subst. cbn [sort_by_steepNumber fold_right].
  change (fold_right insert_by_steepNumber [] l) with (sort_by_steepNumber l).
  rewrite IH by assumption.
  destruct l as [|y l]; [reflexivity|]. cbn [insert_by_steepNumber].
  inversion Hh as [|? ? Hle]; subst. unfold steepNumber_le in Hle.
  now destruct (Z.leb_spec (steep_steepNumber x) (steep_steepNumber y));
    [|lia].
Qed.

Lemma numbered_sorted (l : list Steep) :
  forall start : nat,
    map steep_steepNumber l = map Z.of_nat (seq start (List.length l)) ->
    Sorted steepNumber_le l.
Proof.
  induction l as [|x l IH]; intros start H; [constructor|].
  simpl in H. injection H as Hx Hl. constructor; [now apply (IH (S start))|].
  destruct l as [|y l]; constructor.
  simpl in Hl. injection Hl as Hy _. unfold steepNumber_le. lia.
Qed.

(** X21. The items of GET /brews/:brewId/steeps are the steeps of the brew
    sorted by ascending steepNumber: a permutation of them, in ascending
    order, steeps of equal number in store order. In a reachable state the
    sort changes nothing, the steeps being stored in ascending number. *)
Theorem steep_list_sorted (s : State) (brewId : string) :
  Sorted steepNumber_le (steeps_items s brewId)
  /\ Permutation (steeps_of brewId s) (steeps_items s brewId)
  /\ (forall n,
        filter (fun st => steep_steepNumber st =? n) (steeps_items s brewId)
        = filter (fun st => steep_steepNumber st =? n) (steeps_of brewId s))
  /\ (reachable s -> steeps_items s brewId = steeps_of brewId s).
Proof.
  unfold steeps_items. split; [apply sort_by_steepNumber_sorted|].
  split; [apply sort_by_steepNumber_perm|].
  split; [intros n; apply sort_by_steepNumber_stable|].
  intros Hr. destruct (reachable_Invariant Hr) as (_ & _ & _ & _ & Hn & _).
  apply sort_by_steepNumber_sorted_id.
  exact (numbered_sorted _ 1 (Hn brewId)).
Qed.

(** X22. In a reachable state a steep that POST /brews/:brewId/steeps
    created is the last item of the steep list of its brew, after the items
    the list had before. *)
Theorem new_steep_listed_last (s s' : State) (env : Env) (brewId : string)
  (input : json) (st : Steep) :
  reachable s -> env_ok s env ->
  brew_steeps_create s env brewId input
  = (s', Responded (mkResponse 201 (BSteep st))) ->
  steeps_items s' brewId = steeps_items s brewId ++ [st]
  /\ steep_brewId st = brewId
  /\ steep_id st = uuid env
  /\ steep_createdAt st = now env.
Proof.
  intros Hr Hok H.
  assert (Hs' : s' = fst (serve s env (POST_brews_steeps brewId input))).
  { rewrite fst_serve. simpl. now rewrite H. }
  assert (Hr' : reachable s') by (rewrite Hs'; now apply reachable_serve).
  destruct (reachable_Invariant Hr) as (_ & _ & _ & _ & Hn & _).
  destruct (reachable_Invariant Hr') as (_ & _ & _ & _ & Hn' & _).
  unfold steeps_items.
  rewrite !sort_by_steepNumber_sorted_id
    by (eapply numbered_sorted; first [apply Hn | apply Hn']).
  destruct Hok as (_ & _ & _ & _ & Hfresh).
  unfold brew_steeps_create, BrewIdParamSchema in H.
  destruct (is_uuid brewId); [|discriminate].
  destruct (negb (JsMap.has brewId (brews s))); [discriminate|].
  destruct (CreateSteepSchema input); [|discriminate].
  injection H as <- <-. cbn [steep_id steep_brewId steep_createdAt].
  rewrite set_fresh by assumption. rewrite steeps_of_append.
  cbn [steep_brewId]. rewrite String.eqb_refl. now repeat split.
Qed.

(** ** The pages of a list *)

Lemma firstn_add (A : Type) (a b : nat) :
  forall l : list A, firstn (a + b) l = firstn a l ++ firstn b (skipn a l).
Proof.
  induction a as [|a IH]; intros l; [reflexivity|].
  destruct l as [|x l]; simpl; [now rewrite firstn_nil|]. now rewrite IH.
Qed.

Lemma windows_concat (A : Type) (size n : nat) (l : list A) :
  flat_map (fun i => firstn size (skipn (i * size) l)) (seq 0 n)
  = firstn (n * size) l.
Proof.
  induction n as [|n IH]; [reflexivity|].
  rewrite seq_S, flat_map_app, IH. simpl. rewrite app_nil_r.
  now rewrite <- firstn_add, Nat.add_comm.
Qed.

Lemma page_data_window (A : Type) (items : list A) (page limit : Z) :
  1 <= page -> 1 <= limit ->
  page_data items page limit
  = firstn (Z.to_nat limit)
           (skipn ((Z.to_nat page - 1) * Z.to_nat limit) items).
Proof.
  intros Hp Hl. unfold page_data. rewrite js_slice_window by nia.
  do 2 f_equal. nia.
Qed.

(** X23. The pages of a list handler partition its items: at a limit of at
    least 1, the data of the pages 1, ..., totalPages, one after the other,
    are the items, in order; no page has more than limit items and every
    page before the last has exactly limit items. The data a handler
    returns is this page data. *)
Theorem pages_partition (A : Type) (items : list A) (limit : Z) :
  1 <= limit ->
  let totalPages := math_ceil_div (Z.of_nat (List.length items)) limit in
  flat_map (fun page => page_data items page limit) (pages totalPages) = items
  /\ (forall page, 1 <= page ->
        Z.of_nat (List.length (page_data items page limit)) <= limit)
  /\ (forall page, 1 <= page < totalPages ->
        Z.of_nat (List.length (page_data items page limit)) = limit)
  /\ (forall (wrap : Page A -> Body) page,
        paginate wrap items page limit
        = Responded
            (mkResponse 200
               (wrap (mkPage (page_data items page limit)
                        (mkPagination page limit
                           (Z.of_nat (List.length items)) totalPages))))).
Proof.
  intros Hl totalPages.
  assert (Hceil := @math_ceil_div_spec (Z.of_nat (List.length items)) limit
                     ltac:(lia)).
  fold totalPages in Hceil.
  split; [|split; [|split]].
  - unfold pages. rewrite flat_map_concat_map, map_map, <- flat_map_concat_map.
    rewrite <- seq_shift, flat_map_concat_map, map_map,
      <- flat_map_concat_map.
    rewrite flat_map_ext
      with (g := fun i => firstn (Z.to_nat limit)
                            (skipn (i * Z.to_nat limit) items)).
    + rewrite windows_concat. apply firstn_all2.
      assert (0 <= totalPages) by nia. nia.
    + intros i. rewrite page_data_window by lia.
      do 3 f_equal. lia.
  - intros page Hp. rewrite page_data_window by lia.
    rewrite length_firstn. lia.
  - intros page Hp. rewrite page_data_window by lia.
    rewrite length_firstn, length_skipn. nia.
  - reflexivity.
Qed.

(** ** The nested brew list *)

(** X24. GET /teapots/:teapotId/brews on a stored teapot is
    GET /brews with the teapotId filter: for a query string without status
    and teaId, the two handlers give the same outcome, page of data or
    thrown validation failure, on the same stores. *)
Theorem teapot_brews_is_filtered_list (s : State) (teapotId : string)
  (query : list (string * string)) :
  is_uuid teapotId = true ->
  teapotId <> "" ->
  JsMap.has teapotId (teapots s) = true ->
  assoc "status" query = None ->
  assoc "teaId" query = None ->
  getTeapotBrews s teapotId query
  = brews_list s (("teapotId", teapotId) :: query).
Proof.
  intros Hu Hne Hhas Hst Htea.
  unfold getTeapotBrews, brews_list.
  rewrite TeapotIdParamSchema_ok by assumption. rewrite Hhas. cbn [negb].
  unfold PaginationQuerySchema, BrewQuerySchema, finish.
  change (query_object (("teapotId", teapotId) :: query))
    with (("teapotId", JStr teapotId) :: query_object query).
  change (prop "page" (("teapotId", JStr teapotId) :: query_object query))
    with (prop "page" (query_object query)).
  change (prop "limit" (("teapotId", JStr teapotId) :: query_object query))
    with (prop "limit" (query_object query)).
  change (prop "status" (("teapotId", JStr teapotId) :: query_object query))
    with (prop "status" (query_object query)).
  change (prop "teaId" (("teapotId", JStr teapotId) :: query_object query))
    with (prop "teaId" (query_object query)).
  change (prop "teapotId" (("teapotId", JStr teapotId) :: query_object query))
    with (Some (JStr teapotId)).
  rewrite (prop_query_object "status"), (prop_query_object "teaId"), Hst, Htea.
  assert (Hz : optional z_uuid (Some (JStr teapotId)) = Some (Some teapotId)).
  { unfold optional, z_uuid, z_string. now rewrite checks_one, Hu. }
  rewrite Hz. cbn [option_map optional issue].
  destruct (default 1 (z_coerce_int [positive])
              (prop "page" (query_object query))) as [p|];
    destruct (default 20 (z_coerce_int [positive; max 100])
                (prop "limit" (query_object query))) as [l|];
    cbn; rewrite ?app_nil_r; try reflexivity.
  unfold brews_items, teapot_brews_items, if_truthy, truthy. cbn.
  destruct (String.eqb_spec teapotId ""); [contradiction|]. reflexivity.
Qed.

(** ** Brew status *)

Lemma BrewStatus_round_trip (st : BrewStatus) :
  BrewStatus_of_string (BrewStatus_to_string st) = Some st.
Proof. now destruct st. Qed.

(** X25. PATCH /brews/:id sets any status from any status: for a stored
    brew and each of the five status values, a body with that status alone
    answers 200 with the brew at that status, whatever its status was, and
    every other field but updatedAt as it was. No transition is refused. *)
Theorem brew_status_unconstrained (s : State) (env : Env) (id : string)
  (existing : Brew) (target : BrewStatus) :
  is_uuid id = true ->
  JsMap.get id (brews s) = Some existing ->
  brews_patch s env id (JObj [("status", JStr (BrewStatus_to_string target))])
  = (with_brews s
       (JsMap.set (brew_id existing)
          (mkBrew (brew_id existing) (brew_teapotId existing)
             (brew_teaId existing) target (brew_waterTempCelsius existing)
             (brew_notes existing) (brew_startedAt existing)
             (brew_completedAt existing) (brew_createdAt existing) (now env))
          (brews s)),
     Responded
       (mkResponse 200
          (BBrew
             (mkBrew (brew_id existing) (brew_teapotId existing)
                (brew_teaId existing) target (brew_waterTempCelsius existing)
                (brew_notes existing) (brew_startedAt existing)
                (brew_completedAt existing) (brew_createdAt existing)
                (now env))))).
Proof.
  intros Hu Hget. unfold brews_patch.
  rewrite UuidParamSchema_ok by assumption. rewrite Hget.
  assert (Hd : PatchBrewSchema
                 (JObj [("status", JStr (BrewStatus_to_string target))])
               = Success (mkPatchBrew (Some target) None None)).
  { unfold PatchBrewSchema, finish.
    change (prop "status" [("status", JStr (BrewStatus_to_string target))])
      with (Some (JStr (BrewStatus_to_string target))).
    change (prop "notes" [("status", JStr (BrewStatus_to_string target))])
      with (@None json).
    change (prop "completedAt"
              [("status", JStr (BrewStatus_to_string target))])
      with (@None json).
    unfold optional, z_enum. now rewrite BrewStatus_round_trip. }
  rewrite Hd. reflexivity.
Qed.

(** ** Steeps are immutable *)

(** X26. No request changes a stored steep. In a reachable state, with a
    fresh identifier from the environment, a steep of the store is still
    there, under the same id and unchanged, after any request but the
    DELETE of its brew; and a steep of the store after a request was there
    before, or was created by this request, a POST under its brew. *)
Theorem steeps_immutable (s : State) (env : Env) (r : Request) (k : string)
  (st : Steep) :
  reachable s -> env_ok s env ->
  (In (k, st) (steeps s) ->
   In (k, st) (steeps (fst (serve s env r)))
   \/ r = DELETE_brews_id (steep_brewId st))
  /\ (In (k, st) (steeps (fst (serve s env r))) ->
      In (k, st) (steeps s)
      \/ exists input,
           r = POST_brews_steeps (steep_brewId st) input /\ k = uuid env).
Proof.
  intros Hr (_ & _ & _ & _ & Hfresh).
  destruct (reachable_Invariant Hr) as (_ & _ & _ & Hs & _).
  rewrite fst_serve.
  destruct r; simpl;
    unfold teapots_list, teapots_create, teapots_get, teapots_put,
      teapots_patch, teapots_delete, getTeapotBrews, teas_list, teas_create,
      teas_get, teas_put, teas_patch, teas_delete, brews_list, brews_create,
      brews_get, brews_patch, brew_steeps_list;
    try (repeat break_match; cbn [fst steeps with_teapots with_teas
                                  with_brews]; tauto).
  - unfold brews_delete, UuidParamSchema.
    destruct (is_uuid id); [|cbn; tauto].
    destruct (negb (JsMap.has id (brews s))); [cbn; tauto|].
    cbn [fst]. rewrite delete_associated_steeps_spec by apply Hs.
    cbn [steeps with_brews with_steeps]. rewrite filter_In. cbn [snd].
    destruct (String.eqb_spec (steep_brewId st) id) as [->|Hne];
      cbn; intuition discriminate.
  - unfold brew_steeps_create, BrewIdParamSchema.
    destruct (is_uuid brewId); [|cbn; tauto].
    destruct (negb (JsMap.has brewId (brews s))); [cbn; tauto|].
    destruct (CreateSteepSchema _); [|cbn; tauto].
    cbn [fst steeps with_steeps steep_id].
    rewrite set_fresh by assumption. rewrite in_app_iff. split.
    + intros H. now left; left.
    + intros [H|[H|[]]]; [now left|]. injection H as <- <-.
      right. cbn [steep_brewId]. now eexists.
Qed.

(** ** Defaults *)

Lemma default_absent (A : Type) (d : A) (f : field A) (r : A) :
  default d f None = Some r -> r = d.
Proof. simpl. congruence. Qed.

Ltac defaulted :=
  let E := fresh in
  intros E;
  match goal with
  | H : default _ _ _ = Some _ |- _ =>
      rewrite E in H; apply default_absent in H; rewrite H; reflexivity
  | H : optional _ _ = Some _ |- _ =>
      rewrite E in H; apply optional_absent in H; rewrite H; reflexivity
  end.

(** X27. The defaults of the creation schemas reach the created entity: a
    teapot created without style is "english" and without description has
    a null description; a tea created without caffeineLevel is "medium",
    without description has a null one and without origin has none; a brew
    created without notes has null notes; a steep created without rating
    or notes has them null. *)
Theorem creation_defaults (s s' : State) (env : Env)
  (o : list (string * json)) :
  (forall t,
     teapots_create s env (JObj o)
     = (s', Responded (mkResponse 201 (BTeapot t))) ->
     (prop "style" o = None -> teapot_style t = english)
     /\ (prop "description" o = None -> teapot_description t = None))
  /\ (forall t,
        teas_create s env (JObj o)
        = (s', Responded (mkResponse 201 (BTea t))) ->
        (prop "caffeineLevel" o = None -> tea_caffeineLevel t = caf_medium)
        /\ (prop "description" o = None -> tea_description t = None)
        /\ (prop "origin" o = None -> tea_origin t = None))
  /\ (forall b,
        brews_create s env (JObj o)
        = (s', Responded (mkResponse 201 (BBrew b))) ->
        prop "notes" o = None -> brew_notes b = None)
  /\ (forall brewId st,
        brew_steeps_create s env brewId (JObj o)
        = (s', Responded (mkResponse 201 (BSteep st))) ->
        (prop "rating" o = None -> steep_rating st = None)
        /\ (prop "notes" o = None -> steep_notes st = None)).
Proof.
  split; [|split; [|split]].
  - intros t H. unfold teapots_create in H.
    destruct (CreateTeapotSchema (JObj o)) as [d|] eqn:Hd; [|discriminate].
    injection H as <- <-.
    destruct (CreateTeapotSchema_fields _ Hd)
      as (o' & E & _ & _ & _ & Hy & Hs).
    injection E as <-. cbn. split; defaulted.
  - intros t H. unfold teas_create in H.
    destruct (CreateTeaSchema (JObj o)) as [d|] eqn:Hd; [|discriminate].
    injection H as <- <-.
    destruct (CreateTeaSchema_fields _ Hd)
      as (o' & E & _ & _ & Hg & Hc & _ & _ & Hs).
    injection E as <-. cbn. split; [|split]; defaulted.
  - intros b H. unfold brews_create in H.
    destruct (CreateBrewSchema (JObj o)) as [d|] eqn:Hd; [|discriminate].
    destruct (JsMap.get (cb_teapotId d) (teapots s)); [|discriminate].
    destruct (JsMap.get (cb_teaId d) (teas s)); [|discriminate].
    injection H as <- <-.
    destruct (CreateBrewSchema_fields _ Hd) as (o' & E & _ & _ & _ & Hn).
    injection E as <-. cbn. defaulted.
  - intros brewId st H. unfold brew_steeps_create in H.
    destruct (BrewIdParamSchema brewId); [|discriminate].
    destruct (negb (JsMap.has data0 (brews s))); [discriminate|].
    destruct (CreateSteepSchema (JObj o)) as [d|] eqn:Hd; [|discriminate].
    injection H as <- <-.
    destruct (CreateSteepSchema_fields _ Hd) as (o' & E & _ & Hr & Hn).
    injection E as <-. cbn. split; defaulted.
Qed.

Lemma default_paging_fields (query : list (string * string)) :
  assoc "page" query = None -> assoc "limit" query = None ->
  default 1 (z_coerce_int [positive]) (prop "page" (query_object query))
  = Some 1
  /\ default 20 (z_coerce_int [positive; max 100])
       (prop "limit" (query_object query))
     = Some 20.
Proof. intros Hp Hl. now rewrite !prop_query_object, Hp, Hl. Qed.

Lemma first_page (A : Type) (wrap : Page A -> Body) (items : list A)
  (limit : Z) :
  1 <= limit ->
  paginate wrap items 1 limit
  = Responded
      (mkResponse 200
         (wrap (mkPage (firstn (Z.to_nat limit) items)
                  (mkPagination 1 limit (Z.of_nat (List.length items))
                     (math_ceil_div (Z.of_nat (List.length items)) limit))))).
Proof.
  intros Hl. unfold paginate, json_ok. do 4 f_equal.
  change ((1 - 1) * limit) with 0. now rewrite js_slice_window by lia.
Qed.

Ltac paging_default H Hf :=
  unfold finish in H; destruct Hf as [Hf1 Hf2]; rewrite Hf1, Hf2 in H;
  break_in H; try discriminate H; injection H as <-; cbn;
  rewrite first_page by lia; reflexivity.

(** X28. A list request without page and limit gets page 1 at 20 items a
    page: the first 20 items of the list and the pagination
    {page: 1, limit: 20, total, totalPages}. *)
Theorem default_paging (s : State) (query : list (string * string)) :
  assoc "page" query = None ->
  assoc "limit" query = None ->
  (forall q,
     TeapotQuerySchema query = Success q ->
     teapots_list s query
     = (s, Responded
             (mkResponse 200
                (BTeapotPage
                   (mkPage (firstn 20 (teapots_items s q))
                      (mkPagination 1 20
                         (Z.of_nat (List.length (teapots_items s q)))
                         (math_ceil_div
                            (Z.of_nat (List.length (teapots_items s q)))
                            20)))))))
  /\ (forall q,
        TeaQuerySchema query = Success q ->
        teas_list s query
        = (s, Responded
                (mkResponse 200
                   (BTeaPage
                      (mkPage (firstn 20 (teas_items s q))
                         (mkPagination 1 20
                            (Z.of_nat (List.length (teas_items s q)))
                            (math_ceil_div
                               (Z.of_nat (List.length (teas_items s q)))
                               20)))))))
  /\ (forall q,
        BrewQuerySchema query = Success q ->
        brews_list s query
        = (s, Responded
                (mkResponse 200
                   (BBrewPage
                      (mkPage (firstn 20 (brews_items s q))
                         (mkPagination 1 20
                            (Z.of_nat (List.length (brews_items s q)))
                            (math_ceil_div
                               (Z.of_nat (List.length (brews_items s q)))
                               20)))))))
  /\ (forall brewId,
        is_uuid brewId = true -> JsMap.has brewId (brews s) = true ->
        brew_steeps_list s brewId query
        = (s, Responded
                (mkResponse 200
                   (BSteepPage
                      (mkPage (firstn 20 (steeps_items s brewId))
                         (mkPagination 1 20
                            (Z.of_nat (List.length (steeps_items s brewId)))
                            (math_ceil_div
                               (Z.of_nat
                                  (List.length (steeps_items s brewId)))
                               20)))))))
  /\ (forall teapotId,
        is_uuid teapotId = true -> JsMap.has teapotId (teapots s) = true ->
        getTeapotBrews s teapotId query
        = (s, Responded
                (mkResponse 200
                   (BBrewPage
                      (mkPage (firstn 20 (teapot_brews_items s teapotId))
                         (mkPagination 1 20
                            (Z.of_nat
                               (List.length (teapot_brews_items s teapotId)))
                            (math_ceil_div
                               (Z.of_nat
                                  (List.length
                                     (teapot_brews_items s teapotId)))
                               20))))))).
Proof.
  intros Hp Hl. pose proof (default_paging_fields _ Hp Hl) as Hf.
  split; [|split; [|split; [|split]]].
  - intros q H. unfold teapots_list. rewrite H.
    unfold TeapotQuerySchema in H. paging_default H Hf.
  - intros q H. unfold teas_list. rewrite H.
    unfold TeaQuerySchema in H. paging_default H Hf.
  - intros q H. unfold brews_list. rewrite H.
    unfold BrewQuerySchema in H. paging_default H Hf.
  - intros brewId Hu Hb. unfold brew_steeps_list.
    rewrite BrewIdParamSchema_ok by assumption. rewrite Hb. cbn [negb].
    destruct Hf as [Hf1 Hf2].
    unfold PaginationQuerySchema, finish. rewrite Hf1, Hf2. cbn.
    now rewrite first_page by lia.
  - intros teapotId Hu Hb. unfold getTeapotBrews.
    rewrite TeapotIdParamSchema_ok by assumption. rewrite Hb. cbn [negb].
    destruct Hf as [Hf1 Hf2].
    unfold PaginationQuerySchema, finish. rewrite Hf1, Hf2. cbn.
    now rewrite first_page by lia.
Qed.

End Fixture.

(** ** The properties at concrete requests *)

Lemma served_reachable :
  reachable Sample.uuid_format Sample.datetime_format Sample.decimal_Number
            Sample.served.
Proof.
  pose (sv := serve Sample.uuid_format Sample.datetime_format
                    Sample.decimal_Number).
  pose (s1 := fst (sv initial (mkEnv Sample.id_teapot Sample.t0)
                      (POST_teapots Sample.teapot_body))).
  pose (s2 := fst (sv s1 (mkEnv Sample.id_tea Sample.t1)
                      (POST_teas Sample.tea_body))).
  pose (s3 := fst (sv s2 (mkEnv Sample.id_brew Sample.t2)
                      (POST_brews Sample.brew_body))).
  pose (s4 := fst (sv s3 (mkEnv Sample.id_steep1 Sample.t3)
                      (POST_brews_steeps Sample.id_brew Sample.steep_body))).
  pose (s5 := fst (sv s4 (mkEnv Sample.id_steep2 Sample.t4)
                      (POST_brews_steeps Sample.id_brew Sample.steep_body))).
  assert (E : s5 = Sample.served) by (vm_compute; reflexivity).
  rewrite <- E. unfold s5, s4, s3, s2, s1, sv.
  repeat (apply reachable_serve; [|vm_compute; repeat split]).
  apply reachable_initial.
Qed.

Lemma delete_brew_cascades_witness :
  reachable Sample.uuid_format Sample.datetime_format Sample.decimal_Number
            Sample.served
  /\ In Sample.the_brew (JsMap.values (brews Sample.served))
  /\ exists s',
       brews_delete Sample.uuid_format Sample.served Sample.id_brew
       = (s', Responded (mkResponse 204 BEmpty))
       /\ steeps s' = []
       /\ brews s' = []
       /\ steeps_of Sample.id_brew s' = [].
Proof.
  split; [exact served_reachable|]. split; [simpl; auto|].
  destruct (@delete_brew_cascades Sample.uuid_format Sample.datetime_format
              Sample.decimal_Number Sample.served Sample.the_brew
              served_reachable (or_introl eq_refl))
    as (s' & H1 & H2 & H3 & _ & _ & _ & _ & H4 & _).
  exists s'. split; [exact H1|]. split; [rewrite H2; reflexivity|].
  split; [rewrite H3; reflexivity|exact H4].
Defined.

Lemma steep_numbers_dense_witness :
  reachable Sample.uuid_format Sample.datetime_format Sample.decimal_Number
            Sample.served
  /\ map steep_steepNumber (steeps_of Sample.id_brew Sample.served) = [1; 2]
  /\ envs_ok Sample.uuid_format Sample.datetime_format Sample.decimal_Number
       Sample.served
       [(mkEnv Sample.id_other Sample.t5,
         POST_brews_steeps Sample.id_brew Sample.steep_body)]
  /\ created_under Sample.id_brew
       (snd (serve_all Sample.uuid_format Sample.datetime_format
               Sample.decimal_Number Sample.served
               [(mkEnv Sample.id_other Sample.t5,
                 POST_brews_steeps Sample.id_brew Sample.steep_body)]))
     = [mkSteep Sample.id_other Sample.id_brew 3 30 None None Sample.t5]
  /\ steep_steepNumber
       (mkSteep Sample.id_other Sample.id_brew 3 30 None None Sample.t5)
     = Z.of_nat (List.length (steeps_of Sample.id_brew Sample.served))
       + Z.of_nat 0 + 1.
Proof.
  assert (Hok : envs_ok Sample.uuid_format Sample.datetime_format
                  Sample.decimal_Number Sample.served
                  [(mkEnv Sample.id_other Sample.t5,
                    POST_brews_steeps Sample.id_brew Sample.steep_body)])
    by (vm_compute; repeat split).
  split; [exact served_reachable|]. split; [|split; [exact Hok|split]].
  - exact (proj1 (@steep_numbers_dense Sample.uuid_format
                    Sample.datetime_format Sample.decimal_Number Sample.served
                    Sample.id_brew served_reachable)).
  - reflexivity.
  - exact (proj2 (proj2 (proj2 (proj2 (proj2
             (@steep_numbers_dense Sample.uuid_format
                Sample.datetime_format Sample.decimal_Number Sample.served
                Sample.id_brew served_reachable)))))
             [(mkEnv Sample.id_other Sample.t5,
               POST_brews_steeps Sample.id_brew Sample.steep_body)]
             Hok eq_refl 0%nat
             (mkSteep Sample.id_other Sample.id_brew 3 30 None None Sample.t5)
             eq_refl).
Defined.

Lemma brew_create_missing_reference_witness :
  CreateBrewSchema Sample.uuid_format Sample.brew_body
  = Success (mkCreateBrew Sample.id_teapot Sample.id_tea None None)
  /\ JsMap.has Sample.id_teapot (teapots Sample.orphaned) = true
  /\ JsMap.has Sample.id_tea (teas Sample.orphaned) = false
  /\ brews_create Sample.uuid_format Sample.orphaned
       (mkEnv Sample.id_other Sample.t5) Sample.brew_body
     = (Sample.orphaned,
        Responded
          (mkResponse 400
             (BError (mkApiError "VALIDATION_ERROR" "Tea not found" None)))).
Proof.
  split; [reflexivity|]. split; [reflexivity|]. split; [reflexivity|].
  apply (brew_create_missing_reference Sample.uuid_format Sample.orphaned
           (mkEnv Sample.id_other Sample.t5) Sample.brew_body
           (d := mkCreateBrew Sample.id_teapot Sample.id_tea None None));
    reflexivity.
Defined.

(** C3, as stated, at a request that names a missing teapot and a missing
    tea: the body passes the schema and the teaId is a well-formed UUID
    that is not in the tea store, yet the message is "Teapot not found",
    not "Tea not found". *)
Lemma brew_create_both_missing_counterexample :
  CreateBrewSchema Sample.uuid_format Sample.brew_body
  = Success (mkCreateBrew Sample.id_teapot Sample.id_tea None None)
  /\ Sample.uuid_format Sample.id_tea = true
  /\ JsMap.has Sample.id_tea (teas initial) = false
  /\ snd (brews_create Sample.uuid_format initial
            (mkEnv Sample.id_brew Sample.t0) Sample.brew_body)
     = Responded
         (mkResponse 400
            (BError (mkApiError "VALIDATION_ERROR" "Teapot not found" None)))
  /\ snd (brews_create Sample.uuid_format initial
            (mkEnv Sample.id_brew Sample.t0) Sample.brew_body)
     <> Responded
          (mkResponse 400
             (BError (mkApiError "VALIDATION_ERROR" "Tea not found" None))).
Proof.
  split; [reflexivity|]. split; [reflexivity|]. split; [reflexivity|].
  split; [reflexivity|]. vm_compute. discriminate.
Qed.

Lemma steep_create_brew_not_found_witness :
  Sample.uuid_format Sample.id_brew = true
  /\ JsMap.has Sample.id_brew (brews initial) = false
  /\ brew_steeps_create Sample.uuid_format initial
       (mkEnv Sample.id_steep1 Sample.t0) Sample.id_brew Sample.steep_body
     = (initial,
        Responded
          (mkResponse 404
             (BError (mkApiError "NOT_FOUND" "Brew not found" None)))).
Proof.
  split; [reflexivity|]. split; [reflexivity|].
  apply (steep_create_brew_not_found Sample.uuid_format initial
           (mkEnv Sample.id_steep1 Sample.t0) Sample.id_brew
           Sample.steep_body); reflexivity.
Defined.

Lemma list_pagination_witness :
  Sample.uuid_format Sample.id_brew = true
  /\ JsMap.has Sample.id_brew (brews Sample.served) = true
  /\ PaginationQuerySchema Sample.decimal_Number [("page", "2"); ("limit", "1")]
     = Success (mkPaginationQuery 2 1)
  /\ exists p,
       brew_steeps_list Sample.uuid_format Sample.decimal_Number Sample.served
         Sample.id_brew [("page", "2"); ("limit", "1")]
       = (Sample.served, Responded (mkResponse 200 (BSteepPage p)))
       /\ is_page_of (steeps_items Sample.served Sample.id_brew) 2 1 p.
Proof.
  split; [reflexivity|]. split; [reflexivity|]. split; [reflexivity|].
  apply (proj1 (proj2 (proj2 (proj2
           (list_pagination Sample.uuid_format Sample.decimal_Number
              Sample.served))))
           Sample.id_brew [("page", "2"); ("limit", "1")]
           (mkPaginationQuery 2 1));
    reflexivity.
Defined.

Lemma brew_get_expansion_witness :
  Sample.uuid_format Sample.id_brew = true
  /\ JsMap.get Sample.id_brew (brews Sample.served) = Some Sample.the_brew
  /\ brews_get Sample.uuid_format Sample.served Sample.id_brew
     = (Sample.served,
        Responded
          (mkResponse 200
             (BBrewWithDetails Sample.the_brew Sample.the_teapot
                Sample.the_tea)))
  /\ JsMap.get Sample.id_tea (teas Sample.orphaned) = None
  /\ brews_get Sample.uuid_format Sample.orphaned Sample.id_brew
     = (Sample.orphaned,
        Responded (mkResponse 200 (BBrew Sample.the_brew))).
Proof.
  split; [reflexivity|]. split; [reflexivity|]. split; [|split].
  - apply (proj1 (brew_get_expansion Sample.uuid_format Sample.served
                    Sample.id_brew (brew := Sample.the_brew)
                    eq_refl eq_refl)); reflexivity.
  - reflexivity.
  - apply (proj2 (brew_get_expansion Sample.uuid_format Sample.orphaned
                    Sample.id_brew (brew := Sample.the_brew)
                    eq_refl eq_refl)).
    right. reflexivity.
Defined.

Lemma brew_create_defaults_witness :
  CreateBrewSchema Sample.uuid_format Sample.brew_body
  = Success (mkCreateBrew Sample.id_teapot Sample.id_tea None None)
  /\ JsMap.get Sample.id_teapot (teapots Sample.served)
     = Some Sample.the_teapot
  /\ JsMap.get Sample.id_tea (teas Sample.served) = Some Sample.the_tea
  /\ exists brew,
       snd (brews_create Sample.uuid_format Sample.served
              (mkEnv Sample.id_other Sample.t5) Sample.brew_body)
       = Responded (mkResponse 201 (BBrew brew))
       /\ brew_status brew = preparing
       /\ brew_waterTempCelsius brew = 75
       /\ brew_startedAt brew = Sample.t5
       /\ brew_createdAt brew = Sample.t5
       /\ brew_updatedAt brew = Sample.t5
       /\ brew_completedAt brew = None.
Proof.
  split; [reflexivity|]. split; [reflexivity|]. split; [reflexivity|].
  destruct (brew_create_defaults Sample.uuid_format Sample.served
              (mkEnv Sample.id_other Sample.t5) Sample.brew_body
              (d := mkCreateBrew Sample.id_teapot Sample.id_tea None None)
              (teapot := Sample.the_teapot) (tea := Sample.the_tea)
              eq_refl eq_refl eq_refl)
    as (brew & H & _ & _ & _ & Hs & Hw & _ & Ht & Hc & Hu & Hn).
  exists brew. rewrite H. split; [reflexivity|]. split; [exact Hs|].
  split; [exact Hw|]. split; [exact Ht|].
  split; [rewrite Hc; exact Ht|]. split; [rewrite Hu; exact Ht|exact Hn].
Defined.

Lemma error_leaves_stores_witness :
  status (snd (serve Sample.uuid_format Sample.datetime_format
                 Sample.decimal_Number Sample.served
                 (mkEnv Sample.id_other Sample.t5)
                 (POST_brews_steeps Sample.id_other Sample.steep_body)))
  = 404
  /\ fst (serve Sample.uuid_format Sample.datetime_format
            Sample.decimal_Number Sample.served
            (mkEnv Sample.id_other Sample.t5)
            (POST_brews_steeps Sample.id_other Sample.steep_body))
     = Sample.served.
Proof.
  split; [reflexivity|].
  apply (error_leaves_stores Sample.uuid_format Sample.datetime_format
           Sample.decimal_Number Sample.served
           (mkEnv Sample.id_other Sample.t5)
           (POST_brews_steeps Sample.id_other Sample.steep_body)).
  right. reflexivity.
Defined.

Lemma patch_retains_omitted_witness :
  (Sample.uuid_format Sample.id_teapot = true
   /\ JsMap.get Sample.id_teapot (teapots Sample.served)
      = Some Sample.the_teapot
   /\ PatchTeapotSchema (JObj [("name", JStr "Renamed")])
      = Success (mkPatchTeapot (Some "Renamed") None None None None)
   /\ exists t,
        snd (teapots_patch Sample.uuid_format Sample.served
               (mkEnv Sample.id_other Sample.t5) Sample.id_teapot
               (JObj [("name", JStr "Renamed")]))
        = Responded (mkResponse 200 (BTeapot t))
        /\ teapot_id t = Sample.id_teapot
        /\ teapot_createdAt t = Sample.t0
        /\ teapot_updatedAt t = Sample.t5
        /\ teapot_material t = clay
        /\ teapot_capacityMl t = 350
        /\ teapot_style t = kyusu
        /\ teapot_description t = None)
  /\ (Sample.uuid_format Sample.id_tea = true
      /\ JsMap.get Sample.id_tea (teas Sample.served) = Some Sample.the_tea
      /\ PatchTeaSchema (JObj [("origin", JStr "Uji")])
         = Success (mkPatchTea None None (Some "Uji") None None None None)
      /\ exists t,
           snd (teas_patch Sample.uuid_format Sample.served
                  (mkEnv Sample.id_other Sample.t5) Sample.id_tea
                  (JObj [("origin", JStr "Uji")]))
           = Responded (mkResponse 200 (BTea t))
           /\ tea_id t = Sample.id_tea
           /\ tea_createdAt t = Sample.t1
           /\ tea_updatedAt t = Sample.t5
           /\ tea_name t = "Sencha"
           /\ tea_steepTempCelsius t = 75)
  /\ (Sample.uuid_format Sample.id_brew = true
      /\ JsMap.get Sample.id_brew (brews Sample.served) = Some Sample.the_brew
      /\ PatchBrewSchema Sample.datetime_format (JObj [("status", JStr "ready")])
         = Success (mkPatchBrew (Some ready) None None)
      /\ exists b,
           snd (brews_patch Sample.uuid_format Sample.datetime_format
                  Sample.served (mkEnv Sample.id_other Sample.t5)
                  Sample.id_brew (JObj [("status", JStr "ready")]))
           = Responded (mkResponse 200 (BBrew b))
           /\ brew_id b = Sample.id_brew
           /\ brew_createdAt b = Sample.t2
           /\ brew_updatedAt b = Sample.t5
           /\ brew_notes b = None
           /\ brew_completedAt b = None
           /\ brew_waterTempCelsius b = 75).
Proof.
  split; [|split].
  - split; [reflexivity|]. split; [reflexivity|]. split; [reflexivity|].
    destruct (proj1 (patch_retains_omitted Sample.uuid_format
                       Sample.datetime_format Sample.decimal_Number
                       Sample.served (mkEnv Sample.id_other Sample.t5)
                       Sample.id_teapot (JObj [("name", JStr "Renamed")])
                       eq_refl)
                Sample.the_teapot
                (mkPatchTeapot (Some "Renamed") None None None None)
                eq_refl eq_refl)
      as (t & o & H & Ho & Hi & Hc & Hu & _ & _ & Hm & Hk & Hs & Hd).
    injection Ho as <-.
    exists t. rewrite H. split; [reflexivity|].
    split; [exact Hi|]. split; [exact Hc|]. split; [exact Hu|].
    split; [exact (Hm eq_refl)|]. split; [exact (Hk eq_refl)|].
    split; [exact (Hs eq_refl)|exact (Hd eq_refl)].
  - split; [reflexivity|]. split; [reflexivity|]. split; [reflexivity|].
    destruct (proj1 (proj2 (patch_retains_omitted Sample.uuid_format
                       Sample.datetime_format Sample.decimal_Number
                       Sample.served (mkEnv Sample.id_other Sample.t5)
                       Sample.id_tea (JObj [("origin", JStr "Uji")])
                       eq_refl))
                Sample.the_tea
                (mkPatchTea None None (Some "Uji") None None None None)
                eq_refl eq_refl)
      as (t & o & H & Ho & Hi & Hc & Hu & _ & Hn & _ & _ & _ & Ht & _).
    injection Ho as <-.
    exists t. rewrite H. split; [reflexivity|].
    split; [exact Hi|]. split; [exact Hc|]. split; [exact Hu|].
    split; [exact (Hn eq_refl)|exact (Ht eq_refl)].
  - split; [reflexivity|]. split; [reflexivity|]. split; [reflexivity|].
    destruct (proj2 (proj2 (patch_retains_omitted Sample.uuid_format
                       Sample.datetime_format Sample.decimal_Number
                       Sample.served (mkEnv Sample.id_other Sample.t5)
                       Sample.id_brew (JObj [("status", JStr "ready")])
                       eq_refl))
                Sample.the_brew (mkPatchBrew (Some ready) None None)
                eq_refl eq_refl)
      as (b & o & H & Ho & Hi & Hc & Hu & _ & _ & _ & Hw & _ & _ & Hn & Hd).
    injection Ho as <-.
    exists b. rewrite H. split; [reflexivity|].
    split; [exact Hi|]. split; [exact Hc|]. split; [exact Hu|].
    split; [exact (Hn eq_refl)|]. split; [exact (Hd eq_refl)|exact Hw].
Defined.

Lemma invalid_query_internal_error_witness :
  paging_invalid Sample.decimal_Number [("page", "0")]
  /\ query_failure Sample.uuid_format Sample.decimal_Number
       (GET_teapots [("page", "0")])
     = Some ["page"]
  /\ route Sample.uuid_format Sample.datetime_format Sample.decimal_Number
       Sample.served (mkEnv Sample.id_other Sample.t5)
       (GET_teapots [("page", "0")])
     = (Sample.served, Thrown ["page"])
  /\ createApp Sample.uuid_format Sample.datetime_format
       Sample.decimal_Number Sample.served (mkEnv Sample.id_other Sample.t5)
       (Resource (GET_teapots [("page", "0")]))
     = (Sample.served,
        mkResponse 500
          (BError (mkApiError "INTERNAL_ERROR" "An unexpected error occurred"
                     None)))
  /\ createApp Sample.uuid_format Sample.datetime_format
       Sample.decimal_Number Sample.served (mkEnv Sample.id_other Sample.t5)
       (Resource (GET_brews_steeps Sample.id_brew [("limit", "101")]))
     = (Sample.served,
        mkResponse 500
          (BError (mkApiError "INTERNAL_ERROR" "An unexpected error occurred"
                     None))).
Proof.
  assert (Hbad : paging_invalid Sample.decimal_Number [("page", "0")]).
  { left. exists "0". split; [reflexivity|].
    intros n (q & Hq & Hn). vm_compute in Hq. injection Hq as <-.
    vm_compute in Hn. injection Hn as <-. reflexivity. }
  split; [exact Hbad|]. split; [reflexivity|].
  destruct (proj1 (proj2
              (invalid_query_internal_error Sample.uuid_format
                 Sample.datetime_format Sample.decimal_Number Sample.served
                 (mkEnv Sample.id_other Sample.t5)
                 (GET_teapots [("page", "0")])))
              ["page"] eq_refl)
    as (Hroute & Hanswer); [intros id H; discriminate H|].
  split; [exact Hroute|]. split; [exact Hanswer|].
  refine (proj2 (proj1 (proj2
            (invalid_query_internal_error Sample.uuid_format
               Sample.datetime_format Sample.decimal_Number Sample.served
               (mkEnv Sample.id_other Sample.t5)
               (GET_brews_steeps Sample.id_brew [("limit", "101")])))
            ["limit"] eq_refl _)).
  intros id H. injection H as <-. split; reflexivity.
Defined.

Lemma session_served :
  fst (serve_all Sample.uuid_format Sample.datetime_format
         Sample.decimal_Number initial
         [(mkEnv Sample.id_teapot Sample.t0, POST_teapots Sample.teapot_body);
          (mkEnv Sample.id_tea Sample.t1, POST_teas Sample.tea_body);
          (mkEnv Sample.id_brew Sample.t2, POST_brews Sample.brew_body);
          (mkEnv Sample.id_steep1 Sample.t3,
           POST_brews_steeps Sample.id_brew Sample.steep_body);
          (mkEnv Sample.id_steep2 Sample.t4,
           POST_brews_steeps Sample.id_brew Sample.steep_body)])
  = Sample.served.
Proof. vm_compute. reflexivity. Qed.

Lemma session_ok :
  envs_ok Sample.uuid_format Sample.datetime_format Sample.decimal_Number
    initial
    [(mkEnv Sample.id_teapot Sample.t0, POST_teapots Sample.teapot_body);
     (mkEnv Sample.id_tea Sample.t1, POST_teas Sample.tea_body);
     (mkEnv Sample.id_brew Sample.t2, POST_brews Sample.brew_body);
     (mkEnv Sample.id_steep1 Sample.t3,
      POST_brews_steeps Sample.id_brew Sample.steep_body);
     (mkEnv Sample.id_steep2 Sample.t4,
      POST_brews_steeps Sample.id_brew Sample.steep_body)]
  /\ clocks_ok Sample.datetime_format
       [(mkEnv Sample.id_teapot Sample.t0, POST_teapots Sample.teapot_body);
        (mkEnv Sample.id_tea Sample.t1, POST_teas Sample.tea_body);
        (mkEnv Sample.id_brew Sample.t2, POST_brews Sample.brew_body);
        (mkEnv Sample.id_steep1 Sample.t3,
         POST_brews_steeps Sample.id_brew Sample.steep_body);
        (mkEnv Sample.id_steep2 Sample.t4,
         POST_brews_steeps Sample.id_brew Sample.steep_body)].
Proof.
  split; [vm_compute; repeat split|].
  unfold clocks_ok. repeat constructor.
Qed.

Lemma stores_keyed_by_id_witness :
  reachable Sample.uuid_format Sample.datetime_format Sample.decimal_Number
            Sample.served
  /\ store_ok Sample.uuid_format steep_id (steeps Sample.served).
Proof.
  split; [exact served_reachable|].
  exact (proj2 (proj2 (proj2
           (@stores_keyed_by_id Sample.uuid_format Sample.datetime_format
              Sample.decimal_Number Sample.served served_reachable)))).
Defined.

Lemma steeps_have_their_brew_witness :
  reachable Sample.uuid_format Sample.datetime_format Sample.decimal_Number
            Sample.served
  /\ In Sample.steep2 (JsMap.values (steeps Sample.served))
  /\ exists b,
       JsMap.get (steep_brewId Sample.steep2) (brews Sample.served) = Some b
       /\ brew_id b = steep_brewId Sample.steep2.
Proof.
  split; [exact served_reachable|]. split; [simpl; auto|].
  exact (@steeps_have_their_brew Sample.uuid_format Sample.datetime_format
           Sample.decimal_Number Sample.served Sample.steep2
           served_reachable (or_intror (or_introl eq_refl))).
Defined.

Lemma get_is_read_only_witness :
  is_get (GET_brews_id Sample.id_brew) = true
  /\ fst (serve Sample.uuid_format Sample.datetime_format
            Sample.decimal_Number Sample.served
            (mkEnv Sample.id_other Sample.t5) (GET_brews_id Sample.id_brew))
     = Sample.served.
Proof.
  split; [reflexivity|].
  exact (@get_is_read_only Sample.uuid_format Sample.datetime_format
           Sample.decimal_Number Sample.served
           (mkEnv Sample.id_other Sample.t5) (GET_brews_id Sample.id_brew)
           eq_refl).
Defined.

Lemma status_codes_witness :
  status (snd (createApp Sample.uuid_format Sample.datetime_format
                 Sample.decimal_Number Sample.served
                 (mkEnv Sample.id_other Sample.t5)
                 (Resource (POST_brews Sample.brew_body))))
  = 201
  /\ (exists r, Resource (POST_brews Sample.brew_body) = Resource r
                /\ is_post r = true)
  /\ createApp Sample.uuid_format Sample.datetime_format
       Sample.decimal_Number Sample.served (mkEnv Sample.id_other Sample.t5)
       (Refused BodyParserError)
     = (Sample.served,
        mkResponse 500
          (BError (mkApiError "INTERNAL_ERROR" "An unexpected error occurred"
                     None))).
Proof.
  split; [reflexivity|]. split; [|reflexivity].
  exact (proj1 (proj2
           (@status_codes Sample.uuid_format Sample.datetime_format
              Sample.decimal_Number Sample.served
              (mkEnv Sample.id_other Sample.t5)
              (Resource (POST_brews Sample.brew_body))))
           eq_refl).
Defined.

Lemma stored_teapots_conform_witness :
  In Sample.the_teapot (JsMap.values (teapots Sample.served))
  /\ TeapotSchema Sample.uuid_format Sample.datetime_format Sample.the_teapot
     = true.
Proof.
  split; [simpl; auto|].
  apply (@stored_teapots_conform Sample.uuid_format Sample.datetime_format
           Sample.decimal_Number _ Sample.the_teapot
           (proj1 session_ok) (proj2 session_ok)).
  rewrite session_served. simpl. auto.
Defined.

Lemma stored_teas_conform_witness :
  In Sample.the_tea (JsMap.values (teas Sample.served))
  /\ TeaSchema Sample.uuid_format Sample.datetime_format Sample.the_tea
     = true.
Proof.
  split; [simpl; auto|].
  apply (@stored_teas_conform Sample.uuid_format Sample.datetime_format
           Sample.decimal_Number _ Sample.the_tea
           (proj1 session_ok) (proj2 session_ok)).
  rewrite session_served. simpl. auto.
Defined.

Lemma stored_brews_conform_witness :
  In Sample.the_brew (JsMap.values (brews Sample.served))
  /\ BrewSchema Sample.uuid_format Sample.datetime_format Sample.the_brew
     = true.
Proof.
  split; [simpl; auto|].
  apply (@stored_brews_conform Sample.uuid_format Sample.datetime_format
           Sample.decimal_Number _ Sample.the_brew
           (proj1 session_ok) (proj2 session_ok)).
  rewrite session_served. simpl. auto.
Defined.

Lemma stored_steeps_conform_witness :
  In Sample.steep1 (JsMap.values (steeps Sample.served))
  /\ SteepSchema Sample.uuid_format Sample.datetime_format Sample.steep1
     = true.
Proof.
  split; [simpl; auto|].
  apply (@stored_steeps_conform Sample.uuid_format Sample.datetime_format
           Sample.decimal_Number _ Sample.steep1
           (proj1 session_ok) (proj2 session_ok)).
  rewrite session_served. simpl. auto.
Defined.


Lemma teapot_create_then_get_witness :
  Sample.uuid_format Sample.id_teapot = true
  /\ teapots_create initial (mkEnv Sample.id_teapot Sample.t0)
       Sample.teapot_body
     = (mkState [(Sample.id_teapot, Sample.the_teapot)] [] [] [],
        Responded (mkResponse 201 (BTeapot Sample.the_teapot)))
  /\ teapots_get Sample.uuid_format
       (mkState [(Sample.id_teapot, Sample.the_teapot)] [] [] [])
       Sample.id_teapot
     = (mkState [(Sample.id_teapot, Sample.the_teapot)] [] [] [],
        Responded (mkResponse 200 (BTeapot Sample.the_teapot))).
Proof.
  split; [reflexivity|]. split; [reflexivity|].
  exact (proj1 (proj2
           (@teapot_create_then_get Sample.uuid_format initial
              (mkState [(Sample.id_teapot, Sample.the_teapot)] [] [] [])
              (mkEnv Sample.id_teapot Sample.t0) Sample.teapot_body
              Sample.the_teapot eq_refl eq_refl))).
Defined.

Lemma tea_create_then_get_witness :
  Sample.uuid_format Sample.id_tea = true
  /\ teas_create initial (mkEnv Sample.id_tea Sample.t1) Sample.tea_body
     = (mkState [] [(Sample.id_tea, Sample.the_tea)] [] [],
        Responded (mkResponse 201 (BTea Sample.the_tea)))
  /\ teas_get Sample.uuid_format
       (mkState [] [(Sample.id_tea, Sample.the_tea)] [] []) Sample.id_tea
     = (mkState [] [(Sample.id_tea, Sample.the_tea)] [] [],
        Responded (mkResponse 200 (BTea Sample.the_tea))).
Proof.
  split; [reflexivity|]. split; [reflexivity|].
  exact (proj1 (proj2
           (@tea_create_then_get Sample.uuid_format initial
              (mkState [] [(Sample.id_tea, Sample.the_tea)] [] [])
              (mkEnv Sample.id_tea Sample.t1) Sample.tea_body
              Sample.the_tea eq_refl eq_refl))).
Defined.

Lemma brew_create_then_get_witness :
  Sample.uuid_format Sample.id_brew = true
  /\ brews_create Sample.uuid_format
       (mkState [(Sample.id_teapot, Sample.the_teapot)]
          [(Sample.id_tea, Sample.the_tea)] [] [])
       (mkEnv Sample.id_brew Sample.t2) Sample.brew_body
     = (mkState [(Sample.id_teapot, Sample.the_teapot)]
          [(Sample.id_tea, Sample.the_tea)]
          [(Sample.id_brew, Sample.the_brew)] [],
        Responded (mkResponse 201 (BBrew Sample.the_brew)))
  /\ exists teapot tea,
       JsMap.get Sample.id_teapot [(Sample.id_teapot, Sample.the_teapot)]
       = Some teapot
       /\ JsMap.get Sample.id_tea [(Sample.id_tea, Sample.the_tea)] = Some tea
       /\ brews_get Sample.uuid_format
            (mkState [(Sample.id_teapot, Sample.the_teapot)]
               [(Sample.id_tea, Sample.the_tea)]
               [(Sample.id_brew, Sample.the_brew)] [])
            Sample.id_brew
          = (mkState [(Sample.id_teapot, Sample.the_teapot)]
               [(Sample.id_tea, Sample.the_tea)]
               [(Sample.id_brew, Sample.the_brew)] [],
             Responded
               (mkResponse 200
                  (BBrewWithDetails Sample.the_brew teapot tea))).
Proof.
  split; [reflexivity|]. split; [reflexivity|].
  exact (proj1 (proj2
           (@brew_create_then_get Sample.uuid_format
              (mkState [(Sample.id_teapot, Sample.the_teapot)]
                 [(Sample.id_tea, Sample.the_tea)] [] [])
              (mkState [(Sample.id_teapot, Sample.the_teapot)]
                 [(Sample.id_tea, Sample.the_tea)]
                 [(Sample.id_brew, Sample.the_brew)] [])
              (mkEnv Sample.id_brew Sample.t2) Sample.brew_body
              Sample.the_brew eq_refl eq_refl))).
Defined.

Lemma teapot_put_replaces_witness :
  reachable Sample.uuid_format Sample.datetime_format Sample.decimal_Number
            Sample.served
  /\ JsMap.get Sample.id_teapot (teapots Sample.served)
     = Some Sample.the_teapot
  /\ UpdateTeapotSchema
       (JObj [("name", JStr "Tetsubin"); ("material", JStr "cast-iron");
              ("capacityMl", JNum (inject_Z 900));
              ("style", JStr "english"); ("description", JNull)])
     = Success (mkCreateTeapot "Tetsubin" cast_iron 900 english None)
  /\ exists t,
       snd (teapots_put Sample.uuid_format Sample.served
              (mkEnv Sample.id_other Sample.t5) Sample.id_teapot
              (JObj [("name", JStr "Tetsubin");
                     ("material", JStr "cast-iron");
                     ("capacityMl", JNum (inject_Z 900));
                     ("style", JStr "english"); ("description", JNull)]))
       = Responded (mkResponse 200 (BTeapot t))
       /\ teapot_id t = Sample.id_teapot
       /\ teapot_createdAt t = Sample.t0
       /\ teapot_updatedAt t = Sample.t5.
Proof.
  split; [exact served_reachable|]. split; [reflexivity|].
  split; [reflexivity|].
  destruct (@teapot_put_replaces Sample.uuid_format Sample.datetime_format
              Sample.decimal_Number Sample.served
              (mkEnv Sample.id_other Sample.t5) Sample.id_teapot
              (JObj [("name", JStr "Tetsubin");
                     ("material", JStr "cast-iron");
                     ("capacityMl", JNum (inject_Z 900));
                     ("style", JStr "english"); ("description", JNull)])
              Sample.the_teapot
              (mkCreateTeapot "Tetsubin" cast_iron 900 english None)
              served_reachable eq_refl eq_refl)
    as (t & o & Hput & _ & Hid & Hc & Hu & _).
  exists t. rewrite Hput. auto.
Defined.

Lemma tea_put_keeps_origin_witness :
  Sample.uuid_format Sample.id_tea = true
  /\ JsMap.get Sample.id_tea
       [(Sample.id_tea,
         mkTea Sample.id_tea "Sencha" green (Some "Uji") caf_medium 75 120
               None Sample.t1 Sample.t1)]
     = Some (mkTea Sample.id_tea "Sencha" green (Some "Uji") caf_medium 75
                   120 None Sample.t1 Sample.t1)
  /\ UpdateTeaSchema
       (JObj [("name", JStr "Gyokuro"); ("type", JStr "green");
              ("caffeineLevel", JStr "high");
              ("steepTempCelsius", JNum (inject_Z 60));
              ("steepTimeSeconds", JNum (inject_Z 90));
              ("description", JNull)])
     = Success (mkCreateTea "Gyokuro" green None caf_high 60 90 None)
  /\ exists t,
       snd (teas_put Sample.uuid_format
              (mkState []
                 [(Sample.id_tea,
                   mkTea Sample.id_tea "Sencha" green (Some "Uji") caf_medium
                         75 120 None Sample.t1 Sample.t1)] [] [])
              (mkEnv Sample.id_other Sample.t5) Sample.id_tea
              (JObj [("name", JStr "Gyokuro"); ("type", JStr "green");
                     ("caffeineLevel", JStr "high");
                     ("steepTempCelsius", JNum (inject_Z 60));
                     ("steepTimeSeconds", JNum (inject_Z 90));
                     ("description", JNull)]))
       = Responded (mkResponse 200 (BTea t))
       /\ tea_origin t = Some "Uji".
Proof.
  split; [reflexivity|]. split; [reflexivity|]. split; [reflexivity|].
  destruct (@tea_put_keeps_origin Sample.uuid_format
              (mkState []
                 [(Sample.id_tea,
                   mkTea Sample.id_tea "Sencha" green (Some "Uji") caf_medium
                         75 120 None Sample.t1 Sample.t1)] [] [])
              (mkEnv Sample.id_other Sample.t5) Sample.id_tea
              [("name", JStr "Gyokuro"); ("type", JStr "green");
               ("caffeineLevel", JStr "high");
               ("steepTempCelsius", JNum (inject_Z 60));
               ("steepTimeSeconds", JNum (inject_Z 90));
               ("description", JNull)]
              (mkTea Sample.id_tea "Sencha" green (Some "Uji") caf_medium 75
                     120 None Sample.t1 Sample.t1)
              (mkCreateTea "Gyokuro" green None caf_high 60 90 None)
              eq_refl eq_refl eq_refl)
    as (t & Hput & _ & _ & Hkeep & _).
  exists t. rewrite Hput. split; [reflexivity|]. exact (Hkeep eq_refl).
Defined.

Lemma malformed_id_rejected_witness :
  path_id (DELETE_teas_id "green-tea") = Some "green-tea"
  /\ Sample.uuid_format "green-tea" = false
  /\ serve Sample.uuid_format Sample.datetime_format Sample.decimal_Number
       Sample.served (mkEnv Sample.id_other Sample.t5)
       (DELETE_teas_id "green-tea")
     = (Sample.served,
        mkResponse 400
          (BError
             (mkApiError "VALIDATION_ERROR" "Invalid tea ID format" None))).
Proof.
  split; [reflexivity|]. split; [reflexivity|].
  exact (@malformed_id_rejected Sample.uuid_format Sample.datetime_format
           Sample.decimal_Number Sample.served
           (mkEnv Sample.id_other Sample.t5) (DELETE_teas_id "green-tea")
           "green-tea" eq_refl eq_refl).
Defined.

Lemma unknown_id_not_found_witness :
  path_id (GET_brews_id Sample.id_other) = Some Sample.id_other
  /\ Sample.uuid_format Sample.id_other = true
  /\ addressed_has Sample.served (GET_brews_id Sample.id_other) = false
  /\ serve Sample.uuid_format Sample.datetime_format Sample.decimal_Number
       Sample.served (mkEnv Sample.id_other Sample.t5)
       (GET_brews_id Sample.id_other)
     = (Sample.served,
        mkResponse 404
          (BError (mkApiError "NOT_FOUND" "Brew not found" None))).
Proof.
  split; [reflexivity|]. split; [reflexivity|]. split; [reflexivity|].
  exact (@unknown_id_not_found Sample.uuid_format Sample.datetime_format
           Sample.decimal_Number Sample.served
           (mkEnv Sample.id_other Sample.t5) (GET_brews_id Sample.id_other)
           Sample.id_other eq_refl eq_refl eq_refl).
Defined.

Lemma teapot_delete_no_cascade_witness :
  Sample.uuid_format Sample.id_teapot = true
  /\ JsMap.get Sample.id_teapot (teapots Sample.served)
     = Some Sample.the_teapot
  /\ exists s',
       teapots_delete Sample.uuid_format Sample.served Sample.id_teapot
       = (s', Responded (mkResponse 204 BEmpty))
       /\ brews s' = brews Sample.served
       /\ steeps s' = steeps Sample.served
       /\ brews_get Sample.uuid_format s' Sample.id_brew
          = (s', Responded (mkResponse 200 (BBrew Sample.the_brew))).
Proof.
  split; [reflexivity|]. split; [reflexivity|].
  destruct (@teapot_delete_no_cascade Sample.uuid_format
              Sample.datetime_format Sample.decimal_Number Sample.served
              Sample.id_teapot Sample.the_teapot eq_refl eq_refl)
    as (s' & Hdel & _ & _ & Hb & Hs & _ & _ & _ & Hget).
  exists s'. split; [exact Hdel|]. split; [exact Hb|]. split; [exact Hs|].
  exact (Hget Sample.id_brew Sample.the_brew eq_refl eq_refl eq_refl).
Defined.

Lemma tea_delete_no_cascade_witness :
  Sample.uuid_format Sample.id_tea = true
  /\ JsMap.get Sample.id_tea (teas Sample.served) = Some Sample.the_tea
  /\ exists s',
       teas_delete Sample.uuid_format Sample.served Sample.id_tea
       = (s', Responded (mkResponse 204 BEmpty))
       /\ brews s' = brews Sample.served
       /\ steeps s' = steeps Sample.served
       /\ brews_get Sample.uuid_format s' Sample.id_brew
          = (s', Responded (mkResponse 200 (BBrew Sample.the_brew))).
Proof.
  split; [reflexivity|]. split; [reflexivity|].
  destruct (@tea_delete_no_cascade Sample.uuid_format
              Sample.datetime_format Sample.decimal_Number Sample.served
              Sample.id_tea Sample.the_tea eq_refl eq_refl)
    as (s' & Hdel & _ & _ & Hb & Hs & _ & _ & _ & Hget).
  exists s'. split; [exact Hdel|]. split; [exact Hb|]. split; [exact Hs|].
  exact (Hget Sample.id_brew Sample.the_brew eq_refl eq_refl eq_refl).
Defined.

Lemma update_idempotent_witness :
  reachable Sample.uuid_format Sample.datetime_format Sample.decimal_Number
            Sample.served
  /\ is_put_or_patch
       (PATCH_brews_id Sample.id_brew (JObj [("status", JStr "ready")]))
     = true
  /\ serve Sample.uuid_format Sample.datetime_format Sample.decimal_Number
       (fst (serve Sample.uuid_format Sample.datetime_format
               Sample.decimal_Number Sample.served
               (mkEnv Sample.id_other Sample.t5)
               (PATCH_brews_id Sample.id_brew
                  (JObj [("status", JStr "ready")]))))
       (mkEnv Sample.id_other Sample.t5)
       (PATCH_brews_id Sample.id_brew (JObj [("status", JStr "ready")]))
     = serve Sample.uuid_format Sample.datetime_format Sample.decimal_Number
         Sample.served (mkEnv Sample.id_other Sample.t5)
         (PATCH_brews_id Sample.id_brew (JObj [("status", JStr "ready")])).
Proof.
  split; [exact served_reachable|]. split; [reflexivity|].
  exact (@update_idempotent Sample.uuid_format Sample.datetime_format
           Sample.decimal_Number Sample.served
           (mkEnv Sample.id_other Sample.t5)
           (PATCH_brews_id Sample.id_brew (JObj [("status", JStr "ready")]))
           served_reachable eq_refl).
Defined.


Lemma list_filters_witness :
  In Sample.the_teapot (JsMap.values (teapots Sample.served))
  /\ In Sample.the_teapot
       (teapots_items Sample.served (mkTeapotQuery 1 20 (Some clay) None))
  /\ ~ In Sample.the_teapot
         (teapots_items Sample.served
            (mkTeapotQuery 1 20 (Some glass) None)).
Proof.
  split; [simpl; auto|]. split.
  - apply (proj1 (list_filters Sample.served)).
    split; [simpl; auto|]. split; intros x E; simpl in E.
    + injection E as <-. reflexivity.
    + discriminate E.
  - intros H.
    apply (proj1 (list_filters Sample.served)) in H.
    destruct H as (_ & Hm & _). specialize (Hm glass eq_refl).
    discriminate Hm.
Defined.

Lemma brews_list_filters_witness :
  In Sample.the_brew (JsMap.values (brews Sample.served))
  /\ In Sample.the_brew
       (brews_items Sample.served
          (mkBrewQuery 1 20 None (Some Sample.id_teapot) (Some "")))
  /\ ~ In Sample.the_brew
         (brews_items Sample.served
            (mkBrewQuery 1 20 (Some ready) None None)).
Proof.
  split; [simpl; auto|]. split.
  - apply (proj1 (brews_list_filters Sample.served
                    (mkBrewQuery 1 20 None (Some Sample.id_teapot) (Some ""))
                    Sample.the_brew)).
    split; [simpl; auto|]. split; [|split]; intros x E; simpl in E.
    + discriminate E.
    + injection E as <-. reflexivity.
    + injection E as <-. intros Hne. now destruct Hne.
  - intros H.
    apply (proj1 (brews_list_filters Sample.served
                    (mkBrewQuery 1 20 (Some ready) None None)
                    Sample.the_brew)) in H.
    destruct H as (_ & Hst & _). specialize (Hst ready eq_refl).
    discriminate Hst.
Defined.

Lemma steep_list_sorted_witness :
  reachable Sample.uuid_format Sample.datetime_format Sample.decimal_Number
            Sample.served
  /\ Sorted steepNumber_le (steeps_items Sample.served Sample.id_brew)
  /\ steeps_items Sample.served Sample.id_brew
     = steeps_of Sample.id_brew Sample.served.
Proof.
  split; [exact served_reachable|].
  destruct (@steep_list_sorted Sample.uuid_format Sample.datetime_format
              Sample.decimal_Number Sample.served Sample.id_brew)
    as (Hsorted & _ & _ & Hsame).
  split; [exact Hsorted|exact (Hsame served_reachable)].
Defined.

Lemma new_steep_listed_last_witness :
  reachable Sample.uuid_format Sample.datetime_format Sample.decimal_Number
            Sample.served
  /\ env_ok Sample.uuid_format Sample.served
       (mkEnv Sample.id_other Sample.t5)
  /\ brew_steeps_create Sample.uuid_format Sample.served
       (mkEnv Sample.id_other Sample.t5) Sample.id_brew Sample.steep_body
     = (with_steeps Sample.served
          (steeps Sample.served
           ++ [(Sample.id_other,
                mkSteep Sample.id_other Sample.id_brew 3 30 None None
                        Sample.t5)]),
        Responded
          (mkResponse 201
             (BSteep
                (mkSteep Sample.id_other Sample.id_brew 3 30 None None
                         Sample.t5))))
  /\ steeps_items
       (with_steeps Sample.served
          (steeps Sample.served
           ++ [(Sample.id_other,
                mkSteep Sample.id_other Sample.id_brew 3 30 None None
                        Sample.t5)]))
       Sample.id_brew
     = steeps_items Sample.served Sample.id_brew
       ++ [mkSteep Sample.id_other Sample.id_brew 3 30 None None Sample.t5].
Proof.
  assert (Henv : env_ok Sample.uuid_format Sample.served
                   (mkEnv Sample.id_other Sample.t5))
    by (vm_compute; repeat split).
  split; [exact served_reachable|]. split; [exact Henv|].
  split; [reflexivity|].
  exact (proj1
           (@new_steep_listed_last Sample.uuid_format Sample.datetime_format
              Sample.decimal_Number Sample.served _
              (mkEnv Sample.id_other Sample.t5) Sample.id_brew
              Sample.steep_body
              (mkSteep Sample.id_other Sample.id_brew 3 30 None None
                       Sample.t5)
              served_reachable Henv eq_refl)).
Defined.

Lemma pages_partition_witness :
  1 <= 2
  /\ pages (math_ceil_div 5 2) = [1; 2; 3]
  /\ flat_map (fun page => page_data [10; 20; 30; 40; 50] page 2)
       (pages (math_ceil_div 5 2))
     = [10; 20; 30; 40; 50].
Proof.
  split; [lia|]. split; [reflexivity|].
  exact (proj1 (@pages_partition Z [10; 20; 30; 40; 50] 2 ltac:(lia))).
Defined.

Lemma teapot_brews_is_filtered_list_witness :
  Sample.uuid_format Sample.id_teapot = true
  /\ Sample.id_teapot <> ""
  /\ JsMap.has Sample.id_teapot (teapots Sample.served) = true
  /\ assoc "status" [("limit", "5")] = None
  /\ assoc "teaId" [("limit", "5")] = None
  /\ getTeapotBrews Sample.uuid_format Sample.decimal_Number Sample.served
       Sample.id_teapot [("limit", "5")]
     = brews_list Sample.uuid_format Sample.decimal_Number Sample.served
         [("teapotId", Sample.id_teapot); ("limit", "5")].
Proof.
  assert (Hne : Sample.id_teapot <> "") by discriminate.
  split; [reflexivity|]. split; [exact Hne|]. split; [reflexivity|].
  split; [reflexivity|]. split; [reflexivity|].
  exact (@teapot_brews_is_filtered_list Sample.uuid_format
           Sample.decimal_Number Sample.served Sample.id_teapot
           [("limit", "5")] eq_refl Hne eq_refl eq_refl eq_refl).
Defined.

Lemma brew_status_unconstrained_witness :
  Sample.uuid_format Sample.id_brew = true
  /\ JsMap.get Sample.id_brew
       [(Sample.id_brew,
         mkBrew Sample.id_brew Sample.id_teapot Sample.id_tea cold
                75 None Sample.t2 (Some Sample.t4) Sample.t2 Sample.t4)]
     = Some (mkBrew Sample.id_brew Sample.id_teapot Sample.id_tea
               cold 75 None Sample.t2 (Some Sample.t4) Sample.t2
               Sample.t4)
  /\ snd (brews_patch Sample.uuid_format Sample.datetime_format
            (mkState [] []
               [(Sample.id_brew,
                 mkBrew Sample.id_brew Sample.id_teapot Sample.id_tea
                   cold 75 None Sample.t2 (Some Sample.t4)
                   Sample.t2 Sample.t4)] [])
            (mkEnv Sample.id_other Sample.t5) Sample.id_brew
            (JObj [("status", JStr "preparing")]))
     = Responded
         (mkResponse 200
            (BBrew
               (mkBrew Sample.id_brew Sample.id_teapot Sample.id_tea
                  preparing 75 None Sample.t2 (Some Sample.t4) Sample.t2
                  Sample.t5))).
Proof.
  split; [reflexivity|]. split; [reflexivity|].
  exact (f_equal snd
           (@brew_status_unconstrained Sample.uuid_format
              Sample.datetime_format
              (mkState [] []
                 [(Sample.id_brew,
                   mkBrew Sample.id_brew Sample.id_teapot Sample.id_tea
                     cold 75 None Sample.t2 (Some Sample.t4)
                     Sample.t2 Sample.t4)] [])
              (mkEnv Sample.id_other Sample.t5) Sample.id_brew
              (mkBrew Sample.id_brew Sample.id_teapot Sample.id_tea
                 cold 75 None Sample.t2 (Some Sample.t4) Sample.t2
                 Sample.t4)
              preparing eq_refl eq_refl)).
Defined.

Lemma steeps_immutable_witness :
  reachable Sample.uuid_format Sample.datetime_format Sample.decimal_Number
            Sample.served
  /\ env_ok Sample.uuid_format Sample.served
       (mkEnv Sample.id_other Sample.t5)
  /\ In (Sample.id_steep1, Sample.steep1) (steeps Sample.served)
  /\ In (Sample.id_steep1, Sample.steep1)
       (steeps
          (fst (serve Sample.uuid_format Sample.datetime_format
                  Sample.decimal_Number Sample.served
                  (mkEnv Sample.id_other Sample.t5)
                  (PATCH_brews_id Sample.id_brew
                     (JObj [("status", JStr "served")]))))).
Proof.
  assert (Henv : env_ok Sample.uuid_format Sample.served
                   (mkEnv Sample.id_other Sample.t5))
    by (vm_compute; repeat split).
  split; [exact served_reachable|]. split; [exact Henv|].
  split; [simpl; auto|].
  destruct (proj1
              (@steeps_immutable Sample.uuid_format Sample.datetime_format
                 Sample.decimal_Number Sample.served
                 (mkEnv Sample.id_other Sample.t5)
                 (PATCH_brews_id Sample.id_brew
                    (JObj [("status", JStr "served")]))
                 Sample.id_steep1 Sample.steep1 served_reachable Henv)
              (or_introl eq_refl)) as [Hin | Hdel].
  - exact Hin.
  - discriminate Hdel.
Defined.

Lemma creation_defaults_witness :
  teas_create initial (mkEnv Sample.id_tea Sample.t1) Sample.tea_body
  = (mkState [] [(Sample.id_tea, Sample.the_tea)] [] [],
     Responded (mkResponse 201 (BTea Sample.the_tea)))
  /\ tea_caffeineLevel Sample.the_tea = caf_medium
  /\ tea_description Sample.the_tea = None
  /\ tea_origin Sample.the_tea = None.
Proof.
  split; [reflexivity|].
  destruct (proj1 (proj2
              (@creation_defaults Sample.uuid_format initial
                 (mkState [] [(Sample.id_tea, Sample.the_tea)] [] [])
                 (mkEnv Sample.id_tea Sample.t1)
                 [("name", JStr "Sencha"); ("type", JStr "green");
                  ("steepTempCelsius", JNum (inject_Z 75));
                  ("steepTimeSeconds", JNum (inject_Z 120))]))
              Sample.the_tea eq_refl) as (Hc & Hd & Ho).
  split; [exact (Hc eq_refl)|]. split; [exact (Hd eq_refl)|].
  exact (Ho eq_refl).
Defined.

Lemma default_paging_witness :
  assoc "page" [("material", "clay")] = None
  /\ assoc "limit" [("material", "clay")] = None
  /\ TeapotQuerySchema Sample.decimal_Number [("material", "clay")]
     = Success (mkTeapotQuery 1 20 (Some clay) None)
  /\ teapots_list Sample.decimal_Number Sample.served [("material", "clay")]
     = (Sample.served,
        Responded
          (mkResponse 200
             (BTeapotPage
                (mkPage [Sample.the_teapot] (mkPagination 1 20 1 1))))).
Proof.
  split; [reflexivity|]. split; [reflexivity|]. split; [reflexivity|].
  exact (proj1
           (@default_paging Sample.uuid_format Sample.decimal_Number
              Sample.served [("material", "clay")] eq_refl eq_refl)
           (mkTeapotQuery 1 20 (Some clay) None) eq_refl).
Defined.
